(** * pppd DHCPv6 relay plugin: a shallow embedding of [dhcpv6relay.c]

    The plugin listens on two UDP sockets of a PPP interface and wraps every
    accepted DHCPv6 datagram in a RELAY-FORW message that it sends to the
    configured upstream server.  This development embeds the C functions

    - [dhcpv6_type2string]        (lines 41-74)
    - [dhcpv6relay_setserver]     (lines 76-133)
    - [dhcpv6relay_down]          (lines 135-148)
    - [dhcpv6relay_init_upstream] (lines 150-169)
    - [dhcpv6relay_client_event]  (lines 171-302)
    - [dhcpv6relay_populate_ll]   (lines 316-349)
    - [dhcpv6relay_up]            (lines 351-419)

    as functions over the plugin's global variables.  Operating system calls
    are answered by an explicit record of results (one field per call site)
    and every externally visible action is appended to a trace of [event]s.
    Arrays are lists of bytes with checked accesses: an access outside the
    array is the distinguished outcome [Faulted]. *)

From Stdlib Require Import ZArith Lia Ascii String.
From stdpp Require Import base list vector.
From coqutil Require Import Byte.

Local Open Scope Z_scope.

(** ** Machine integers *)

Module C.

(** [size_t] is 64 bits wide (LP64); conversions to it wrap. *)
Definition size_t (z : Z) : Z := z mod 2 ^ 64.

(** [uint16_t t = (val)]. *)
Definition uint16_t (z : Z) : Z := z mod 2 ^ 16.

(** Assignment of an [int] expression to an [unsigned char]. *)
Definition uchar (z : Z) : byte := byte.of_Z z.

End C.

(** ** Constants of [dhcpv6relay.h]

    The header is not part of the source tree, so the constants the modelled
    functions use are parameters.  The message types are the case labels of
    the [switch] in [dhcpv6_type2string], which C requires to be pairwise
    distinct; the two inequalities the relay logic depends on are recorded. *)

Class dhcpv6relay_h : Type := {
  DHCPv6_MSGTYPE_REPLY : Z;
  DHCPv6_MSGTYPE_RELAY_FORW : Z;
  DHCPv6_MSGTYPE_RELAY_REPL : Z;
  DHCPv6_OPTION_RELAY_MSG : Z;
  DHCPv6_OPTION_REMOTE_ID : Z;
  DHCPv6_OPTION_SUBSCRIBER_ID : Z;
  DHCPv6_OPTION_RELAY_PORT : Z;
  relay_forw_not_reply : DHCPv6_MSGTYPE_RELAY_FORW <> DHCPv6_MSGTYPE_REPLY;
  relay_forw_not_relay_repl : DHCPv6_MSGTYPE_RELAY_FORW <> DHCPv6_MSGTYPE_RELAY_REPL
}.

(** The values assigned by RFC 8415 (message types, Relay Message option),
    RFC 4649 (Remote-ID), RFC 4580 (Subscriber-ID) and RFC 8357 (Relay
    Source Port).  Used to evaluate the model on concrete packets. *)
Definition rfc_header : dhcpv6relay_h := {|
  DHCPv6_MSGTYPE_REPLY := 7;
  DHCPv6_MSGTYPE_RELAY_FORW := 12;
  DHCPv6_MSGTYPE_RELAY_REPL := 13;
  DHCPv6_OPTION_RELAY_MSG := 9;
  DHCPv6_OPTION_REMOTE_ID := 37;
  DHCPv6_OPTION_SUBSCRIBER_ID := 38;
  DHCPv6_OPTION_RELAY_PORT := 135;
  relay_forw_not_reply := ltac:(discriminate);
  relay_forw_not_relay_repl := ltac:(discriminate)
|}.

(** ** Socket addresses *)

(** A 16-bit field kept in network byte order, as its two bytes in memory. *)
Definition in_port_t : Type := byte * byte.

(** [ntohs]: the number whose big-endian representation the field holds. *)
Definition ntohs (p : in_port_t) : Z :=
  Z.lor (Z.shiftl (byte.unsigned (fst p)) 8) (byte.unsigned (snd p)).

(** [struct in6_addr]: [uint8_t s6_addr[16]]. *)
Definition in6_addr : Type := vec byte 16.

Record sockaddr_in6 : Type := {
  sin6_port : in_port_t;
  sin6_addr : in6_addr;
  sin6_scope_id : Z
}.

(** A socket address as a union tagged by its family. *)
Inductive sockaddr : Type :=
| SA_in (sin_port : in_port_t)
| SA_in6 (sa6 : sockaddr_in6)
| SA_other.

(** [AF_INET6] as a number, for the trace of [socket] calls (Linux value). *)
Definition AF_INET6 : Z := 10.

(** ** Global variables of the plugin (lines 21, 35-39) *)

Record globals : Type := {
  dhcpv6relay_trusted : bool;
  dhcpv6relay_server : option string;
  dhcpv6relay_sock_ll : Z;
  dhcpv6relay_sock_mc : Z;
  dhcpv6relay_upstream : Z;
  dhcpv6relay_sa_family : Z
}.

Definition set_sock_ll (fd : Z) (g : globals) : globals :=
  {| dhcpv6relay_trusted := dhcpv6relay_trusted g;
     dhcpv6relay_server := dhcpv6relay_server g;
     dhcpv6relay_sock_ll := fd;
     dhcpv6relay_sock_mc := dhcpv6relay_sock_mc g;
     dhcpv6relay_upstream := dhcpv6relay_upstream g;
     dhcpv6relay_sa_family := dhcpv6relay_sa_family g |}.

Definition set_sock_mc (fd : Z) (g : globals) : globals :=
  {| dhcpv6relay_trusted := dhcpv6relay_trusted g;
     dhcpv6relay_server := dhcpv6relay_server g;
     dhcpv6relay_sock_ll := dhcpv6relay_sock_ll g;
     dhcpv6relay_sock_mc := fd;
     dhcpv6relay_upstream := dhcpv6relay_upstream g;
     dhcpv6relay_sa_family := dhcpv6relay_sa_family g |}.

Definition set_upstream (fd : Z) (g : globals) : globals :=
  {| dhcpv6relay_trusted := dhcpv6relay_trusted g;
     dhcpv6relay_server := dhcpv6relay_server g;
     dhcpv6relay_sock_ll := dhcpv6relay_sock_ll g;
     dhcpv6relay_sock_mc := dhcpv6relay_sock_mc g;
     dhcpv6relay_upstream := fd;
     dhcpv6relay_sa_family := dhcpv6relay_sa_family g |}.

(** ** Externally visible actions *)

Inductive level : Type := LError | LWarn | LNotice.

(** Log calls carry their format string; the arguments are not modelled.
    System calls carry the descriptor they act on. *)
Inductive event : Type :=
| ELog (l : level) (fmt : string)
| ERemoveFd (fd : Z)
| EAddFdCallback (fd : Z)
| EClose (fd : Z)
| ESocket (family : Z) (ret : Z)
| EConnect (fd : Z)
| EFcntl (fd : Z)
| EBind (fd : Z) (sa : sockaddr_in6)
| ESetsockopt (fd : Z) (optname : string)
| ERecvfrom (fd : Z)
| EGetsockname (fd : Z)
| ESendmsg (fd : Z) (iov0 iov1 : list byte).

Definition is_socket (e : event) : bool :=
  match e with ESocket _ _ => true | _ => false end.

(** ** The monad of the embedding

    A computation reads and writes the globals, emits events, and either
    continues with a value ([Cont]), leaves the enclosing C function by a
    [return] statement ([Returned]), or accesses an array out of bounds
    ([Faulted]). *)

Inductive outcome (A : Type) : Type :=
| Cont (a : A) (g : globals) (t : list event)
| Returned (g : globals) (t : list event)
| Faulted (t : list event).
Arguments Cont {A} a g t.
Arguments Returned {A} g t.
Arguments Faulted {A} t.

Definition M (A : Type) : Type := globals -> outcome A.

Definition ret {A} (a : A) : M A := fun g => Cont a g [].

(** The events [t1] happened before those of [o]. *)
Definition prepend {A} (t1 : list event) (o : outcome A) : outcome A :=
  match o with
  | Cont a g t => Cont a g (t1 ++ t)
  | Returned g t => Returned g (t1 ++ t)
  | Faulted t => Faulted (t1 ++ t)
  end.

Definition bind {A B} (m : M A) (k : A -> M B) : M B := fun g =>
  match m g with
  | Cont a g1 t1 => prepend t1 (k a g1)
  | Returned g1 t1 => Returned g1 t1
  | Faulted t1 => Faulted t1
  end.

Declare Scope relay_scope.
Delimit Scope relay_scope with relay.
Notation "x <- m ;; k" := (bind m (fun x => k))
  (at level 100, m at level 99, k at level 200, right associativity,
   format "'[v' x  <-  m  ;; '/' k ']'") : relay_scope.
Notation "m ;; k" := (bind m (fun _ => k))
  (at level 100, k at level 200, right associativity,
   format "'[v' m  ;; '/' k ']'") : relay_scope.
Local Open Scope relay_scope.

Definition emit (e : event) : M unit := fun g => Cont tt g [e].
Definition return_ {A} : M A := fun g => Returned g [].
Definition fault {A} : M A := fun _ => Faulted [].
Definition get : M globals := fun g => Cont g g [].
Definition modify (f : globals -> globals) : M unit := fun g => Cont tt (f g) [].

(** [if (c) { body }] where [body] may end in [return]. *)
Definition when (c : bool) (body : M unit) : M unit :=
  if c then body else ret tt.

(** A call of a [void] function: its [return] ends the callee only. *)
Definition call (f : M unit) : M unit := fun g =>
  match f g with
  | Cont _ g1 t | Returned g1 t => Cont tt g1 t
  | Faulted t => Faulted t
  end.

(** Running a whole function: final globals and trace, or [None] on a fault. *)
Definition exec (f : M unit) (g : globals) : option (globals * list event) :=
  match f g with
  | Cont _ g1 t | Returned g1 t => Some (g1, t)
  | Faulted _ => None
  end.

Definition error (fmt : string) : M unit := emit (ELog LError fmt).
Definition warn (fmt : string) : M unit := emit (ELog LWarn fmt).
Definition notice (fmt : string) : M unit := emit (ELog LNotice fmt).

(** ** Arrays *)

(** [a[i]] as an rvalue. *)
Definition load (a : list byte) (i : Z) : M byte :=
  if (0 <=? i) && (i <? Z.of_nat (List.length a))
  then match a !! Z.to_nat i with Some b => ret b | None => fault end
  else fault.

(** [a[i] = b]. *)
Definition store (a : list byte) (i : Z) (b : byte) : M (list byte) :=
  if (0 <=? i) && (i <? Z.of_nat (List.length a))
  then ret (<[Z.to_nat i := b]> a)
  else fault.

(** [memcpy(&dst[off], src, n)]: [src] is the memory the source pointer
    designates. *)
Definition memcpy (dst : list byte) (off : Z) (src : list byte) (n : Z) : M (list byte) :=
  if (0 <=? off) && (0 <=? n) && (off + n <=? Z.of_nat (List.length dst))
     && (n <=? Z.of_nat (List.length src))
  then ret (take (Z.to_nat off) dst ++ take (Z.to_nat n) src
            ++ drop (Z.to_nat (off + n)) dst)
  else fault.

(** [memset(&dst[off], c, n)]. *)
Definition memset (dst : list byte) (off : Z) (c : byte) (n : Z) : M (list byte) :=
  memcpy dst off (replicate (Z.to_nat n) c) n.

(** ** C strings *)

(** The bytes a [const char*] designates before the terminating NUL: a
    string value is cut at its first NUL character. *)
Fixpoint cstr (s : string) : list byte :=
  match s with
  | EmptyString => []
  | String c s' =>
      if Ascii.eqb c Ascii.zero then [] else Ascii.byte_of_ascii c :: cstr s'
  end.

Definition strlen (s : string) : Z := Z.of_nat (List.length (cstr s)).

(** [strcmp(a, b) == 0]. *)
Definition streq (a b : string) : bool :=
  String.eqb (string_of_list_byte (cstr a)) (string_of_list_byte (cstr b)).

(** ** Answers of the environment *)

Record datagram : Type := {
  dg_payload : list byte;
  dg_from : sockaddr_in6
}.

(** What one run of [dhcpv6relay_client_event] meets: the indeterminate
    contents of its automatic variables on entry, and the result of each
    call it makes.  [None] and [false] stand for a return value of -1. *)
Record client_os : Type := {
  stack_buffer : nat -> byte;
  stack_fwd_head : nat -> byte;
  stack_sa : sockaddr_in6;
  recvfrom_result : option datagram;
  socket_result : option N;
  connect_ok : bool;
  getsockname_result : option sockaddr;
  ppp_get_remote_number : option string;
  ppp_peer_authname : option string;
  sendmsg_ok : bool
}.

Definition sizeof_buffer : Z := 1024.
Definition sizeof_fwd_head : Z := 256.

(** An automatic array of [n] bytes before it is written. *)
Definition uninitialised (stack : nat -> byte) (n : Z) : list byte :=
  map stack (seq 0 (Z.to_nat n)).

(** [recvfrom(fd, buffer, len, MSG_DONTWAIT, &sa, &slen)] on a datagram
    socket: at most [len] bytes of the datagram are stored at the start of
    [buffer], the excess is discarded and the count of stored bytes is
    returned; the rest of [buffer] keeps what it held. *)
Definition recvfrom (os : client_os) (buffer : list byte) (len : Z)
  : Z * list byte * sockaddr_in6 :=
  match recvfrom_result os with
  | None => (-1, buffer, stack_sa os)
  | Some d =>
      let r := Z.min (Z.of_nat (List.length (dg_payload d))) len in
      (r, take (Z.to_nat r) (dg_payload d) ++ drop (Z.to_nat r) buffer, dg_from d)
  end.

(** The descriptor returned by [socket]. *)
Definition socket_ret (res : option N) : Z :=
  match res with Some fd => Z.of_N fd | None => -1 end.

(** ** [dhcpv6relay_down] (lines 135-148) *)

Definition dhcpv6relay_down : M unit :=
  g <- get ;;
  when (dhcpv6relay_sock_ll g >=? 0)
    (emit (ERemoveFd (dhcpv6relay_sock_ll g)) ;;
     emit (EClose (dhcpv6relay_sock_ll g)) ;;
     modify (set_sock_ll (-1))) ;;
  g <- get ;;
  when (dhcpv6relay_sock_mc g >=? 0)
    (emit (ERemoveFd (dhcpv6relay_sock_mc g)) ;;
     emit (EClose (dhcpv6relay_sock_mc g)) ;;
     modify (set_sock_mc (-1))).

(** ** [dhcpv6relay_init_upstream] (lines 150-169) *)

Definition dhcpv6relay_init_upstream (os : client_os) : M Z :=
  g <- get ;;
  let fd := socket_ret (socket_result os) in
  emit (ESocket (dhcpv6relay_sa_family g) fd) ;;
  modify (set_upstream fd) ;;
  if fd <? 0 then
    error "DHCPv6 relay: Failed to bind upstream socket: %s" ;;
    ret 0
  else
    emit (EConnect fd) ;;
    if negb (connect_ok os) then
      error "DHCPv6 relay: Failed to connect upstream socket: %s" ;;
      emit (EClose fd) ;;
      modify (set_upstream (-1)) ;;
      ret 0
    else
      ret 1.

(** ** The append macros (lines 252-254)

    [v[0]] is the pair of [fwd_head] and the count of bytes used in it. *)

Record iovec : Type := {
  iov_base : list byte;
  iov_len : Z
}.

Definition push_checkbytes (x : Z) (v0 : iovec) : M unit :=
  when (C.size_t (x + iov_len v0) >? sizeof_fwd_head)
    (error "DHCPv6 relay: Buffer overlow avoidance pushing %d bytes, need %d." ;;
     return_).

Definition push_uint16 (val : Z) (v0 : iovec) : M iovec :=
  push_checkbytes 2 v0 ;;
  let t := C.uint16_t val in
  a <- store (iov_base v0) (iov_len v0) (C.uchar (Z.shiftr t 8)) ;;
  let v0 := {| iov_base := a; iov_len := C.size_t (iov_len v0 + 1) |} in
  a <- store (iov_base v0) (iov_len v0) (C.uchar (Z.land t 255)) ;;
  ret {| iov_base := a; iov_len := C.size_t (iov_len v0 + 1) |}.

Definition push_bytes (ptr : list byte) (bytes : Z) (v0 : iovec) : M iovec :=
  push_checkbytes bytes v0 ;;
  a <- memcpy (iov_base v0) (iov_len v0) ptr (C.size_t bytes) ;;
  ret {| iov_base := a; iov_len := C.size_t (iov_len v0 + bytes) |}.

(** ** [dhcpv6relay_client_event] (lines 171-302) *)

Section Handler.
Context {hdr : dhcpv6relay_h}.

(** Lines 239-243: the fixed part of the RELAY-FORW message.  [b0] is the
    value of [buffer[0]]. *)
Definition populate_forward_header (fwd_head buffer : list byte) (b0 : byte)
    (sa : sockaddr_in6) : M iovec :=
  fwd_head <- store fwd_head 0 (C.uchar DHCPv6_MSGTYPE_RELAY_FORW) ;;
  hop <- (if byte.unsigned b0 =? DHCPv6_MSGTYPE_RELAY_FORW
          then b1 <- load buffer 1 ;; ret (byte.unsigned b1 + 1)
          else ret 0) ;;
  fwd_head <- store fwd_head 1 (C.uchar hop) ;;
  fwd_head <- memset fwd_head 2 Byte.x00 16 ;;
  fwd_head <- memcpy fwd_head 18 (vec_to_list (sin6_addr sa)) 16 ;;
  ret {| iov_base := fwd_head; iov_len := 34 |}.

(** Lines 270-292: the options; [v1_iov_len] is the length of the
    datagram that follows them as the second segment. *)
Definition push_options (os : client_os) (sport : in_port_t) (v1_iov_len : Z)
    (v0 : iovec) : M iovec :=
  v0 <- push_uint16 DHCPv6_OPTION_RELAY_PORT v0 ;;
  v0 <- push_uint16 2 v0 ;;
  v0 <- push_uint16 (ntohs sport) v0 ;;
  v0 <- match ppp_get_remote_number os with
        | Some remote_id =>
            let r := strlen remote_id in
            v0 <- push_uint16 DHCPv6_OPTION_REMOTE_ID v0 ;;
            v0 <- push_uint16 r v0 ;;
            push_bytes (cstr remote_id ++ [Byte.x00]) r v0
        | None => ret v0
        end ;;
  v0 <- match ppp_peer_authname os with
        | Some subscriber_id =>
            let r := strlen subscriber_id in
            v0 <- push_uint16 DHCPv6_OPTION_SUBSCRIBER_ID v0 ;;
            v0 <- push_uint16 r v0 ;;
            push_bytes (cstr subscriber_id ++ [Byte.x00]) r v0
        | None => ret v0
        end ;;
  v0 <- push_uint16 DHCPv6_OPTION_RELAY_MSG v0 ;;
  push_uint16 v1_iov_len v0.

(** Lines 235-302: what the handler does with a datagram that passed
    the checks of lines 203-233.  [buffer] holds the datagram in its first
    [v1_iov_len] bytes, [b0] is the value of [buffer[0]] and [sa] the
    address [recvfrom] reported. *)
Definition relay_forward (os : client_os) (buffer fwd_head : list byte)
    (v1_iov_len : Z) (b0 : byte) (sa : sockaddr_in6) : M unit :=
  g <- get ;;
  when (dhcpv6relay_upstream g <? 0)
    (ok <- dhcpv6relay_init_upstream os ;;
     when (ok =? 0) return_) ;;
  (* populate the forward header *)
  v0 <- populate_forward_header fwd_head buffer b0 sa ;;
  g <- get ;;
  emit (EGetsockname (dhcpv6relay_upstream g)) ;;
  sa <- match getsockname_result os with
        | None =>
            error "DHCPv6 relay: Unable to determine local sending port: %s" ;;
            return_
        | Some sa => ret sa
        end ;;
  sport <- match sa with
           | SA_in sin_port => ret sin_port
           | SA_in6 sa6 => ret (sin6_port sa6)
           | SA_other =>
               error "DHCPv6 relay: Upstream socket is bound to something other than IP ... can't relay." ;;
               return_
           end ;;
  v0 <- push_options os sport v1_iov_len v0 ;;
  emit (ESendmsg (dhcpv6relay_upstream g)
          (take (Z.to_nat (iov_len v0)) (iov_base v0))
          (take (Z.to_nat v1_iov_len) buffer)) ;;
  when (negb (sendmsg_ok os))
    (error "DHCPv6 relay: Failed to transmit proxies request: %s").

Definition dhcpv6relay_client_event (os : client_os) (fd : Z) : M unit :=
  let buffer := uninitialised (stack_buffer os) sizeof_buffer in
  let fwd_head := uninitialised (stack_fwd_head os) sizeof_fwd_head in
  emit (ERecvfrom fd) ;;
  let '(r, buffer, sa) := recvfrom os buffer sizeof_buffer in
  when (r <? 0)
    (error "DHCPv6 relay: Failed to read from %s socket: %s" ;;
     return_) ;;
  when (C.size_t r >=? sizeof_buffer)
    (error "DHCPv6 buffer overrun, recvfrom returned %d, max %u" ;;
     return_) ;;
  let v1_iov_len := r in
  (* buffer[0] is read for the log line and again by each test below;
     the array is not written in between *)
  b0 <- load buffer 0 ;;
  error "Reveived %d bytes from fd=%d (%s), with source [%s]:%d, packet type: %s" ;;
  (* disallow Reply and Relay-Reply messages *)
  when ((byte.unsigned b0 =? DHCPv6_MSGTYPE_REPLY)
        || (byte.unsigned b0 =? DHCPv6_MSGTYPE_RELAY_REPL))
    (warn "Discarding DHCPv6 %s message received on PPP interface." ;;
     return_) ;;
  (* if the interface is not trusted, also discard Relay-Fwd messages *)
  g <- get ;;
  when (negb (dhcpv6relay_trusted g)
        && (byte.unsigned b0 =? DHCPv6_MSGTYPE_RELAY_FORW))
    (warn "Discarding DHCPv6 %s message received on untrusted PPP interface." ;;
     return_) ;;
  relay_forward os buffer fwd_head v1_iov_len b0 sa.

End Handler.

(** ** [dhcpv6relay_populate_ll] (lines 316-349) *)

Record ifaddrs : Type := {
  ifa_name : string;
  ifa_addr : option sockaddr
}.

(** What one run of [dhcpv6relay_up] meets. *)
Record up_os : Type := {
  getifaddrs_result : option (list ifaddrs);
  ppp_ifname : string;
  getservbyname_result : option in_port_t;
  socket_ll_result : option N;
  bind_ll_ok : bool;
  inet_pton_result : Z;
  join_group_ok : bool;
  socket_mc_result : option N;
  bind_mc_ok : bool
}.

(** The loop over the interface addresses (lines 329-344). *)
Fixpoint first_ll (ifname : string) (ifap : list ifaddrs) : option sockaddr_in6 :=
  match ifap with
  | [] => None
  | ifa :: ifa_next =>
      match ifa_addr ifa with
      | Some (SA_in6 sa6) =>
          if sin6_scope_id sa6 =? 0 then first_ll ifname ifa_next
          else if negb (streq (ifa_name ifa) ifname) then first_ll ifname ifa_next
          else Some sa6
      | _ => first_ll ifname ifa_next
      end
  end.

(** Returns the [int] result and the value written through [res], if any. *)
Definition dhcpv6relay_populate_ll (os : up_os) : M (Z * option sockaddr_in6) :=
  match getifaddrs_result os with
  | None =>
      error "DHCPv6 relay: Unable to determine LL address" ;;
      ret (0, None)
  | Some ifap =>
      match first_ll (ppp_ifname os) ifap with
      | Some sa6 => ret (1, Some sa6)
      | None =>
          error "DHCPv6 relay: No matching LL addresses available for use." ;;
          ret (0, None)
      end
  end.

(** ** [dhcpv6relay_up] (lines 351-419) *)

(** [!p] for a pointer. *)
Definition is_null {A} (p : option A) : bool :=
  match p with
  | Some _ => false
  | None => true
  end.

(** ff02::1:2, All_DHCP_Relay_Agents_and_Servers. *)
Definition all_dhcp_relay_agents_and_servers : in6_addr :=
  [# Byte.xff; Byte.x02; Byte.x00; Byte.x00; Byte.x00; Byte.x00; Byte.x00; Byte.x00;
     Byte.x00; Byte.x00; Byte.x00; Byte.x00; Byte.x00; Byte.x01; Byte.x00; Byte.x02 ].

Definition in6addr_any : in6_addr := vreplicate 16 Byte.x00.

Definition dhcpv6relay_up (os : up_os) : M unit :=
  g <- get ;;
  (* no relay configured, so we can't work *)
  when (is_null (dhcpv6relay_server g)) return_ ;;
  res <- dhcpv6relay_populate_ll os ;;
  sa <- match res with
        | (_, Some sa) => ret sa
        | (_, None) => return_
        end ;;
  se <- match getservbyname_result os with
        | None =>
            error "DHCPv6 relay: Unable to determine UDP port number for dhcpv6-server: %s" ;;
            return_
        | Some s_port => ret s_port
        end ;;
  let sa := {| sin6_port := se; sin6_addr := sin6_addr sa;
               sin6_scope_id := sin6_scope_id sa |} in
  let ll := socket_ret (socket_ll_result os) in
  emit (ESocket AF_INET6 ll) ;;
  modify (set_sock_ll ll) ;;
  when (ll <? 0)
    (error "DHCPv6 relay: Unable to create LL socket: %s" ;;
     call dhcpv6relay_down ;; return_) ;;
  emit (EFcntl ll) ;;
  emit (EBind ll sa) ;;
  when (negb (bind_ll_ok os))
    (error "DHCPv6 relay: Unable to bind LL socket: %s" ;;
     call dhcpv6relay_down ;; return_) ;;
  emit (ESetsockopt ll "IPV6_UNICAST_HOPS") ;;
  (* memset(&mreq, 0, sizeof(mreq)); inet_pton(AF_INET6, "ff02::1:2", ...) *)
  let ipv6mr_multiaddr :=
    if inet_pton_result os =? 1 then all_dhcp_relay_agents_and_servers
    else in6addr_any in
  when (inet_pton_result os <? 0)
    (error "DHCPv6 relay: Error preparing multicast binding: %s" ;;
     call dhcpv6relay_down ;; return_) ;;
  emit (ESetsockopt ll "IPV6_JOIN_GROUP") ;;
  when (negb (join_group_ok os))
    (error "DHCPv6 relay: Error joining multicast group: %s" ;;
     call dhcpv6relay_down ;; return_) ;;
  let mc := socket_ret (socket_mc_result os) in
  emit (ESocket AF_INET6 mc) ;;
  modify (set_sock_mc mc) ;;
  when (mc <? 0)
    (error "DHCPv6 relay: Unable to create MC socket: %s" ;;
     call dhcpv6relay_down ;; return_) ;;
  emit (EFcntl mc) ;;
  let sa := {| sin6_port := sin6_port sa; sin6_addr := ipv6mr_multiaddr;
               sin6_scope_id := sin6_scope_id sa |} in
  emit (EBind mc sa) ;;
  when (negb (bind_mc_ok os))
    (error "DHCPv6 relay: Unable to bind MC socket: %s" ;;
     call dhcpv6relay_down ;; return_) ;;
  g <- get ;;
  emit (EAddFdCallback (dhcpv6relay_sock_ll g)) ;;
  emit (EAddFdCallback (dhcpv6relay_sock_mc g)) ;;
  notice "DHCPv6 relay: ready.".

(** ** Concrete inputs *)

Definition g_down (trusted : bool) : globals :=
  {| dhcpv6relay_trusted := trusted;
     dhcpv6relay_server := Some "dhcp.example.net"%string;
     dhcpv6relay_sock_ll := -1;
     dhcpv6relay_sock_mc := -1;
     dhcpv6relay_upstream := -1;
     dhcpv6relay_sa_family := AF_INET6 |}.

Definition g_up (trusted : bool) : globals :=
  set_sock_mc 6 (set_sock_ll 5 (g_down trusted)).

(** fe80::1, source port 546 (0x0222), on interface 3. *)
Definition client_sa : sockaddr_in6 :=
  {| sin6_port := (Byte.x02, Byte.x22);
     sin6_addr :=
       [# Byte.xfe; Byte.x80; Byte.x00; Byte.x00; Byte.x00; Byte.x00; Byte.x00; Byte.x00;
          Byte.x00; Byte.x00; Byte.x00; Byte.x00; Byte.x00; Byte.x00; Byte.x00; Byte.x01 ];
     sin6_scope_id := 3 |}.

(** The upstream socket's own address: local port 40000 (0x9c40). *)
Definition upstream_sa : sockaddr :=
  SA_in6 {| sin6_port := (Byte.x9c, Byte.x40);
            sin6_addr := in6addr_any;
            sin6_scope_id := 0 |}.

(** The interface is ppp0 with link-local address fe80::2 (scope 3); the
    service port is 547; every call of [dhcpv6relay_up] succeeds and the
    two new sockets get descriptors 8 and 9. *)
Definition uos_ok : up_os :=
  {| getifaddrs_result :=
       Some [ {| ifa_name := "lo"%string; ifa_addr := Some (SA_in (Byte.x00, Byte.x00)) |};
              {| ifa_name := "ppp0"%string;
                 ifa_addr :=
                   Some (SA_in6
                           {| sin6_port := (Byte.x00, Byte.x00);
                              sin6_addr :=
                                [# Byte.xfe; Byte.x80; Byte.x00; Byte.x00;
                                   Byte.x00; Byte.x00; Byte.x00; Byte.x00;
                                   Byte.x00; Byte.x00; Byte.x00; Byte.x00;
                                   Byte.x00; Byte.x00; Byte.x00; Byte.x02 ];
                              sin6_scope_id := 3 |}) |} ];
     ppp_ifname := "ppp0"%string;
     getservbyname_result := Some (Byte.x02, Byte.x23);
     socket_ll_result := Some 8%N;
     bind_ll_ok := true;
     inet_pton_result := 1;
     join_group_ok := true;
     socket_mc_result := Some 9%N;
     bind_mc_ok := true |}.

(** An identifier of 250 characters. *)
Definition long_id : string := string_of_list_ascii (repeat "a"%char 250).

(** An environment in which every call succeeds; the stack holds [junk]. *)
Definition os_ok (junk : byte) (payload : list byte)
    (remote_id subscriber_id : option string) : client_os :=
  {| stack_buffer := fun _ => junk;
     stack_fwd_head := fun _ => junk;
     stack_sa := client_sa;
     recvfrom_result := Some {| dg_payload := payload; dg_from := client_sa |};
     socket_result := Some 7%N;
     connect_ok := true;
     getsockname_result := Some upstream_sa;
     ppp_get_remote_number := remote_id;
     ppp_peer_authname := subscriber_id;
     sendmsg_ok := true |}.

(** ** The wire format, as the specification words it

    These definitions do not come from the C code: they restate the
    RELAY-FORW layout (a 34-byte header followed by type-length-value
    options with big-endian 16-bit fields) so that the bytes the code
    hands to [sendmsg] can be compared with it. *)

Module Wire.

(** A 16-bit number in network byte order. *)
Definition be16 (z : Z) : list byte := [byte.of_Z (z / 256); byte.of_Z z].

Definition decode_be16 (hi lo : byte) : Z :=
  256 * byte.unsigned hi + byte.unsigned lo.

(** One option: code, length of the value, value. *)
Definition tlv (code : Z) (value : list byte) : list byte :=
  be16 code ++ be16 (Z.of_nat (List.length value)) ++ value.

Definition encode_options (opts : list (Z * list byte)) : list byte :=
  concat (map (fun o => tlv (fst o) (snd o)) opts).

(** Reading options back; [fuel] bounds the number of options. *)
Fixpoint parse_options (fuel : nat) (bs : list byte) : option (list (Z * list byte)) :=
  match bs with
  | [] => Some []
  | c1 :: c0 :: l1 :: l0 :: rest =>
      match fuel with
      | O => None
      | S fuel' =>
          let len := Z.to_nat (decode_be16 l1 l0) in
          if (len <=? List.length rest)%nat then
            match parse_options fuel' (drop len rest) with
            | Some opts => Some ((decode_be16 c1 c0, take len rest) :: opts)
            | None => None
            end
          else None
      end
  | _ => None
  end.

(** An option as it reads on the wire: the code is a 16-bit field. *)
Definition on_wire (o : Z * list byte) : Z * list byte :=
  (C.uint16_t (fst o), snd o).

Definition optional (code : Z) (id : option string) : list (Z * list byte) :=
  match id with
  | Some s => [(code, cstr s)]
  | None => []
  end.

Section Layout.
Context {hdr : dhcpv6relay_h}.

(** The fixed header: msg-type, hop-count, link-address (unspecified),
    peer-address. *)
Definition header (hop : byte) (peer : in6_addr) : list byte :=
  [byte.of_Z DHCPv6_MSGTYPE_RELAY_FORW; hop]
  ++ replicate 16 Byte.x00 ++ vec_to_list peer.

(** The options that precede RELAY_MSG, in their fixed order. *)
Definition leading_options (port : in_port_t)
    (remote_id subscriber_id : option string) : list (Z * list byte) :=
  [(DHCPv6_OPTION_RELAY_PORT, [fst port; snd port])]
  ++ optional DHCPv6_OPTION_REMOTE_ID remote_id
  ++ optional DHCPv6_OPTION_SUBSCRIBER_ID subscriber_id.

(** The whole options region, RELAY_MSG with the datagram [D] last. *)
Definition options (port : in_port_t)
    (remote_id subscriber_id : option string) (D : list byte)
  : list (Z * list byte) :=
  leading_options port remote_id subscriber_id
  ++ [(DHCPv6_OPTION_RELAY_MSG, D)].

(** The first of the two segments handed to [sendmsg]: everything up to
    and including the code and length of RELAY_MSG. *)
Definition head_segment (hop : byte) (peer : in6_addr) (port : in_port_t)
    (remote_id subscriber_id : option string) (D : list byte) : list byte :=
  header hop peer
  ++ encode_options (leading_options port remote_id subscriber_id)
  ++ be16 DHCPv6_OPTION_RELAY_MSG ++ be16 (Z.of_nat (List.length D)).

(** Size of the header and options without the value of RELAY_MSG. *)
Definition encoded_size (remote_id subscriber_id : option string) : Z :=
  34 + 6
  + match remote_id with Some s => 4 + strlen s | None => 0 end
  + match subscriber_id with Some s => 4 + strlen s | None => 0 end
  + 4.

End Layout.

End Wire.

(** ** Auxiliary predicates used in the statements *)

(** The identifier strings the host hands out lie in a 64-bit address
    space: their lengths fit the [ssize_t] variable [r]. *)
Definition addressable (id : option string) : Prop :=
  match id with
  | Some s => strlen s < 2 ^ 63
  | None => True
  end.

(** [buffer] after [recvfrom] stored a datagram shorter than the array:
    the datagram, then what the stack held. *)
Definition received (os : client_os) (payload : list byte) : list byte :=
  payload ++ drop (List.length payload) (uninitialised (stack_buffer os) sizeof_buffer).

(** The value of [buffer[0]] when the handler classifies: the first byte of
    the datagram, or what the stack held when the datagram is empty. *)
Definition type_byte (os : client_os) (payload : list byte) : byte :=
  match payload with
  | b :: _ => b
  | [] => stack_buffer os 0%nat
  end.

(** The value of [buffer[1]]. *)
Definition hop_byte (os : client_os) (payload : list byte) : byte :=
  match payload with
  | _ :: b :: _ => b
  | _ => stack_buffer os 1%nat
  end.

(** The hop-count the code writes (line 240). *)
Definition outer_hop_count {hdr : dhcpv6relay_h} (os : client_os)
    (payload : list byte) : byte :=
  if byte.unsigned (type_byte os payload) =? DHCPv6_MSGTYPE_RELAY_FORW
  then C.uchar (byte.unsigned (hop_byte os payload) + 1)
  else C.uchar 0.

(** The port field of the address [getsockname] reported (lines 258-268). *)
Definition sport_of (sa : sockaddr) : option in_port_t :=
  match sa with
  | SA_in p => Some p
  | SA_in6 sa6 => Some (sin6_port sa6)
  | SA_other => None
  end.

(** [v0] has exactly the bytes [used] in use, in a 256-byte array. *)
Definition holds (v0 : iovec) (used : list byte) : Prop :=
  List.length (iov_base v0) = 256%nat
  /\ iov_len v0 = Z.of_nat (List.length used)
  /\ take (List.length used) (iov_base v0) = used.

(** [g1] differs from [g] at most in the two listening descriptors. *)
Definition listeners_only (g g1 : globals) : Prop :=
  dhcpv6relay_trusted g1 = dhcpv6relay_trusted g
  /\ dhcpv6relay_server g1 = dhcpv6relay_server g
  /\ dhcpv6relay_upstream g1 = dhcpv6relay_upstream g
  /\ dhcpv6relay_sa_family g1 = dhcpv6relay_sa_family g.

(** The log line of [push_checkbytes]. *)
Definition overflow_log : event :=
  ELog LError "DHCPv6 relay: Buffer overlow avoidance pushing %d bytes, need %d.".

(** The bytes the option pushes of lines 270-292 append to [fwd_head]:
    the leading options and the code and length of RELAY_MSG. *)
Definition pushed_options {hdr : dhcpv6relay_h} (os : client_os) (sport : in_port_t)
    (len : Z) : list byte :=
  Wire.encode_options
    (Wire.leading_options sport (ppp_get_remote_number os) (ppp_peer_authname os))
  ++ Wire.be16 DHCPv6_OPTION_RELAY_MSG ++ Wire.be16 len.

(** ** The outcomes of the handler, case by case

    The log lines, and relations that list every way lines 235-302 and the
    whole handler can end.  They are shown below to describe the functions
    above exactly. *)

Definition log_read_failed : event :=
  ELog LError "DHCPv6 relay: Failed to read from %s socket: %s".
Definition log_overrun : event :=
  ELog LError "DHCPv6 buffer overrun, recvfrom returned %d, max %u".
Definition log_received : event :=
  ELog LError "Reveived %d bytes from fd=%d (%s), with source [%s]:%d, packet type: %s".
Definition log_discard_reply : event :=
  ELog LWarn "Discarding DHCPv6 %s message received on PPP interface.".
Definition log_discard_untrusted : event :=
  ELog LWarn "Discarding DHCPv6 %s message received on untrusted PPP interface.".
Definition log_socket_failed : event :=
  ELog LError "DHCPv6 relay: Failed to bind upstream socket: %s".
Definition log_connect_failed : event :=
  ELog LError "DHCPv6 relay: Failed to connect upstream socket: %s".
Definition log_no_sockname : event :=
  ELog LError "DHCPv6 relay: Unable to determine local sending port: %s".
Definition log_not_ip : event :=
  ELog LError "DHCPv6 relay: Upstream socket is bound to something other than IP ... can't relay.".
Definition log_send_failed : event :=
  ELog LError "DHCPv6 relay: Failed to transmit proxies request: %s".

(** Line 235 leaves an upstream socket in place: the one already there, or
    a new connected one. *)
Inductive connects (os : client_os) (g : globals) : globals -> list event -> Prop :=
| connects_reuse :
    0 <= dhcpv6relay_upstream g ->
    connects os g g []
| connects_fresh (fd : N) :
    dhcpv6relay_upstream g < 0 ->
    socket_result os = Some fd ->
    connect_ok os = true ->
    connects os g (set_upstream (Z.of_N fd) g)
      [ESocket (dhcpv6relay_sa_family g) (Z.of_N fd); EConnect (Z.of_N fd)].

(** Line 235 fails to set up the upstream socket. *)
Inductive connect_fails (os : client_os) (g : globals) : list event -> Prop :=
| connect_fails_socket :
    dhcpv6relay_upstream g < 0 ->
    socket_result os = None ->
    connect_fails os g [ESocket (dhcpv6relay_sa_family g) (-1); log_socket_failed]
| connect_fails_connect (fd : N) :
    dhcpv6relay_upstream g < 0 ->
    socket_result os = Some fd ->
    connect_ok os = false ->
    connect_fails os g
      [ESocket (dhcpv6relay_sa_family g) (Z.of_N fd); EConnect (Z.of_N fd);
       log_connect_failed; EClose (Z.of_N fd)].

Section Outcomes.
Context {hdr : dhcpv6relay_h}.

(** The ways lines 235-302 end for a datagram [payload] from [peer]. *)
Inductive relayed (os : client_os) (payload : list byte) (peer : in6_addr)
    (g : globals) : outcome unit -> Prop :=
| relayed_unconnected (t : list event) :
    connect_fails os g t ->
    relayed os payload peer g (Returned (set_upstream (-1) g) t)
| relayed_no_sockname (g1 : globals) (t : list event) :
    connects os g g1 t ->
    getsockname_result os = None ->
    relayed os payload peer g
      (Returned g1 (t ++ [EGetsockname (dhcpv6relay_upstream g1); log_no_sockname]))
| relayed_not_ip (g1 : globals) (t : list event) (sa : sockaddr) :
    connects os g g1 t ->
    getsockname_result os = Some sa ->
    sport_of sa = None ->
    relayed os payload peer g
      (Returned g1 (t ++ [EGetsockname (dhcpv6relay_upstream g1); log_not_ip]))
| relayed_overflow (g1 : globals) (t : list event) (sa : sockaddr) (sport : in_port_t) :
    connects os g g1 t ->
    getsockname_result os = Some sa ->
    sport_of sa = Some sport ->
    Wire.encoded_size (ppp_get_remote_number os) (ppp_peer_authname os) > 256 ->
    relayed os payload peer g
      (Returned g1 (t ++ [EGetsockname (dhcpv6relay_upstream g1); overflow_log]))
| relayed_sent (g1 : globals) (t : list event) (sa : sockaddr) (sport : in_port_t) :
    connects os g g1 t ->
    getsockname_result os = Some sa ->
    sport_of sa = Some sport ->
    Wire.encoded_size (ppp_get_remote_number os) (ppp_peer_authname os) <= 256 ->
    relayed os payload peer g
      (Cont tt g1
         (t ++ [EGetsockname (dhcpv6relay_upstream g1);
                ESendmsg (dhcpv6relay_upstream g1)
                  (Wire.header (outer_hop_count os payload) peer
                   ++ pushed_options os sport (Z.of_nat (List.length payload)))
                  payload]
            ++ (if sendmsg_ok os then [] else [log_send_failed]))).

(** The ways [dhcpv6relay_client_event] ends. *)
Inductive handled (os : client_os) (fd : Z) (g : globals) : outcome unit -> Prop :=
| handled_read_failed :
    recvfrom_result os = None ->
    handled os fd g (Returned g [ERecvfrom fd; log_read_failed])
| handled_overrun (d : datagram) :
    recvfrom_result os = Some d ->
    (1024 <= List.length (dg_payload d))%nat ->
    handled os fd g (Returned g [ERecvfrom fd; log_overrun])
| handled_reply (d : datagram) :
    recvfrom_result os = Some d ->
    (List.length (dg_payload d) < 1024)%nat ->
    byte.unsigned (type_byte os (dg_payload d)) = DHCPv6_MSGTYPE_REPLY
    \/ byte.unsigned (type_byte os (dg_payload d)) = DHCPv6_MSGTYPE_RELAY_REPL ->
    handled os fd g (Returned g [ERecvfrom fd; log_received; log_discard_reply])
| handled_untrusted (d : datagram) :
    recvfrom_result os = Some d ->
    (List.length (dg_payload d) < 1024)%nat ->
    byte.unsigned (type_byte os (dg_payload d)) = DHCPv6_MSGTYPE_RELAY_FORW ->
    dhcpv6relay_trusted g = false ->
    handled os fd g (Returned g [ERecvfrom fd; log_received; log_discard_untrusted])
| handled_forward (d : datagram) (o : outcome unit) :
    recvfrom_result os = Some d ->
    (List.length (dg_payload d) < 1024)%nat ->
    byte.unsigned (type_byte os (dg_payload d)) <> DHCPv6_MSGTYPE_REPLY ->
    byte.unsigned (type_byte os (dg_payload d)) <> DHCPv6_MSGTYPE_RELAY_REPL ->
    (byte.unsigned (type_byte os (dg_payload d)) = DHCPv6_MSGTYPE_RELAY_FORW ->
     dhcpv6relay_trusted g = true) ->
    relayed os (dg_payload d) (sin6_addr (dg_from d)) g o ->
    handled os fd g (prepend [ERecvfrom fd; log_received] o).

End Outcomes.

(** ** Observing an outcome *)

Definition trace {A} (o : outcome A) : list event :=
  match o with
  | Cont _ _ t | Returned _ t | Faulted t => t
  end.

Definition final {A} (o : outcome A) : option globals :=
  match o with
  | Cont _ g _ | Returned g _ => Some g
  | Faulted _ => None
  end.

(** The [sendmsg] calls of a trace: descriptor and the two segments. *)
Fixpoint sent (t : list event) : list (Z * list byte * list byte) :=
  match t with
  | [] => []
  | ESendmsg fd iov0 iov1 :: t' => (fd, iov0, iov1) :: sent t'
  | _ :: t' => sent t'
  end.

(** The handler takes the datagram [d] through the checks of lines
    203-233. *)
Record accepted {hdr : dhcpv6relay_h} (os : client_os) (g : globals)
    (d : datagram) : Prop := {
  accepted_recv : recvfrom_result os = Some d;
  accepted_small : (List.length (dg_payload d) < 1024)%nat;
  accepted_not_reply :
    byte.unsigned (type_byte os (dg_payload d)) <> DHCPv6_MSGTYPE_REPLY;
  accepted_not_relay_repl :
    byte.unsigned (type_byte os (dg_payload d)) <> DHCPv6_MSGTYPE_RELAY_REPL;
  accepted_trusted :
    byte.unsigned (type_byte os (dg_payload d)) = DHCPv6_MSGTYPE_RELAY_FORW ->
    dhcpv6relay_trusted g = true
}.

(** ... then finds or makes the upstream socket (globals [g1] afterwards)
    and learns its local port [sport]: it gets as far as the option
    pushes. *)
Record reaches_options {hdr : dhcpv6relay_h} (os : client_os) (g : globals)
    (d : datagram) (g1 : globals) (sport : in_port_t) : Prop := {
  reaches_accepted : accepted os g d;
  reaches_connects : exists tc, connects os g g1 tc;
  reaches_sockname :
    exists sa, getsockname_result os = Some sa /\ sport_of sa = Some sport
}.

(** ... and the header and options fit [fwd_head]. *)
Definition relays {hdr : dhcpv6relay_h} (os : client_os) (g : globals)
    (d : datagram) (g1 : globals) (sport : in_port_t) : Prop :=
  reaches_options os g d g1 sport
  /\ Wire.encoded_size (ppp_get_remote_number os) (ppp_peer_authname os) <= 256.

(** ** The claims of the specification that the code does not meet, as
    the specification states them *)

Section Stated.
Context {hdr : dhcpv6relay_h}.

(** RELAY_PORT carries the source port of the client's datagram. *)
Definition relay_port_is_client_port (os : client_os) (fd : Z) (g : globals) : Prop :=
  forall d up h seg1,
    recvfrom_result os = Some d ->
    In (up, h, seg1) (sent (trace (dhcpv6relay_client_event os fd g))) ->
    take 6 (drop 34 h)
    = Wire.tlv DHCPv6_OPTION_RELAY_PORT
        [fst (sin6_port (dg_from d)); snd (sin6_port (dg_from d))].

(** The outer hop-count is 0 for anything but a RELAY_FORW, and N+1 for a
    RELAY_FORW with hop-count N. *)
Definition hop_count_is_successor (os : client_os) (fd : Z) (g : globals) : Prop :=
  forall d t n rest up h seg1,
    recvfrom_result os = Some d ->
    dg_payload d = t :: n :: rest ->
    In (up, h, seg1) (sent (trace (dhcpv6relay_client_event os fd g))) ->
    exists hop,
      h !! 1%nat = Some hop
      /\ byte.unsigned hop
         = if byte.unsigned t =? DHCPv6_MSGTYPE_RELAY_FORW
           then byte.unsigned n + 1 else 0.

(** Datagrams of up to 1024 bytes reach classification; longer ones are
    dropped with the overrun log line. *)
Definition accepts_1024 (os : client_os) (fd : Z) (g : globals) : Prop :=
  forall d,
    recvfrom_result os = Some d ->
    ((List.length (dg_payload d) <= 1024)%nat ->
     In log_received (trace (dhcpv6relay_client_event os fd g)))
    /\ ((1024 < List.length (dg_payload d))%nat ->
        dhcpv6relay_client_event os fd g = Returned g [ERecvfrom fd; log_overrun]).

(** Whenever the handler classifies, index 0 lies within the datagram. *)
Definition type_byte_was_received (os : client_os) (fd : Z) (g : globals) : Prop :=
  forall d,
    recvfrom_result os = Some d ->
    In log_received (trace (dhcpv6relay_client_event os fd g)) ->
    (0 < List.length (dg_payload d))%nat.

End Stated.

(** ** [dhcpv6_type2string] (lines 41-74) *)

(** The ten message types of [dhcpv6relay.h] that only
    [dhcpv6_type2string] names.  The thirteen constants are the case
    labels of one [switch], so they are pairwise distinct. *)
Class dhcpv6_msgtypes {hdr : dhcpv6relay_h} : Type := {
  DHCPv6_MSGTYPE_SOLICIT : Z;
  DHCPv6_MSGTYPE_ADVERTISE : Z;
  DHCPv6_MSGTYPE_REQUEST : Z;
  DHCPv6_MSGTYPE_CONFIRM : Z;
  DHCPv6_MSGTYPE_RENEW : Z;
  DHCPv6_MSGTYPE_REBIND : Z;
  DHCPv6_MSGTYPE_RELEASE : Z;
  DHCPv6_MSGTYPE_DECLINE : Z;
  DHCPv6_MSGTYPE_RECONFIGURE : Z;
  DHCPv6_MSGTYPE_INFORMATION_REQUEST : Z;
  case_labels_distinct :
    List.NoDup
      [DHCPv6_MSGTYPE_SOLICIT; DHCPv6_MSGTYPE_ADVERTISE; DHCPv6_MSGTYPE_REQUEST;
       DHCPv6_MSGTYPE_CONFIRM; DHCPv6_MSGTYPE_RENEW; DHCPv6_MSGTYPE_REBIND;
       DHCPv6_MSGTYPE_REPLY; DHCPv6_MSGTYPE_RELEASE; DHCPv6_MSGTYPE_DECLINE;
       DHCPv6_MSGTYPE_RECONFIGURE; DHCPv6_MSGTYPE_INFORMATION_REQUEST;
       DHCPv6_MSGTYPE_RELAY_FORW; DHCPv6_MSGTYPE_RELAY_REPL]
}.

(** The message types of RFC 8415. *)
Definition rfc_msgtypes : @dhcpv6_msgtypes rfc_header.
Proof.
  refine (@Build_dhcpv6_msgtypes rfc_header 1 2 3 4 5 6 8 9 10 11 _).
  repeat (apply List.NoDup_cons; [simpl; intuition discriminate |]).
  apply List.NoDup_nil.
Defined.

(** The [switch]: the first label equal to [msg_type] decides. *)
Definition dhcpv6_type2string {hdr : dhcpv6relay_h} {mt : dhcpv6_msgtypes}
    (msg_type : Z) : option string :=
  if msg_type =? DHCPv6_MSGTYPE_SOLICIT then Some "solicit"%string
  else if msg_type =? DHCPv6_MSGTYPE_ADVERTISE then Some "advertise"%string
  else if msg_type =? DHCPv6_MSGTYPE_REQUEST then Some "request"%string
  else if msg_type =? DHCPv6_MSGTYPE_CONFIRM then Some "confirm"%string
  else if msg_type =? DHCPv6_MSGTYPE_RENEW then Some "renew"%string
  else if msg_type =? DHCPv6_MSGTYPE_REBIND then Some "rebind"%string
  else if msg_type =? DHCPv6_MSGTYPE_REPLY then Some "reply"%string
  else if msg_type =? DHCPv6_MSGTYPE_RELEASE then Some "release"%string
  else if msg_type =? DHCPv6_MSGTYPE_DECLINE then Some "decline"%string
  else if msg_type =? DHCPv6_MSGTYPE_RECONFIGURE then Some "reconfigure"%string
  else if msg_type =? DHCPv6_MSGTYPE_INFORMATION_REQUEST
       then Some "information_request"%string
  else if msg_type =? DHCPv6_MSGTYPE_RELAY_FORW then Some "relay-forw"%string
  else if msg_type =? DHCPv6_MSGTYPE_RELAY_REPL then Some "relay-repl"%string
  else None.

(** The case labels in the order of the [switch]. *)
Definition case_labels {hdr : dhcpv6relay_h} {mt : dhcpv6_msgtypes} : list Z :=
  [DHCPv6_MSGTYPE_SOLICIT; DHCPv6_MSGTYPE_ADVERTISE; DHCPv6_MSGTYPE_REQUEST;
   DHCPv6_MSGTYPE_CONFIRM; DHCPv6_MSGTYPE_RENEW; DHCPv6_MSGTYPE_REBIND;
   DHCPv6_MSGTYPE_REPLY; DHCPv6_MSGTYPE_RELEASE; DHCPv6_MSGTYPE_DECLINE;
   DHCPv6_MSGTYPE_RECONFIGURE; DHCPv6_MSGTYPE_INFORMATION_REQUEST;
   DHCPv6_MSGTYPE_RELAY_FORW; DHCPv6_MSGTYPE_RELAY_REPL].

(** Their names, in the same order. *)
Definition case_names : list string :=
  ["solicit"; "advertise"; "request"; "confirm"; "renew"; "rebind"; "reply";
   "release"; "decline"; "reconfigure"; "information_request"; "relay-forw";
   "relay-repl"]%string.

(** ** Descriptors in a trace, for the statements *)

(** What [dhcpv6relay_down] does with one descriptor. *)
Definition closing (fd : Z) : list event :=
  if fd >=? 0 then [ERemoveFd fd; EClose fd] else [].

Definition closed_fd (fd : Z) : Z := if fd >=? 0 then -1 else fd.

(** Descriptors a trace obtains from [socket], closes, registers. *)
Fixpoint opened (t : list event) : list Z :=
  match t with
  | [] => []
  | ESocket _ fd :: t' => if fd <? 0 then opened t' else fd :: opened t'
  | _ :: t' => opened t'
  end.

Fixpoint closed (t : list event) : list Z :=
  match t with
  | [] => []
  | EClose fd :: t' => fd :: closed t'
  | _ :: t' => closed t'
  end.

Fixpoint registered (t : list event) : list Z :=
  match t with
  | [] => []
  | EAddFdCallback fd :: t' => fd :: registered t'
  | _ :: t' => registered t'
  end.

(** Both listening descriptors are absent, or both are present. *)
Definition both_or_none (g : globals) : Prop :=
  (dhcpv6relay_sock_ll g < 0 /\ dhcpv6relay_sock_mc g < 0)
  \/ (0 <= dhcpv6relay_sock_ll g /\ 0 <= dhcpv6relay_sock_mc g).

(** [ifa] carries the link-local address [sa] of the interface [ifname]
    (the three tests of lines 330-338, read positively). *)
Definition is_ll_of (ifname : string) (ifa : ifaddrs) (sa : sockaddr_in6) : Prop :=
  ifa_addr ifa = Some (SA_in6 sa)
  /\ sin6_scope_id sa <> 0
  /\ cstr (ifa_name ifa) = cstr ifname.

(** Every call of [dhcpv6relay_up] succeeds: the link-local address found is
    [sa], the service port [port], the two new descriptors [a] and [b]. *)
Record up_succeeds (uos : up_os) (g : globals) (sa : sockaddr_in6)
    (port : in_port_t) (a b : N) : Prop := {
  up_server : dhcpv6relay_server g <> None;
  up_ll : exists ifap, getifaddrs_result uos = Some ifap
                       /\ first_ll (ppp_ifname uos) ifap = Some sa;
  up_port : getservbyname_result uos = Some port;
  up_socket_ll : socket_ll_result uos = Some a;
  up_bind_ll : bind_ll_ok uos = true;
  up_inet_pton : 0 <= inet_pton_result uos;
  up_join : join_group_ok uos = true;
  up_socket_mc : socket_mc_result uos = Some b;
  up_bind_mc : bind_mc_ok uos = true
}.


(** ** [dhcpv6relay_setserver] (lines 76-133) *)

(** A socket address as [getaddrinfo] hands it out and as
    [dhcpv6relay_sa] stores it: the family field, then the bytes that
    follow it. *)
Record sockaddr_storage : Type := {
  ss_family : Z;
  ss_data : list byte
}.

(** One entry of the list [getaddrinfo] returns; [ai_addr] stands for the
    [ai_addrlen] bytes the pointer designates. *)
Record addrinfo : Type := {
  ai_family : Z;
  ai_addr : sockaddr_storage
}.

(** What one run of [dhcpv6relay_setserver] meets.  [None] stands for a
    non-zero result of [getaddrinfo], [false] for a NULL result of
    [strdup]. *)
Record setserver_os : Type := {
  getaddrinfo_result : option (list addrinfo);
  strdup_ok : bool
}.

Definition set_server (s : option string) (g : globals) : globals :=
  {| dhcpv6relay_trusted := dhcpv6relay_trusted g;
     dhcpv6relay_server := s;
     dhcpv6relay_sock_ll := dhcpv6relay_sock_ll g;
     dhcpv6relay_sock_mc := dhcpv6relay_sock_mc g;
     dhcpv6relay_upstream := dhcpv6relay_upstream g;
     dhcpv6relay_sa_family := dhcpv6relay_sa_family g |}.

Definition set_sa_family (f : Z) (g : globals) : globals :=
  {| dhcpv6relay_trusted := dhcpv6relay_trusted g;
     dhcpv6relay_server := dhcpv6relay_server g;
     dhcpv6relay_sock_ll := dhcpv6relay_sock_ll g;
     dhcpv6relay_sock_mc := dhcpv6relay_sock_mc g;
     dhcpv6relay_upstream := dhcpv6relay_upstream g;
     dhcpv6relay_sa_family := f |}.

(** [memcpy(&dhcpv6relay_sa, i->ai_addr, i->ai_addrlen)] (line 112), for an
    address that holds at least its family field and is no longer than
    the storage: the bytes copied replace the front of the storage, the
    rest keeps what it held. *)
Definition copy_addr (src dst : sockaddr_storage) : sockaddr_storage :=
  {| ss_family := ss_family src;
     ss_data := ss_data src ++ drop (List.length (ss_data src)) (ss_data dst) |}.

(** The loop of lines 110-116 over the list that starts at [i]; [sa] is
    [dhcpv6relay_sa]. *)
Fixpoint resolve_loop (i : list addrinfo) (sa : sockaddr_storage) : sockaddr_storage :=
  match i with
  | [] => sa
  | x :: ai_next =>
      if ss_family sa =? AF_INET6 then sa
      else if (ss_family sa =? 0) || (ai_family x =? AF_INET6) then
        let sa := copy_addr (ai_addr x) sa in
        if ss_family sa =? AF_INET6 then sa
        else resolve_loop ai_next sa
      else resolve_loop ai_next sa
  end.

(** [argv0] is [*argv]; [sa] holds the contents of [dhcpv6relay_sa] on
    entry, whose family field the globals mirror.  The result is the [int]
    returned and the contents of [dhcpv6relay_sa] on exit. *)
Definition dhcpv6relay_setserver (os : setserver_os) (argv0 : option string)
    (doit : Z) (sa : sockaddr_storage) : M (Z * sockaddr_storage) :=
  if doit =? 0 then ret (1, sa)
  else
    modify (set_server None) ;;
    match argv0 with
    | None => ret (1, sa)
    | Some name =>
        if strlen name =? 0 then ret (1, sa)
        else
          match getaddrinfo_result os with
          | None =>
              error "DHCPv6 relay: Unable to set server address to %s: %s" ;;
              ret (0, sa)
          | Some ai =>
              let sa := {| ss_family := 0; ss_data := ss_data sa |} in
              modify (set_sa_family 0) ;;
              let sa := resolve_loop ai sa in
              modify (set_sa_family (ss_family sa)) ;;
              if negb (ss_family sa =? 0) then
                notice "DHCPv6 relay: Using server [%s]:%s" ;;
                modify (set_server (if strdup_ok os then Some name else None)) ;;
                ret (1, sa)
              else
                error "DHCPv6 relay: Failed to resolve %s to an actual IP address." ;;
                ret (1, sa)
          end
    end.

(** The entry the loop settles on when every entry's address carries the
    entry's family: the first IPv6 one, or else the first. *)
Definition preferred (ai : list addrinfo) : option addrinfo :=
  match List.find (fun x => ai_family x =? AF_INET6) ai with
  | Some x => Some x
  | None => head ai
  end.

(** [getaddrinfo] results as POSIX describes them: the address of an entry
    belongs to the entry's family, and that family is not [AF_UNSPEC]. *)
Definition well_formed (x : addrinfo) : Prop :=
  ss_family (ai_addr x) = ai_family x /\ ai_family x <> 0.


(** ** Observations on the handler, for the statements *)

(** Calls that belong to setting up and tearing down the listeners. *)
Definition listener_call (e : event) : bool :=
  match e with
  | ERemoveFd _ | EAddFdCallback _ | EBind _ _ | ESetsockopt _ _ | EFcntl _ => true
  | _ => false
  end.

Definition is_recvfrom (e : event) : bool :=
  match e with ERecvfrom _ => true | _ => false end.

(** Two environments give the same answers to every call; what the stack
    holds on entry may differ. *)
Definition same_answers (os1 os2 : client_os) : Prop :=
  recvfrom_result os1 = recvfrom_result os2
  /\ socket_result os1 = socket_result os2
  /\ connect_ok os1 = connect_ok os2
  /\ getsockname_result os1 = getsockname_result os2
  /\ ppp_get_remote_number os1 = ppp_get_remote_number os2
  /\ ppp_peer_authname os1 = ppp_peer_authname os2
  /\ sendmsg_ok os1 = sendmsg_ok os2.

(** The datagram covers every byte of [buffer] the handler looks at: its
    type byte, and its hop-count byte when the type is RELAY_FORW. *)
Definition covers_reads {hdr : dhcpv6relay_h} (payload : list byte) : Prop :=
  match payload with
  | [] => False
  | [b] => byte.unsigned b <> DHCPv6_MSGTYPE_RELAY_FORW
  | _ :: _ :: _ => True
  end.


(** ** The plugin over the life of a pppd process

    [plugin_init] (lines 421-427) hands pppd the option table and the two
    notifiers; [dhcpv6relay_up] hands it the handler.  From then on pppd
    calls into the plugin, one call after the other. *)

Definition set_trusted (v : bool) (g : globals) : globals :=
  {| dhcpv6relay_trusted := v;
     dhcpv6relay_server := dhcpv6relay_server g;
     dhcpv6relay_sock_ll := dhcpv6relay_sock_ll g;
     dhcpv6relay_sock_mc := dhcpv6relay_sock_mc g;
     dhcpv6relay_upstream := dhcpv6relay_upstream g;
     dhcpv6relay_sa_family := dhcpv6relay_sa_family g |}.

(** The static variables of the file: [globals] and the contents of
    [dhcpv6relay_sa], whose family field [dhcpv6relay_sa_family] mirrors. *)
Record state : Type := {
  st_globals : globals;
  st_sa : sockaddr_storage
}.

(** The initial values of lines 21 and 35-39; [dhcpv6relay_sa] has static
    storage and starts as zeros. *)
Definition initial : state :=
  {| st_globals :=
       {| dhcpv6relay_trusted := false;
          dhcpv6relay_server := None;
          dhcpv6relay_sock_ll := -1;
          dhcpv6relay_sock_mc := -1;
          dhcpv6relay_upstream := -1;
          dhcpv6relay_sa_family := 0 |};
     st_sa := {| ss_family := 0; ss_data := replicate 126 Byte.x00 |} |}.

(** One call from pppd, with the environment it meets: the option
    dhcpv6-server (line 24), the options dhcpv6-trusted and
    dhcpv6-untrusted, which make pppd store a value in
    [dhcpv6relay_trusted] (lines 26-31), the notifiers (lines 425-426), and
    the handler of a readable descriptor (lines 415-416). *)
Inductive notification : Type :=
| Option_server (os : setserver_os) (argv0 : option string) (doit : Z)
| Option_trusted (v : bool)
| Notify_ipv6_up (uos : up_os)
| Notify_ipv6_down
| Fd_readable (os : client_os) (fd : Z).

Definition with_globals (s : state) (r : option (globals * list event))
  : option (state * list event) :=
  match r with
  | Some (g1, t) => Some ({| st_globals := g1; st_sa := st_sa s |}, t)
  | None => None
  end.

Definition dispatch {hdr : dhcpv6relay_h} (n : notification) (s : state)
  : option (state * list event) :=
  match n with
  | Option_server os argv0 doit =>
      match dhcpv6relay_setserver os argv0 doit (st_sa s) (st_globals s) with
      | Cont (_, sa1) g1 t => Some ({| st_globals := g1; st_sa := sa1 |}, t)
      | _ => None
      end
  | Option_trusted v =>
      Some ({| st_globals := set_trusted v (st_globals s); st_sa := st_sa s |}, [])
  | Notify_ipv6_up uos => with_globals s (exec (dhcpv6relay_up uos) (st_globals s))
  | Notify_ipv6_down => with_globals s (exec dhcpv6relay_down (st_globals s))
  | Fd_readable os fd =>
      with_globals s (exec (dhcpv6relay_client_event os fd) (st_globals s))
  end.

(** A sequence of calls; [None] when one of them accesses an array out of
    bounds. *)
Fixpoint run_all {hdr : dhcpv6relay_h} (ns : list notification) (s : state)
  : option (state * list event) :=
  match ns with
  | [] => Some (s, [])
  | n :: ns' =>
      match dispatch n s with
      | None => None
      | Some (s1, t1) =>
          match run_all ns' s1 with
          | None => None
          | Some (s2, t2) => Some (s2, t1 ++ t2)
          end
      end
  end.

(** The identifier strings met by the handler fit the address space. *)
Definition answers_fit (n : notification) : Prop :=
  match n with
  | Fd_readable os _ =>
      addressable (ppp_get_remote_number os) /\ addressable (ppp_peer_authname os)
  | _ => True
  end.

(** The addresses [getaddrinfo] hands to [dhcpv6relay_setserver] are no
    longer than [dhcpv6relay_sa]: at most 126 bytes follow the family
    field. *)
Definition addresses_fit (n : notification) : Prop :=
  match n with
  | Option_server os _ _ =>
      match getaddrinfo_result os with
      | Some ai => Forall (fun x => (List.length (ss_data (ai_addr x)) <= 126)%nat) ai
      | None => True
      end
  | _ => True
  end.

(** The listeners come in pairs, a configured server has an address, and
    the family in the globals is that of [dhcpv6relay_sa]. *)
Definition consistent (s : state) : Prop :=
  both_or_none (st_globals s)
  /\ (dhcpv6relay_server (st_globals s) <> None ->
      dhcpv6relay_sa_family (st_globals s) <> 0)
  /\ ss_family (st_sa s) = dhcpv6relay_sa_family (st_globals s).

(** How many times the descriptor [fd] is open, starting from [n], as the
    trace goes: a [socket] call that returns [fd] adds one, a [close] of
    [fd] takes one away, and [None] marks a [close] of a descriptor that
    is not open. *)
Fixpoint balance (fd : Z) (t : list event) (n : Z) : option Z :=
  match t with
  | [] => Some n
  | ESocket _ r :: t' => balance fd t' (if r =? fd then n + 1 else n)
  | EClose c :: t' =>
      if c =? fd then (if 0 <? n then balance fd t' (n - 1) else None)
      else balance fd t' n
  | _ :: t' => balance fd t' n
  end.

(** How many of the three descriptor variables hold [fd]. *)
Definition held (g : globals) (fd : Z) : Z :=
  Z.b2z (dhcpv6relay_sock_ll g =? fd) + Z.b2z (dhcpv6relay_sock_mc g =? fd)
  + Z.b2z (dhcpv6relay_upstream g =? fd).

(** A call with trace [t] from [g] to [g1] keeps the count of every
    descriptor at or above the number of variables that hold it. *)
Definition step_keeps (g g1 : globals) (t : list event) : Prop :=
  forall fd n,
    0 <= fd -> held g fd <= n ->
    exists n1, balance fd t n = Some n1 /\ held g1 fd <= n1.

(** [getaddrinfo] finds one IPv6 address, port 547, and [strdup] succeeds. *)
Definition sos_ok : setserver_os :=
  {| getaddrinfo_result :=
       Some [ {| ai_family := AF_INET6;
                 ai_addr := {| ss_family := AF_INET6;
                               ss_data := [Byte.x02; Byte.x23] |} |} ];
     strdup_ok := true |}.

(** * Properties *)

(** ** The monad *)

Lemma prepend_nil {A} (o : outcome A) : prepend [] o = o.
Proof. now destruct o. Qed.

Lemma prepend_prepend {A} (t1 t2 : list event) (o : outcome A) :
  prepend t1 (prepend t2 o) = prepend (t1 ++ t2) o.
Proof. destruct o; simpl; now rewrite app_assoc. Qed.

Lemma bind_assoc {A B D} (m : M A) (k : A -> M B) (h : B -> M D) (g : globals) :
  bind (bind m k) h g = bind m (fun a => bind (k a) h) g.
Proof.
  unfold bind. destruct (m g) as [a g1 t1 | |]; try reflexivity.
  destruct (k a g1) as [b g2 t2 | |]; simpl; try reflexivity.
  destruct (h b g2); simpl; now rewrite app_assoc.
Qed.

Lemma bind_ret_l {A B} (a : A) (k : A -> M B) (g : globals) :
  bind (ret a) k g = k a g.
Proof. unfold bind, ret. apply prepend_nil. Qed.

Lemma bind_cont {A B} (m : M A) (k : A -> M B) (g g1 : globals) (a : A)
    (t : list event) :
  m g = Cont a g1 t -> bind m k g = prepend t (k a g1).
Proof. intros H. unfold bind. now rewrite H. Qed.

Lemma bind_returned {A B} (m : M A) (k : A -> M B) (g g1 : globals)
    (t : list event) :
  m g = Returned g1 t -> bind m k g = Returned g1 t.
Proof. intros H. unfold bind. now rewrite H. Qed.

Lemma bind_emit {B} (e : event) (k : unit -> M B) (g : globals) :
  bind (emit e) k g = prepend [e] (k tt g).
Proof. reflexivity. Qed.

Lemma bind_get {B} (k : globals -> M B) (g : globals) :
  bind get k g = k g g.
Proof. unfold bind, get. apply prepend_nil. Qed.

Lemma bind_modify {B} (f : globals -> globals) (k : unit -> M B) (g : globals) :
  bind (modify f) k g = k tt (f g).
Proof. unfold bind, modify. apply prepend_nil. Qed.

(** ** Bytes and arrays *)

Lemma byte_of_Z_mod (z : Z) : byte.of_Z (z mod 256) = byte.of_Z z.
Proof.
  apply byte.unsigned_inj. rewrite !byte.unsigned_of_Z. unfold byte.wrap.
  change (2 ^ 8) with 256. apply Z.mod_mod. lia.
Qed.

Lemma uint16_hi (val : Z) :
  C.uchar (Z.shiftr (C.uint16_t val) 8) = byte.of_Z (val / 256).
Proof.
  unfold C.uchar, C.uint16_t. rewrite Z.shiftr_div_pow2 by lia.
  rewrite <- (byte_of_Z_mod (_ / _)), <- (byte_of_Z_mod (val / 256)).
  f_equal. change (2 ^ 16) with (256 * 256). change (2 ^ 8) with 256.
  rewrite Z.rem_mul_r by lia.
  rewrite (Z.mul_comm 256 (_ mod _)), Z.div_add by lia.
  rewrite (Z.div_small (val mod 256)) by (apply Z.mod_pos_bound; lia).
  rewrite Z.add_0_l. apply Z.mod_mod. lia.
Qed.

Lemma uint16_lo (val : Z) :
  C.uchar (Z.land (C.uint16_t val) 255) = byte.of_Z val.
Proof.
  unfold C.uchar, C.uint16_t. change 255 with (Z.ones 8).
  rewrite Z.land_ones by lia. change (2 ^ 8) with 256.
  rewrite byte_of_Z_mod, <- (byte_of_Z_mod (_ mod _)), <- (byte_of_Z_mod val).
  f_equal. change (2 ^ 16) with (256 * 256).
  rewrite Z.rem_mul_r by lia.
  rewrite Z.mul_comm, Z.mod_add by lia. apply Z.mod_mod. lia.
Qed.

Lemma decode_be16_range (z : Z) :
  0 <= z < 65536 ->
  Wire.decode_be16 (byte.of_Z (z / 256)) (byte.of_Z z) = z.
Proof.
  intros Hz. unfold Wire.decode_be16. rewrite !byte.unsigned_of_Z.
  unfold byte.wrap. change (2 ^ 8) with 256.
  rewrite (Z.mod_small (z / 256)).
  - symmetry. apply Z.div_mod. lia.
  - split; [apply Z.div_pos; lia | apply Z.div_lt_upper_bound; lia].
Qed.

Lemma decode_be16_uint16 (z : Z) :
  Wire.decode_be16 (byte.of_Z (z / 256)) (byte.of_Z z) = C.uint16_t z.
Proof.
  rewrite <- (uint16_hi z), <- (uint16_lo z).
  assert (Ht : 0 <= C.uint16_t z < 65536) by (apply Z.mod_pos_bound; reflexivity).
  generalize dependent (C.uint16_t z). intros t Ht.
  unfold Wire.decode_be16, C.uchar. rewrite !byte.unsigned_of_Z.
  unfold byte.wrap. change (2 ^ 8) with 256.
  rewrite Z.shiftr_div_pow2 by lia. change 255 with (Z.ones 8).
  rewrite Z.land_ones by lia. change (2 ^ 8) with 256.
  rewrite Z.mod_mod by lia.
  rewrite (Z.mod_small (t / 256)).
  - pose proof (Z.div_mod t 256). lia.
  - split; [apply Z.div_pos; lia | apply Z.div_lt_upper_bound; lia].
Qed.

Lemma uninitialised_length (stack : nat -> byte) (n : Z) :
  List.length (uninitialised stack n) = Z.to_nat n.
Proof. unfold uninitialised. now rewrite length_map, length_seq. Qed.

Lemma load_in (a : list byte) (i : Z) (b : byte) (g : globals) :
  0 <= i -> a !! Z.to_nat i = Some b -> load a i g = Cont b g [].
Proof.
  intros Hi Hb. unfold load.
  assert (Z.to_nat i < List.length a)%nat by (eapply lookup_lt_Some; eauto).
  rewrite (proj2 (Z.leb_le 0 i)), (proj2 (Z.ltb_lt i _)) by lia.
  simpl. now rewrite Hb.
Qed.

Lemma store_in (a : list byte) (i : Z) (b : byte) (g : globals) :
  0 <= i < Z.of_nat (List.length a) ->
  store a i b g = Cont (<[Z.to_nat i := b]> a) g [].
Proof.
  intros Hi. unfold store.
  now rewrite (proj2 (Z.leb_le 0 i)), (proj2 (Z.ltb_lt i _)) by lia.
Qed.

Lemma memcpy_in (dst : list byte) (off : Z) (src : list byte) (n : Z) (g : globals) :
  0 <= off -> 0 <= n -> off + n <= Z.of_nat (List.length dst) ->
  n <= Z.of_nat (List.length src) ->
  memcpy dst off src n g
  = Cont (take (Z.to_nat off) dst ++ take (Z.to_nat n) src
          ++ drop (Z.to_nat (off + n)) dst) g [].
Proof.
  intros Ho Hn Hd Hs. unfold memcpy.
  now rewrite (proj2 (Z.leb_le 0 off)), (proj2 (Z.leb_le 0 n)),
    (proj2 (Z.leb_le (off + n) _)), (proj2 (Z.leb_le n _)) by lia.
Qed.

Lemma memcpy_length (dst : list byte) (off : Z) (src : list byte) (n : Z) :
  0 <= off -> 0 <= n -> off + n <= Z.of_nat (List.length dst) ->
  n <= Z.of_nat (List.length src) ->
  List.length (take (Z.to_nat off) dst ++ take (Z.to_nat n) src
               ++ drop (Z.to_nat (off + n)) dst) = List.length dst.
Proof.
  intros Ho Hn Hd Hs.
  rewrite !length_app, !length_take, length_drop. lia.
Qed.

(** ** The append macros *)

Lemma size_t_small (z : Z) : 0 <= z < 2 ^ 64 -> C.size_t z = z.
Proof. intros Hz. unfold C.size_t. now apply Z.mod_small. Qed.

Lemma holds_bound (v0 : iovec) (used : list byte) :
  holds v0 used -> (List.length used <= 256)%nat.
Proof.
  intros (Hlen & _ & Htake). rewrite <- Hlen.
  rewrite <- Htake at 1. rewrite length_take. lia.
Qed.

Lemma push_checkbytes_fits (x : Z) (v0 : iovec) (used : list byte) (g : globals) :
  holds v0 used -> 0 <= x -> Z.of_nat (List.length used) + x <= 256 ->
  push_checkbytes x v0 g = Cont tt g [].
Proof.
  intros (_ & Hl & _) Hx Hfit. unfold push_checkbytes, sizeof_fwd_head.
  rewrite Hl, size_t_small by lia.
  destruct (Z.gtb_spec (x + Z.of_nat (List.length used)) 256); [lia | reflexivity].
Qed.

Lemma push_checkbytes_overflow (x : Z) (v0 : iovec) (used : list byte) (g : globals) :
  holds v0 used -> 0 <= x < 2 ^ 63 -> Z.of_nat (List.length used) + x > 256 ->
  push_checkbytes x v0 g = Returned g [overflow_log].
Proof.
  intros Hh Hx Hfit. pose proof (holds_bound _ _ Hh) as Hb.
  destruct Hh as (_ & Hl & _). unfold push_checkbytes, sizeof_fwd_head.
  rewrite Hl, size_t_small by lia.
  destruct (Z.gtb_spec (x + Z.of_nat (List.length used)) 256); [reflexivity | lia].
Qed.

Lemma push_uint16_fits (val : Z) (v0 : iovec) (used : list byte) (g : globals) :
  holds v0 used -> Z.of_nat (List.length used) + 2 <= 256 ->
  exists v0', push_uint16 val v0 g = Cont v0' g []
              /\ holds v0' (used ++ Wire.be16 val).
Proof.
  intros Hh Hfit. pose proof Hh as (Hlen & Hl & Htake).
  unfold push_uint16, bind.
  rewrite (push_checkbytes_fits 2 v0 used) by (auto; lia).
  rewrite store_in by lia. cbn [iov_base iov_len].
  rewrite size_t_small by lia.
  rewrite store_in by (rewrite length_insert; lia).
  rewrite size_t_small by lia. cbn [ret app].
  eexists. split; [reflexivity |].
  rewrite uint16_hi, uint16_lo, Hl.
  replace (Z.to_nat (Z.of_nat (List.length used) + 1)) with (S (List.length used)) by lia.
  rewrite Nat2Z.id.
  unfold holds. cbn [iov_base iov_len]. rewrite !length_insert, length_app.
  cbn [List.length Wire.be16]. split; [assumption |]. split; [lia |].
  replace (List.length used + 2)%nat with (S (S (List.length used))) by lia.
  erewrite take_S_r; [| apply list_lookup_insert_eq; rewrite length_insert; lia].
  erewrite take_S_r;
    [| rewrite list_lookup_insert_ne by lia; apply list_lookup_insert_eq; lia].
  rewrite !take_insert_ge by lia. rewrite Htake, <- app_assoc. reflexivity.
Qed.

Lemma push_uint16_overflow (val : Z) (v0 : iovec) (used : list byte) (g : globals) :
  holds v0 used -> Z.of_nat (List.length used) + 2 > 256 ->
  push_uint16 val v0 g = Returned g [overflow_log].
Proof.
  intros Hh Hfit. unfold push_uint16, bind.
  now rewrite (push_checkbytes_overflow 2 v0 used) by (auto; lia).
Qed.

Lemma push_bytes_fits (ptr : list byte) (n : Z) (v0 : iovec) (used : list byte)
    (g : globals) :
  holds v0 used -> 0 <= n <= Z.of_nat (List.length ptr) ->
  Z.of_nat (List.length used) + n <= 256 ->
  exists v0', push_bytes ptr n v0 g = Cont v0' g []
              /\ holds v0' (used ++ take (Z.to_nat n) ptr).
Proof.
  intros Hh Hn Hfit. pose proof Hh as (Hlen & Hl & Htake).
  unfold push_bytes, bind.
  rewrite (push_checkbytes_fits n v0 used) by (auto; lia).
  rewrite (size_t_small n) by lia.
  rewrite memcpy_in by lia. rewrite size_t_small by lia. cbn [ret app].
  eexists. split; [reflexivity |].
  unfold holds. cbn [iov_base iov_len].
  rewrite memcpy_length by lia. split; [assumption |].
  rewrite length_app, length_take. split; [lia |].
  rewrite Hl, Nat2Z.id, Htake.
  rewrite app_assoc. apply take_app_length'.
  rewrite length_app, length_take. reflexivity.
Qed.

Lemma push_bytes_overflow (ptr : list byte) (n : Z) (v0 : iovec) (used : list byte)
    (g : globals) :
  holds v0 used -> 0 <= n < 2 ^ 63 -> Z.of_nat (List.length used) + n > 256 ->
  push_bytes ptr n v0 g = Returned g [overflow_log].
Proof.
  intros Hh Hn Hfit. unfold push_bytes, bind.
  now rewrite (push_checkbytes_overflow n v0 used) by (auto; lia).
Qed.

Lemma ntohs_sum (p : in_port_t) :
  ntohs p = 256 * byte.unsigned (fst p) + byte.unsigned (snd p).
Proof.
  destruct p as [hi lo]. unfold ntohs. cbn [fst snd].
  pose proof (byte.unsigned_range hi) as Hhi.
  pose proof (byte.unsigned_range lo) as Hlo.
  rewrite Z.shiftl_mul_pow2 by lia. change (2 ^ 8) with 256 in *.
  rewrite (Z.mul_comm 256). symmetry. apply Z.add_nocarry_lor.
  apply Z.bits_inj'. intros n Hn. rewrite Z.land_spec, Z.bits_0.
  destruct (Z.lt_ge_cases n 8) as [Hlt | Hge].
  - change 256 with (2 ^ 8). rewrite Z.mul_pow2_bits_low by lia. reflexivity.
  - rewrite <- (Z.mod_small (byte.unsigned lo) (2 ^ 8)) by (change (2 ^ 8) with 256; lia).
    rewrite Z.mod_pow2_bits_high by lia. apply andb_false_r.
Qed.

Lemma be16_ntohs (p : in_port_t) : Wire.be16 (ntohs p) = [fst p; snd p].
Proof.
  rewrite ntohs_sum. destruct p as [hi lo]. unfold Wire.be16. cbn [fst snd].
  pose proof (byte.unsigned_range hi) as Hhi.
  pose proof (byte.unsigned_range lo) as Hlo.
  change (2 ^ 8) with 256 in *.
  f_equal; [| f_equal].
  - rewrite (Z.mul_comm 256), Z.div_add_l, Z.div_small, Z.add_0_r by lia.
    apply byte.of_Z_unsigned.
  - rewrite <- byte_of_Z_mod.
    rewrite Z.add_comm, (Z.mul_comm 256), Z.mod_add, Z.mod_small by lia.
    apply byte.of_Z_unsigned.
Qed.

Lemma strlen_nonneg (s : string) : 0 <= strlen s.
Proof. unfold strlen. lia. Qed.

Lemma be16_length (z : Z) : List.length (Wire.be16 z) = 2%nat.
Proof. reflexivity. Qed.

Ltac list_len :=
  repeat (rewrite ?length_app, ?be16_length, ?length_take, ?length_replicate,
            ?length_vec_to_list;
          cbn [List.length]).

Tactic Notation "list_len" "in" hyp(H) :=
  repeat (rewrite ?length_app, ?be16_length, ?length_take, ?length_replicate,
            ?length_vec_to_list in H;
          cbn [List.length] in H).

Section Options.
Context {hdr : dhcpv6relay_h}.

Lemma pushed_options_length (os : client_os) (sport : in_port_t) (len : Z) :
  34 + Z.of_nat (List.length (pushed_options os sport len))
  = Wire.encoded_size (ppp_get_remote_number os) (ppp_peer_authname os).
Proof.
  unfold pushed_options, Wire.encoded_size, Wire.leading_options, Wire.optional,
    Wire.encode_options, strlen.
  destruct (ppp_get_remote_number os), (ppp_peer_authname os);
    cbn [map concat app fst snd]; unfold Wire.tlv; list_len; lia.
Qed.

Lemma take_cstr (s : string) :
  take (Z.to_nat (strlen s)) (cstr s ++ [Byte.x00]) = cstr s.
Proof. unfold strlen. rewrite Nat2Z.id. apply take_app_length. Qed.

(** One append that fits: name the new state and its invariant. *)
Ltac push_fits :=
  repeat (rewrite bind_assoc || rewrite bind_ret_l);
  lazymatch goal with
  | H : holds ?v ?used |- context [bind (push_uint16 ?val ?v) ?k ?g] =>
      let v' := fresh "v" in
      let E := fresh "E" in
      let H' := fresh "H" in
      destruct (push_uint16_fits val v used g H) as (v' & E & H');
      [ list_len; lia
      | rewrite (bind_cont _ _ _ _ _ _ E), prepend_nil; clear E H ]
  | H : holds ?v ?used |- context [bind (push_bytes ?p ?n ?v) ?k ?g] =>
      let v' := fresh "v" in
      let E := fresh "E" in
      let H' := fresh "H" in
      destruct (push_bytes_fits p n v used g H) as (v' & E & H');
      [ unfold strlen; list_len; lia
      | unfold strlen; list_len; lia
      | rewrite (bind_cont _ _ _ _ _ _ E), prepend_nil; clear E H ]
  end.

Lemma push_options_fits (os : client_os) (sport : in_port_t) (len : Z)
    (v0 : iovec) (used : list byte) (g : globals) :
  holds v0 used ->
  Z.of_nat (List.length used)
    + Z.of_nat (List.length (pushed_options os sport len)) <= 256 ->
  exists v0', push_options os sport len v0 g = Cont v0' g []
              /\ holds v0' (used ++ pushed_options os sport len).
Proof.
  intros H Hfit. unfold push_options.
  unfold pushed_options, Wire.leading_options, Wire.optional, Wire.encode_options in *.
  destruct (ppp_get_remote_number os) as [rid |],
           (ppp_peer_authname os) as [sid |];
    cbn [map concat app fst snd] in *; unfold Wire.tlv in *;
    list_len in Hfit.
  all: repeat push_fits.
  all: lazymatch goal with
       | H : holds ?v ?used |- context [push_uint16 ?val ?v ?g] =>
           destruct (push_uint16_fits val v used g H) as (v' & E & H');
           [ unfold strlen; list_len; lia | ]
       end.
  all: exists v'; split; [exact E |].
  all: rewrite ?take_cstr in H'; unfold strlen in H'.
  all: rewrite <- (be16_ntohs sport); cbn [List.length].
  all: repeat rewrite <- app_assoc in H'; repeat rewrite <- app_assoc.
  all: rewrite ?app_nil_r; exact H'.
Qed.

(** One append, whether it fits or not. *)
Ltac push_any :=
  repeat (rewrite bind_assoc || rewrite bind_ret_l);
  lazymatch goal with
  | H : holds ?v ?used |- context [bind (push_uint16 ?val ?v) ?k ?g] =>
      destruct (Z_le_gt_dec (Z.of_nat (List.length used) + 2) 256) as [Hle | Hgt];
      [ let v' := fresh "v" in
        let E := fresh "E" in
        let H' := fresh "H" in
        destruct (push_uint16_fits val v used g H Hle) as (v' & E & H');
        rewrite (bind_cont _ _ _ _ _ _ E), prepend_nil; clear E H Hle
      | exact (bind_returned _ _ _ _ _ (push_uint16_overflow val v used g H Hgt)) ]
  | H : holds ?v ?used |- context [bind (push_bytes ?p ?n ?v) ?k ?g] =>
      destruct (Z_le_gt_dec (Z.of_nat (List.length used) + n) 256) as [Hle | Hgt];
      [ let v' := fresh "v" in
        let E := fresh "E" in
        let H' := fresh "H" in
        destruct (push_bytes_fits p n v used g H) as (v' & E & H');
        [ unfold strlen; list_len; lia
        | exact Hle
        | rewrite (bind_cont _ _ _ _ _ _ E), prepend_nil; clear E H Hle ]
      | refine (bind_returned _ _ _ _ _ (push_bytes_overflow p n v used g H _ Hgt));
        unfold strlen in *; lia ]
  end.

Lemma push_options_overflow (os : client_os) (sport : in_port_t) (len : Z)
    (v0 : iovec) (used : list byte) (g : globals) :
  holds v0 used ->
  addressable (ppp_get_remote_number os) ->
  addressable (ppp_peer_authname os) ->
  Z.of_nat (List.length used)
    + Z.of_nat (List.length (pushed_options os sport len)) > 256 ->
  push_options os sport len v0 g = Returned g [overflow_log].
Proof.
  intros H Hrid Hsid Hfit. unfold push_options.
  unfold pushed_options, Wire.leading_options, Wire.optional, Wire.encode_options in *.
  destruct (ppp_get_remote_number os) as [rid |],
           (ppp_peer_authname os) as [sid |];
    cbn [map concat app fst snd addressable] in *; unfold Wire.tlv in *;
    list_len in Hfit.
  all: repeat push_any.
  all: repeat (rewrite bind_assoc || rewrite bind_ret_l).
  all: lazymatch goal with
       | H : holds ?v ?used |- push_uint16 ?val ?v ?g = _ =>
           apply (push_uint16_overflow val v used g H)
       end.
  all: unfold strlen in *; list_len; lia.
Qed.
End Options.

(** ** Receiving *)

Lemma uninitialised_lookup (stack : nat -> byte) (len : Z) (n : nat) :
  (n < Z.to_nat len)%nat -> uninitialised stack len !! n = Some (stack n).
Proof.
  intros Hn. unfold uninitialised.
  rewrite list_lookup_fmap, lookup_seq_lt by lia. reflexivity.
Qed.

Lemma recvfrom_none (os : client_os) (buffer : list byte) :
  recvfrom_result os = None ->
  recvfrom os buffer sizeof_buffer = (-1, buffer, stack_sa os).
Proof. intros H. unfold recvfrom. now rewrite H. Qed.

Lemma recvfrom_overrun (os : client_os) (d : datagram) (buffer : list byte) :
  recvfrom_result os = Some d ->
  (1024 <= List.length (dg_payload d))%nat ->
  exists buffer', recvfrom os buffer sizeof_buffer = (1024, buffer', dg_from d).
Proof.
  intros H Hlen. unfold recvfrom, sizeof_buffer. rewrite H.
  rewrite Z.min_r by lia. eauto.
Qed.

Lemma recvfrom_whole (os : client_os) (d : datagram) :
  recvfrom_result os = Some d ->
  (List.length (dg_payload d) < 1024)%nat ->
  recvfrom os (uninitialised (stack_buffer os) sizeof_buffer) sizeof_buffer
  = (Z.of_nat (List.length (dg_payload d)), received os (dg_payload d), dg_from d).
Proof.
  intros H Hlen. unfold recvfrom, received, sizeof_buffer. rewrite H.
  rewrite Z.min_l, Nat2Z.id, take_ge by lia. reflexivity.
Qed.

Lemma received_take (os : client_os) (payload : list byte) :
  take (List.length payload) (received os payload) = payload.
Proof. apply take_app_length. Qed.

Lemma received_type_byte (os : client_os) (payload : list byte) :
  received os payload !! 0%nat = Some (type_byte os payload).
Proof.
  unfold received. destruct payload as [| b l]; [| reflexivity].
  cbn [List.length app type_byte]. rewrite drop_0.
  apply uninitialised_lookup. unfold sizeof_buffer. lia.
Qed.

Lemma received_hop_byte (os : client_os) (payload : list byte) :
  received os payload !! 1%nat = Some (hop_byte os payload).
Proof.
  unfold received. destruct payload as [| b [| b' l]]; [| | reflexivity].
  - cbn [List.length app hop_byte]. rewrite drop_0.
    apply uninitialised_lookup. unfold sizeof_buffer. lia.
  - cbn [List.length app hop_byte]. change ((b :: ?l) !! 1%nat) with (l !! 0%nat).
    rewrite lookup_drop. apply uninitialised_lookup. unfold sizeof_buffer. lia.
Qed.

(** ** Writing at the end of the used part of [fwd_head] *)

Lemma holds_empty (a : list byte) :
  List.length a = 256%nat -> holds {| iov_base := a; iov_len := 0 |} [].
Proof. intros H. split; [exact H |]. split; reflexivity. Qed.

Lemma store_appends (a used : list byte) (i : Z) (b : byte) (g : globals) :
  holds {| iov_base := a; iov_len := i |} used -> i < 256 ->
  exists a', store a i b g = Cont a' g []
             /\ holds {| iov_base := a'; iov_len := i + 1 |} (used ++ [b]).
Proof.
  intros (Hlen & Hi & Htake) Hfit. cbn [iov_base iov_len] in *.
  rewrite store_in by lia. eexists. split; [reflexivity |].
  unfold holds. cbn [iov_base iov_len].
  rewrite length_insert, length_app. cbn [List.length].
  split; [assumption |]. split; [lia |].
  rewrite Hi, Nat2Z.id.
  replace (List.length used + 1)%nat with (S (List.length used)) by lia.
  erewrite take_S_r; [| apply list_lookup_insert_eq; lia].
  now rewrite take_insert_ge, Htake by lia.
Qed.

Lemma memcpy_appends (a used : list byte) (i : Z) (src : list byte) (n : Z)
    (g : globals) :
  holds {| iov_base := a; iov_len := i |} used ->
  0 <= n <= Z.of_nat (List.length src) -> i + n <= 256 ->
  exists a', memcpy a i src n g = Cont a' g []
             /\ holds {| iov_base := a'; iov_len := i + n |}
                  (used ++ take (Z.to_nat n) src).
Proof.
  intros (Hlen & Hi & Htake) Hn Hfit. cbn [iov_base iov_len] in *.
  rewrite memcpy_in by lia. eexists. split; [reflexivity |].
  unfold holds. cbn [iov_base iov_len].
  rewrite memcpy_length by lia. split; [assumption |].
  rewrite length_app, length_take. split; [lia |].
  rewrite Hi, Nat2Z.id, Htake.
  rewrite app_assoc. apply take_app_length'.
  rewrite length_app, length_take. reflexivity.
Qed.

(** ** The fixed header *)

Section Header.
Context {hdr : dhcpv6relay_h}.

Lemma populate_forward_header_ok (fwd_head buffer : list byte) (b0 b1 : byte)
    (sa : sockaddr_in6) (g : globals) :
  List.length fwd_head = 256%nat ->
  buffer !! 1%nat = Some b1 ->
  exists v0,
    populate_forward_header fwd_head buffer b0 sa g = Cont v0 g []
    /\ holds v0
         (Wire.header
            (if byte.unsigned b0 =? DHCPv6_MSGTYPE_RELAY_FORW
             then C.uchar (byte.unsigned b1 + 1) else C.uchar 0)
            (sin6_addr sa)).
Proof.
  intros Hlen Hb1. unfold populate_forward_header.
  destruct (store_appends _ _ 0 (C.uchar DHCPv6_MSGTYPE_RELAY_FORW) g
              (holds_empty _ Hlen)) as (a1 & E1 & H1); [lia |].
  rewrite (bind_cont _ _ _ _ _ _ E1), prepend_nil. clear E1.
  set (hop := if byte.unsigned b0 =? DHCPv6_MSGTYPE_RELAY_FORW
              then C.uchar (byte.unsigned b1 + 1) else C.uchar 0).
  assert (Hhop :
    (if byte.unsigned b0 =? DHCPv6_MSGTYPE_RELAY_FORW
     then bind (load buffer 1) (fun b1 => ret (byte.unsigned b1 + 1))
     else ret 0) g
    = Cont (if byte.unsigned b0 =? DHCPv6_MSGTYPE_RELAY_FORW
            then byte.unsigned b1 + 1 else 0) g []).
  { destruct (byte.unsigned b0 =? DHCPv6_MSGTYPE_RELAY_FORW); [| reflexivity].
    now rewrite (bind_cont _ _ _ _ _ _ (load_in buffer 1 b1 g ltac:(lia) Hb1)). }
  rewrite (bind_cont _ _ _ _ _ _ Hhop), prepend_nil. clear Hhop.
  replace (C.uchar (if byte.unsigned b0 =? DHCPv6_MSGTYPE_RELAY_FORW
                    then byte.unsigned b1 + 1 else 0)) with hop
    by (unfold hop; now destruct (byte.unsigned b0 =? _)).
  destruct (store_appends _ _ _ hop g H1) as (a2 & E2 & H2); [lia |].
  rewrite (bind_cont _ _ _ _ _ _ E2), prepend_nil. clear E2 H1.
  unfold memset.
  destruct (memcpy_appends _ _ _ (replicate (Z.to_nat 16) Byte.x00) 16 g H2)
    as (a3 & E3 & H3); [rewrite length_replicate; lia | lia |].
  rewrite (bind_cont _ _ _ _ _ _ E3), prepend_nil. clear E3 H2.
  destruct (memcpy_appends _ _ _ (vec_to_list (sin6_addr sa)) 16 g H3)
    as (a4 & E4 & H4); [rewrite length_vec_to_list; lia | lia |].
  rewrite (bind_cont _ _ _ _ _ _ E4), prepend_nil. clear E4 H3.
  eexists. split; [reflexivity |].
  rewrite !take_ge in H4
    by (rewrite ?length_replicate, ?length_vec_to_list; lia).
  unfold Wire.header. change (byte.of_Z DHCPv6_MSGTYPE_RELAY_FORW)
    with (C.uchar DHCPv6_MSGTYPE_RELAY_FORW).
  change (0 + 1 + 1 + 16 + 16) with 34 in H4.
  change (Z.to_nat 16) with 16%nat in H4.
  cbn [app] in *. exact H4.
Qed.
End Header.

(** ** The outcome relations describe the handler *)

Lemma upstream_step (os : client_os) (g : globals) :
  let m := when (dhcpv6relay_upstream g <? 0)
             (bind (dhcpv6relay_init_upstream os)
                (fun ok => when (ok =? 0) return_)) in
  (exists g1 t, connects os g g1 t /\ m g = Cont tt g1 t)
  \/ (exists t, connect_fails os g t /\ m g = Returned (set_upstream (-1) g) t).
Proof.
  cbv zeta. unfold when, dhcpv6relay_init_upstream.
  destruct (Z.ltb_spec (dhcpv6relay_upstream g) 0) as [Hneg | Hpos].
  - destruct (socket_result os) as [fd |] eqn:Hsock.
    + destruct (connect_ok os) eqn:Hconn.
      * left. exists (set_upstream (Z.of_N fd) g). eexists.
        split; [now apply connects_fresh |].
        rewrite bind_assoc, bind_get. cbn [socket_ret].
        rewrite bind_assoc, bind_emit, bind_assoc, bind_modify.
        destruct (Z.ltb_spec (Z.of_N fd) 0); [lia |].
        rewrite bind_assoc, bind_emit. cbn [negb]. rewrite bind_ret_l.
        reflexivity.
      * right. eexists. split; [now apply (connect_fails_connect os g fd) |].
        rewrite bind_assoc, bind_get. cbn [socket_ret].
        rewrite bind_assoc, bind_emit, bind_assoc, bind_modify.
        destruct (Z.ltb_spec (Z.of_N fd) 0); [lia |].
        rewrite bind_assoc, bind_emit. cbn [negb].
        reflexivity.
    + right. eexists. split; [now apply connect_fails_socket |].
      rewrite bind_assoc, bind_get. cbn [socket_ret].
      rewrite bind_assoc, bind_emit, bind_assoc, bind_modify.
      reflexivity.
  - left. exists g, []. split; [now apply connects_reuse | reflexivity].
Qed.

Section Described.
Context {hdr : dhcpv6relay_h}.

Lemma relay_forward_relayed (os : client_os) (payload : list byte)
    (sa : sockaddr_in6) (g : globals) :
  addressable (ppp_get_remote_number os) ->
  addressable (ppp_peer_authname os) ->
  (List.length payload < 1024)%nat ->
  relayed os payload (sin6_addr sa) g
    (relay_forward os (received os payload)
       (uninitialised (stack_fwd_head os) sizeof_fwd_head)
       (Z.of_nat (List.length payload)) (type_byte os payload) sa g).
Proof.
  intros Hrid Hsid Hlen. unfold relay_forward. rewrite bind_get.
  destruct (upstream_step os g) as [(g1 & t & Hc & E) | (t & Hf & E)].
  2: { rewrite (bind_returned _ _ _ _ _ E). now constructor. }
  rewrite (bind_cont _ _ _ _ _ _ E). clear E.
  destruct (populate_forward_header_ok
              (uninitialised (stack_fwd_head os) sizeof_fwd_head)
              (received os payload) (type_byte os payload) (hop_byte os payload)
              sa g1) as (v0 & E0 & H0).
  { now rewrite uninitialised_length. }
  { apply received_hop_byte. }
  rewrite (bind_cont _ _ _ _ _ _ E0), prepend_nil. clear E0.
  fold (outer_hop_count os payload) in H0.
  rewrite bind_get, bind_emit.
  destruct (getsockname_result os) as [sa' |] eqn:Hname.
  2: { now apply relayed_no_sockname. }
  rewrite bind_ret_l.
  destruct (sport_of sa') as [sport |] eqn:Hsport.
  2: { destruct sa'; try discriminate. now apply (relayed_not_ip _ _ _ _ _ _ SA_other). }
  assert (Hk : forall k : in_port_t -> M unit,
             bind match sa' with
                  | SA_in sin_port => ret sin_port
                  | SA_in6 sa6 => ret (sin6_port sa6)
                  | SA_other =>
                      bind (error "DHCPv6 relay: Upstream socket is bound to something other than IP ... can't relay.")
                        (fun _ => return_)
                  end k g1 = k sport g1).
  { intros k. destruct sa'; inversion Hsport; subst; apply bind_ret_l. }
  rewrite Hk. clear Hk.
  pose proof (pushed_options_length os sport (Z.of_nat (List.length payload))) as Hsize.
  assert (Hh : List.length (Wire.header (outer_hop_count os payload) (sin6_addr sa))
               = 34%nat) by (unfold Wire.header; list_len; lia).
  destruct (Z_le_gt_dec
              (Wire.encoded_size (ppp_get_remote_number os) (ppp_peer_authname os))
              256) as [Hfit | Hover].
  - destruct (push_options_fits os sport (Z.of_nat (List.length payload)) v0 _ g1 H0)
      as (v & E & (Hvlen & Hvl & Hvtake)); [rewrite Hh; lia |].
    rewrite (bind_cont _ _ _ _ _ _ E), prepend_nil. clear E.
    rewrite bind_emit. rewrite Hvl, !Nat2Z.id, Hvtake, received_take.
    pose proof (relayed_sent os payload (sin6_addr sa) g g1 t sa' sport
                  Hc Hname Hsport Hfit) as R.
    destruct (sendmsg_ok os); exact R.
  - assert (Hbig : Z.of_nat (List.length
                               (Wire.header (outer_hop_count os payload) (sin6_addr sa)))
                   + Z.of_nat (List.length
                                 (pushed_options os sport (Z.of_nat (List.length payload))))
                   > 256) by (rewrite Hh; lia).
    rewrite (bind_returned _ _ _ _ _
               (push_options_overflow os sport _ v0 _ g1 H0 Hrid Hsid Hbig)).
    now apply (relayed_overflow _ _ _ _ _ _ sa' sport).
Qed.

(** The checks of lines 203-233, one after the other. *)
Lemma client_event_stages (os : client_os) (fd : Z) (g : globals) :
  match recvfrom_result os with
  | None =>
      dhcpv6relay_client_event os fd g = Returned g [ERecvfrom fd; log_read_failed]
  | Some d =>
      if (1024 <=? List.length (dg_payload d))%nat then
        dhcpv6relay_client_event os fd g = Returned g [ERecvfrom fd; log_overrun]
      else if (byte.unsigned (type_byte os (dg_payload d)) =? DHCPv6_MSGTYPE_REPLY)
              || (byte.unsigned (type_byte os (dg_payload d))
                  =? DHCPv6_MSGTYPE_RELAY_REPL) then
        dhcpv6relay_client_event os fd g
        = Returned g [ERecvfrom fd; log_received; log_discard_reply]
      else if negb (dhcpv6relay_trusted g)
              && (byte.unsigned (type_byte os (dg_payload d))
                  =? DHCPv6_MSGTYPE_RELAY_FORW) then
        dhcpv6relay_client_event os fd g
        = Returned g [ERecvfrom fd; log_received; log_discard_untrusted]
      else
        dhcpv6relay_client_event os fd g
        = prepend [ERecvfrom fd; log_received]
            (relay_forward os (received os (dg_payload d))
               (uninitialised (stack_fwd_head os) sizeof_fwd_head)
               (Z.of_nat (List.length (dg_payload d)))
               (type_byte os (dg_payload d)) (dg_from d) g)
  end.
Proof.
  destruct (recvfrom_result os) as [d |] eqn:Hrecv.
  { destruct (Nat.leb_spec 1024 (List.length (dg_payload d))) as [Hbig | Hsmall].
    - unfold dhcpv6relay_client_event, error. rewrite bind_emit.
      destruct (recvfrom_overrun os d (uninitialised (stack_buffer os) sizeof_buffer)
                  Hrecv Hbig) as (b' & ->).
      reflexivity.
    - assert (Hpre :
        dhcpv6relay_client_event os fd g
        = prepend [ERecvfrom fd; log_received]
            (bind (when ((byte.unsigned (type_byte os (dg_payload d))
                          =? DHCPv6_MSGTYPE_REPLY)
                         || (byte.unsigned (type_byte os (dg_payload d))
                             =? DHCPv6_MSGTYPE_RELAY_REPL))
                     (bind (emit log_discard_reply) (fun _ => return_)))
               (fun _ =>
                  bind get (fun g0 =>
                    bind (when (negb (dhcpv6relay_trusted g0)
                                && (byte.unsigned (type_byte os (dg_payload d))
                                    =? DHCPv6_MSGTYPE_RELAY_FORW))
                            (bind (emit log_discard_untrusted) (fun _ => return_)))
                      (fun _ =>
                         relay_forward os (received os (dg_payload d))
                           (uninitialised (stack_fwd_head os) sizeof_fwd_head)
                           (Z.of_nat (List.length (dg_payload d)))
                           (type_byte os (dg_payload d)) (dg_from d)))) g)).
      { unfold dhcpv6relay_client_event, error, warn.
        rewrite bind_emit, (recvfrom_whole os d Hrecv Hsmall).
        assert (Hr1 : (Z.of_nat (List.length (dg_payload d)) <? 0) = false)
          by (apply Z.ltb_ge; lia).
        assert (Hr2 : (C.size_t (Z.of_nat (List.length (dg_payload d)))
                       >=? sizeof_buffer) = false).
        { rewrite size_t_small by lia. unfold sizeof_buffer.
          destruct (Z.geb_spec (Z.of_nat (List.length (dg_payload d))) 1024);
            [lia | reflexivity]. }
        rewrite Hr1, Hr2. unfold when at 1 2. rewrite !bind_ret_l.
        rewrite (bind_cont _ _ _ _ _ _
                   (load_in _ 0 _ g ltac:(lia)
                      (received_type_byte os (dg_payload d)))), prepend_nil.
        rewrite bind_emit, prepend_prepend. reflexivity. }
      destruct ((byte.unsigned (type_byte os (dg_payload d)) =? DHCPv6_MSGTYPE_REPLY)
                || (byte.unsigned (type_byte os (dg_payload d))
                    =? DHCPv6_MSGTYPE_RELAY_REPL)) eqn:H1.
      { rewrite Hpre, ?H1. reflexivity. }
      destruct (negb (dhcpv6relay_trusted g)
                && (byte.unsigned (type_byte os (dg_payload d))
                    =? DHCPv6_MSGTYPE_RELAY_FORW)) eqn:H2.
      { rewrite Hpre, ?H1. unfold when at 1. rewrite bind_ret_l, bind_get, ?H2.
        reflexivity. }
      rewrite Hpre, ?H1. unfold when at 1. rewrite bind_ret_l, bind_get, ?H2.
      unfold when at 1. rewrite bind_ret_l. reflexivity. }
  unfold dhcpv6relay_client_event, error.
  rewrite bind_emit, (recvfrom_none os _ Hrecv). reflexivity.
Qed.


Lemma client_event_handled (os : client_os) (fd : Z) (g : globals) :
  addressable (ppp_get_remote_number os) ->
  addressable (ppp_peer_authname os) ->
  handled os fd g (dhcpv6relay_client_event os fd g).
Proof.
  intros Hrid Hsid. pose proof (client_event_stages os fd g) as Hst.
  destruct (recvfrom_result os) as [d |] eqn:Hrecv.
  2: { rewrite Hst. now apply handled_read_failed. }
  destruct (Nat.leb_spec 1024 (List.length (dg_payload d))) as [Hbig | Hsmall].
  { rewrite Hst. now apply (handled_overrun _ _ _ d). }
  destruct (Z.eqb_spec (byte.unsigned (type_byte os (dg_payload d)))
              DHCPv6_MSGTYPE_REPLY) as [Hrep | Hrep].
  { rewrite Hst. apply (handled_reply os fd g d); auto. }
  destruct (Z.eqb_spec (byte.unsigned (type_byte os (dg_payload d)))
              DHCPv6_MSGTYPE_RELAY_REPL) as [Hrr | Hrr].
  { rewrite Hst. apply (handled_reply os fd g d); auto. }
  cbn [orb] in Hst.
  destruct (Z.eqb_spec (byte.unsigned (type_byte os (dg_payload d)))
              DHCPv6_MSGTYPE_RELAY_FORW) as [Hrf | Hrf];
    destruct (dhcpv6relay_trusted g) eqn:Htr; cbn [negb andb] in Hst; rewrite Hst.
  2: { apply (handled_untrusted os fd g d); auto. }
  all: apply (handled_forward os fd g d); auto; try congruence.
  all: apply relay_forward_relayed; auto.
Qed.

End Described.

(** ** Transmissions *)

Lemma sent_app (t1 t2 : list event) : sent (t1 ++ t2) = sent t1 ++ sent t2.
Proof.
  induction t1 as [| e t1 IH]; [reflexivity |].
  destruct e; simpl; rewrite IH; reflexivity.
Qed.

Lemma trace_prepend {A} (t : list event) (o : outcome A) :
  trace (prepend t o) = t ++ trace o.
Proof. now destruct o. Qed.

Lemma final_prepend {A} (t : list event) (o : outcome A) :
  final (prepend t o) = final o.
Proof. now destruct o. Qed.

Lemma connects_sent (os : client_os) (g g1 : globals) (t : list event) :
  connects os g g1 t -> sent t = [].
Proof. now destruct 1. Qed.

Lemma connect_fails_sent (os : client_os) (g : globals) (t : list event) :
  connect_fails os g t -> sent t = [].
Proof. now destruct 1. Qed.

Lemma connects_functional (os : client_os) (g g1 g2 : globals) (t1 t2 : list event) :
  connects os g g1 t1 -> connects os g g2 t2 -> g1 = g2 /\ t1 = t2.
Proof.
  destruct 1 as [Hpos | fd Hneg Hsock Hconn];
    destruct 1 as [Hpos' | fd' Hneg' Hsock' Hconn']; try lia; [easy |].
  rewrite Hsock in Hsock'. now inversion Hsock'.
Qed.

Lemma connects_not_fails (os : client_os) (g g1 : globals) (t1 t2 : list event) :
  connects os g g1 t1 -> connect_fails os g t2 -> False.
Proof.
  destruct 1 as [Hpos | fd Hneg Hsock Hconn];
    destruct 1 as [Hneg' Hsock' | fd' Hneg' Hsock' Hconn']; try lia; congruence.
Qed.

Lemma addressable_of_fits (remote_id subscriber_id : option string) :
  Wire.encoded_size remote_id subscriber_id <= 256 ->
  addressable remote_id /\ addressable subscriber_id.
Proof.
  unfold Wire.encoded_size, addressable. intros H.
  destruct remote_id as [r |], subscriber_id as [s |];
    try pose proof (strlen_nonneg r); try pose proof (strlen_nonneg s);
    split; trivial; lia.
Qed.

Section Forwarded.
Context {hdr : dhcpv6relay_h}.

Lemma head_segment_pushed (os : client_os) (hop : byte) (peer : in6_addr)
    (sport : in_port_t) (D : list byte) :
  Wire.header hop peer ++ pushed_options os sport (Z.of_nat (List.length D))
  = Wire.head_segment hop peer sport (ppp_get_remote_number os)
      (ppp_peer_authname os) D.
Proof. reflexivity. Qed.

Lemma relayed_sends (os : client_os) (D : list byte) (peer : in6_addr)
    (g : globals) (o : outcome unit) (x : Z * list byte * list byte) :
  relayed os D peer g o ->
  In x (sent (trace o)) ->
  exists g1 tc sa sport,
    connects os g g1 tc
    /\ getsockname_result os = Some sa /\ sport_of sa = Some sport
    /\ Wire.encoded_size (ppp_get_remote_number os) (ppp_peer_authname os) <= 256
    /\ x = (dhcpv6relay_upstream g1,
            Wire.head_segment (outer_hop_count os D) peer sport
              (ppp_get_remote_number os) (ppp_peer_authname os) D,
            D)
    /\ sent (trace o) = [x]
    /\ final o = Some g1.
Proof.
  intros Hr Hin.
  destruct Hr as [t Hf | g1 t Hc Hn | g1 t sa Hc Hn Hs | g1 t sa sport Hc Hn Hs Hb
                 | g1 t sa sport Hc Hn Hs Hb];
    cbn [trace final] in *.
  - rewrite (connect_fails_sent _ _ _ Hf) in Hin. destruct Hin.
  - rewrite sent_app, (connects_sent _ _ _ _ Hc) in Hin. destruct Hin.
  - rewrite sent_app, (connects_sent _ _ _ _ Hc) in Hin. destruct Hin.
  - rewrite sent_app, (connects_sent _ _ _ _ Hc) in Hin. destruct Hin.
  - rewrite !sent_app, (connects_sent _ _ _ _ Hc) in *.
    assert (Hpost : sent (if sendmsg_ok os then [] else [log_send_failed]) = [])
      by now destruct (sendmsg_ok os).
    rewrite Hpost in *. cbn [sent app] in *.
    destruct Hin as [<- | []].
    exists g1, t, sa, sport. rewrite head_segment_pushed. auto 10.
Qed.

(** Every [sendmsg] of the handler relays the datagram just received. *)
Lemma forwarded_inv (os : client_os) (fd : Z) (g : globals)
    (x : Z * list byte * list byte) :
  addressable (ppp_get_remote_number os) ->
  addressable (ppp_peer_authname os) ->
  In x (sent (trace (dhcpv6relay_client_event os fd g))) ->
  exists d g1 sport,
    relays os g d g1 sport
    /\ x = (dhcpv6relay_upstream g1,
            Wire.head_segment (outer_hop_count os (dg_payload d))
              (sin6_addr (dg_from d)) sport
              (ppp_get_remote_number os) (ppp_peer_authname os) (dg_payload d),
            dg_payload d)
    /\ sent (trace (dhcpv6relay_client_event os fd g)) = [x]
    /\ final (dhcpv6relay_client_event os fd g) = Some g1.
Proof.
  intros Hrid Hsid Hin.
  pose proof (client_event_handled os fd g Hrid Hsid) as Hh.
  destruct Hh as [Hrecv | d Hrecv Hlen | d Hrecv Hlen Ht | d Hrecv Hlen Ht Htr
                 | d o Hrecv Hlen Hnr Hnrr Htr Hrel];
    cbn [trace sent] in Hin; try (destruct Hin; fail).
  rewrite trace_prepend in *. cbn [app sent] in *.
  destruct (relayed_sends _ _ _ _ _ _ Hrel Hin)
    as (g1 & tc & sa & sport & Hc & Hn & Hs & Hfit & Hx & Hsent & Hfin).
  exists d, g1, sport. rewrite final_prepend.
  split; [| auto]. split; [| exact Hfit].
  constructor; [constructor; assumption | eauto | eauto].
Qed.

(** Conversely, a datagram that meets [relays] is sent, once. *)
Lemma relays_forwarded (os : client_os) (fd : Z) (g : globals) (d : datagram)
    (g1 : globals) (sport : in_port_t) :
  relays os g d g1 sport ->
  exists tc,
    connects os g g1 tc
    /\ dhcpv6relay_client_event os fd g
       = Cont tt g1
           ([ERecvfrom fd; log_received] ++ tc
            ++ [EGetsockname (dhcpv6relay_upstream g1);
                ESendmsg (dhcpv6relay_upstream g1)
                  (Wire.head_segment (outer_hop_count os (dg_payload d))
                     (sin6_addr (dg_from d)) sport
                     (ppp_get_remote_number os) (ppp_peer_authname os)
                     (dg_payload d))
                  (dg_payload d)]
            ++ (if sendmsg_ok os then [] else [log_send_failed])).
Proof.
  intros [[[Hrecv Hlen Hnr Hnrr Htr] (tc & Hc) (sa & Hn & Hs)] Hfit].
  destruct (addressable_of_fits _ _ Hfit) as (Hrid & Hsid).
  exists tc. split; [assumption |].
  pose proof (client_event_handled os fd g Hrid Hsid) as Hh.
  destruct Hh as [Hrecv' | d' Hrecv' Hlen' | d' Hrecv' Hlen' Ht | d' Hrecv' Hlen' Ht Htr'
                 | d' o Hrecv' Hlen' Hnr' Hnrr' Htr' Hrel];
    try congruence; assert (d' = d) by congruence; subst d'; try lia.
  - rewrite (Htr Ht) in Htr'. discriminate.
  - destruct Hrel as [t Hf | g2 t Hc' Hn' | g2 t sa' Hc' Hn' Hs'
                     | g2 t sa' sport' Hc' Hn' Hs' Hb | g2 t sa' sport' Hc' Hn' Hs' Hb].
    + destruct (connects_not_fails _ _ _ _ _ Hc Hf).
    + congruence.
    + congruence.
    + lia.
    + destruct (connects_functional _ _ _ _ _ _ Hc Hc') as (<- & <-).
      assert (sport' = sport) as -> by congruence.
      rewrite head_segment_pushed. reflexivity.
Qed.

End Forwarded.

(** * The claims *)

Section Classifier.
Context {hdr : dhcpv6relay_h}.

(** C1.  A datagram of 1 to 1023 bytes whose first byte [b] is REPLY or
    RELAY_REPL is dropped whatever the trust flag; one whose first byte is
    RELAY_FORW is dropped when the link is untrusted; every other
    datagram (RELAY_FORW on a trusted link, any other type on any link)
    goes on to lines 235-302, and is then sent upstream whenever the
    upstream socket, its local port and the scratch buffer allow it.  A
    dropped datagram leaves the globals as they were, and its trace
    (the read, the log line, the warning) has no [sendmsg]. *)
Theorem C1_classifier (os : client_os) (fd : Z) (g : globals) (d : datagram)
    (b : byte) (rest : list byte) :
  recvfrom_result os = Some d ->
  dg_payload d = b :: rest ->
  (List.length (dg_payload d) < 1024)%nat ->
  (byte.unsigned b = DHCPv6_MSGTYPE_REPLY
   \/ byte.unsigned b = DHCPv6_MSGTYPE_RELAY_REPL ->
   dhcpv6relay_client_event os fd g
   = Returned g [ERecvfrom fd; log_received; log_discard_reply]
   /\ sent (trace (dhcpv6relay_client_event os fd g)) = [])
  /\ (byte.unsigned b = DHCPv6_MSGTYPE_RELAY_FORW ->
      dhcpv6relay_trusted g = false ->
      dhcpv6relay_client_event os fd g
      = Returned g [ERecvfrom fd; log_received; log_discard_untrusted]
      /\ sent (trace (dhcpv6relay_client_event os fd g)) = [])
  /\ (byte.unsigned b <> DHCPv6_MSGTYPE_REPLY ->
      byte.unsigned b <> DHCPv6_MSGTYPE_RELAY_REPL ->
      (byte.unsigned b = DHCPv6_MSGTYPE_RELAY_FORW ->
       dhcpv6relay_trusted g = true) ->
      dhcpv6relay_client_event os fd g
      = prepend [ERecvfrom fd; log_received]
          (relay_forward os (received os (dg_payload d))
             (uninitialised (stack_fwd_head os) sizeof_fwd_head)
             (Z.of_nat (List.length (dg_payload d))) b (dg_from d) g)
      /\ forall g1 sport,
           (exists tc, connects os g g1 tc) ->
           (exists sa, getsockname_result os = Some sa
                       /\ sport_of sa = Some sport) ->
           Wire.encoded_size (ppp_get_remote_number os) (ppp_peer_authname os)
             <= 256 ->
           sent (trace (dhcpv6relay_client_event os fd g))
           = [(dhcpv6relay_upstream g1,
               Wire.head_segment (outer_hop_count os (dg_payload d))
                 (sin6_addr (dg_from d)) sport
                 (ppp_get_remote_number os) (ppp_peer_authname os)
                 (dg_payload d),
               dg_payload d)]).
Proof.
  intros Hrecv Hpay Hlen.
  pose proof (client_event_stages os fd g) as Hst.
  rewrite Hrecv in Hst.
  destruct (Nat.leb_spec 1024 (List.length (dg_payload d))) as [Hbig | _]; [lia |].
  assert (Hb : type_byte os (dg_payload d) = b) by now rewrite Hpay.
  rewrite Hb in Hst.
  split; [| split].
  - intros Ht.
    assert (Hc : (byte.unsigned b =? DHCPv6_MSGTYPE_REPLY)
                 || (byte.unsigned b =? DHCPv6_MSGTYPE_RELAY_REPL) = true).
    { apply orb_true_iff. rewrite !Z.eqb_eq. exact Ht. }
    rewrite Hc in Hst. rewrite Hst. split; reflexivity.
  - intros Ht Htr.
    assert (Hc : (byte.unsigned b =? DHCPv6_MSGTYPE_REPLY)
                 || (byte.unsigned b =? DHCPv6_MSGTYPE_RELAY_REPL) = false).
    { apply orb_false_iff. rewrite !Z.eqb_neq, Ht.
      split; [apply relay_forw_not_reply | apply relay_forw_not_relay_repl]. }
    rewrite Hc, Htr in Hst. rewrite (proj2 (Z.eqb_eq _ _) Ht) in Hst.
    cbn [negb andb] in Hst. rewrite Hst. split; reflexivity.
  - intros Hnr Hnrr Htr.
    assert (Hc : (byte.unsigned b =? DHCPv6_MSGTYPE_REPLY)
                 || (byte.unsigned b =? DHCPv6_MSGTYPE_RELAY_REPL) = false).
    { apply orb_false_iff. now rewrite !Z.eqb_neq. }
    assert (Hc' : negb (dhcpv6relay_trusted g)
                  && (byte.unsigned b =? DHCPv6_MSGTYPE_RELAY_FORW) = false).
    { destruct (Z.eqb_spec (byte.unsigned b) DHCPv6_MSGTYPE_RELAY_FORW) as [E | E].
      - now rewrite (Htr E).
      - apply andb_false_r. }
    rewrite Hc, Hc' in Hst. split; [exact Hst |].
    intros g1 sport Hconn Hname Hfit.
    assert (Hrel : relays os g d g1 sport).
    { split; [| exact Hfit].
      constructor; [constructor; rewrite ?Hb; auto | assumption | assumption]. }
    destruct (relays_forwarded os fd g d g1 sport Hrel) as (tc & Hc1 & ->).
    cbn [trace]. rewrite !sent_app, (connects_sent _ _ _ _ Hc1).
    now destruct (sendmsg_ok os).
Qed.

End Classifier.

(** A SOLICIT (type 1) from port 546 on an untrusted link, no identifiers,
    no upstream socket yet: the handler makes the socket (descriptor 7) and
    sends the 44-byte head segment followed by the datagram. *)
Lemma C1_classifier_witness :
  sent (trace (@dhcpv6relay_client_event rfc_header
                 (os_ok Byte.xaa [Byte.x01] None None) 5 (g_up false)))
  = [(7,
      @Wire.head_segment rfc_header Byte.x00 (sin6_addr client_sa)
        (Byte.x9c, Byte.x40) None None [Byte.x01],
      [Byte.x01])].
Proof.
  refine (proj2 (proj2 (proj2
            (@C1_classifier rfc_header (os_ok Byte.xaa [Byte.x01] None None) 5
               (g_up false)
               {| dg_payload := [Byte.x01]; dg_from := client_sa |}
               Byte.x01 [] eq_refl eq_refl _)) _ _ _)
          (set_upstream 7 (g_up false)) (Byte.x9c, Byte.x40) _ _ _).
  - simpl. lia.
  - vm_compute. discriminate.
  - vm_compute. discriminate.
  - vm_compute. discriminate.
  - eexists. apply (connects_fresh _ _ 7%N); [simpl; lia | reflexivity | reflexivity].
  - exists upstream_sa. split; reflexivity.
  - vm_compute. discriminate.
Defined.

(** ** Reading the options back *)

Lemma encode_options_app (l1 l2 : list (Z * list byte)) :
  Wire.encode_options (l1 ++ l2) = Wire.encode_options l1 ++ Wire.encode_options l2.
Proof. unfold Wire.encode_options. now rewrite map_app, concat_app. Qed.

Lemma parse_encode_options (opts : list (Z * list byte)) (fuel : nat) :
  Forall (fun o => Z.of_nat (List.length (snd o)) < 65536) opts ->
  (List.length opts <= fuel)%nat ->
  Wire.parse_options fuel (Wire.encode_options opts)
  = Some (map Wire.on_wire opts).
Proof.
  revert fuel. induction opts as [| [code value] opts IH]; intros fuel Hsmall Hfuel.
  - destruct fuel; reflexivity.
  - destruct fuel as [| fuel]; [simpl in Hfuel; lia |].
    inversion Hsmall as [| o l Hv Hrest]; subst. cbn [snd] in Hv.
    change (Wire.encode_options ((code, value) :: opts))
      with (Wire.tlv code value ++ Wire.encode_options opts).
    unfold Wire.tlv, Wire.be16. cbn [app Wire.parse_options].
    rewrite decode_be16_range by lia. rewrite Nat2Z.id.
    rewrite decode_be16_uint16.
    destruct (Nat.leb_spec (List.length value)
                (List.length (value ++ Wire.encode_options opts))) as [_ | Hlt];
      [| rewrite length_app in Hlt; lia].
    rewrite drop_app_length, take_app_length.
    rewrite IH by (simpl in Hfuel; auto; lia). reflexivity.
Qed.

Section RelayMsg.
Context {hdr : dhcpv6relay_h}.

Lemma header_length (hop : byte) (peer : in6_addr) :
  List.length (Wire.header hop peer) = 34%nat.
Proof. unfold Wire.header. list_len. lia. Qed.

Lemma options_region (hop : byte) (peer : in6_addr) (sport : in_port_t)
    (rid sid : option string) (D : list byte) :
  drop 34 (Wire.head_segment hop peer sport rid sid D) ++ D
  = Wire.encode_options (Wire.options sport rid sid D).
Proof.
  unfold Wire.head_segment, Wire.options.
  rewrite drop_app_length' by (symmetry; apply header_length).
  rewrite encode_options_app, <- !app_assoc. f_equal.
  unfold Wire.encode_options. cbn [map concat fst snd]. unfold Wire.tlv.
  now rewrite app_nil_r, <- ?app_assoc.
Qed.

Lemma options_small (sport : in_port_t) (rid sid : option string) (D : list byte) :
  Wire.encoded_size rid sid <= 256 ->
  (List.length D < 1024)%nat ->
  Forall (fun o => Z.of_nat (List.length (snd o)) < 65536)
    (Wire.options sport rid sid D).
Proof.
  intros Hfit HD. unfold Wire.options, Wire.leading_options, Wire.optional.
  unfold Wire.encoded_size, strlen in Hfit.
  destruct rid, sid; cbn [app];
    repeat (apply Forall_cons; split; [cbn [snd List.length]; lia |]);
    apply Forall_nil; exact I.
Qed.

Lemma options_count (sport : in_port_t) (rid sid : option string) (D : list byte) :
  (List.length (Wire.options sport rid sid D) <= 4)%nat.
Proof.
  unfold Wire.options, Wire.leading_options, Wire.optional.
  destruct rid, sid; cbn [app List.length]; lia.
Qed.

(** C2.  Whatever the handler passes to [sendmsg] is the datagram [D] it
    just received, as the second segment, behind a first segment made of
    the 34-byte header and these options in this order: RELAY_PORT, then
    REMOTE_ID if and only if the host reports a remote number, then
    SUBSCRIBER_ID if and only if it reports a peer name, then the code of
    RELAY_MSG and the length of [D].  Read as type-length-value options,
    the bytes after the header are exactly that list with RELAY_MSG last,
    its value being [D]. *)
Theorem C2_relay_msg_last (os : client_os) (fd : Z) (g : globals)
    (up : Z) (h seg1 : list byte) :
  addressable (ppp_get_remote_number os) ->
  addressable (ppp_peer_authname os) ->
  In (up, h, seg1) (sent (trace (dhcpv6relay_client_event os fd g))) ->
  exists d sa sport,
    recvfrom_result os = Some d
    /\ getsockname_result os = Some sa /\ sport_of sa = Some sport
    /\ seg1 = dg_payload d
    /\ List.length (take 34 h) = 34%nat
    /\ drop 34 h
       = Wire.encode_options
           (Wire.leading_options sport (ppp_get_remote_number os)
              (ppp_peer_authname os))
         ++ Wire.be16 DHCPv6_OPTION_RELAY_MSG
         ++ Wire.be16 (Z.of_nat (List.length (dg_payload d)))
    /\ drop 34 h ++ seg1
       = Wire.encode_options
           (Wire.options sport (ppp_get_remote_number os)
              (ppp_peer_authname os) (dg_payload d))
    /\ Wire.parse_options 4 (drop 34 h ++ seg1)
       = Some (map Wire.on_wire
                 (Wire.leading_options sport (ppp_get_remote_number os)
                    (ppp_peer_authname os))
               ++ [(C.uint16_t DHCPv6_OPTION_RELAY_MSG, dg_payload d)]).
Proof.
  intros Hrid Hsid Hin.
  destruct (forwarded_inv os fd g _ Hrid Hsid Hin)
    as (d & g1 & sport & Hrel & Hx & _ & _).
  destruct Hrel as [[[Hrecv Hlen _ _ _] _ (sa & Hn & Hs)] Hfit].
  inversion Hx; subst up h seg1. clear Hx.
  exists d, sa, sport. repeat (split; [assumption || reflexivity |]).
  split.
  { rewrite length_take. unfold Wire.head_segment.
    rewrite length_app, header_length. lia. }
  split.
  { unfold Wire.head_segment. now rewrite drop_app_length' by (symmetry; apply header_length). }
  split; [apply options_region |].
  rewrite options_region.
  rewrite parse_encode_options
    by (auto using options_small; apply options_count).
  unfold Wire.options. now rewrite map_app.
Qed.

End RelayMsg.

(** Scenario 5 of the specification: remote-id "abc", subscriber-id "xyz".
    The bytes after the header, followed by the datagram, read back as
    RELAY_PORT, REMOTE_ID, SUBSCRIBER_ID, RELAY_MSG. *)
Lemma C2_relay_msg_last_witness :
  Wire.parse_options 4
    (drop 34
       (@Wire.head_segment rfc_header Byte.x00 (sin6_addr client_sa)
          (Byte.x9c, Byte.x40) (Some "abc"%string) (Some "xyz"%string) [Byte.x01])
     ++ [Byte.x01])
  = Some [(135, [Byte.x9c; Byte.x40]);
          (37, [Byte.x61; Byte.x62; Byte.x63]);
          (38, [Byte.x78; Byte.x79; Byte.x7a]);
          (9, [Byte.x01])].
Proof.
  destruct (@C2_relay_msg_last rfc_header
              (os_ok Byte.xaa [Byte.x01] (Some "abc"%string) (Some "xyz"%string))
              5 (g_up false) 7
              (@Wire.head_segment rfc_header Byte.x00 (sin6_addr client_sa)
                 (Byte.x9c, Byte.x40) (Some "abc"%string) (Some "xyz"%string)
                 [Byte.x01])
              [Byte.x01])
    as (d & sa & sport & H1 & H2 & H3 & _ & _ & _ & _ & H8).
  - vm_compute. reflexivity.
  - vm_compute. reflexivity.
  - vm_compute. left. reflexivity.
  - rewrite H8. simpl in H1, H2. inversion H1; subst d. inversion H2; subst sa.
    simpl in H3. inversion H3; subst sport. reflexivity.
Defined.

Section RelayPort.
Context {hdr : dhcpv6relay_h}.

(** C3 (amended).  The first option of every RELAY-FORW the handler sends
    is RELAY_PORT, six bytes long: its code, the length 2, and the two
    bytes of the port field that [getsockname] reported for the upstream
    socket, in network byte order.  It is the relay's own sending port,
    not the source port of the client's datagram. *)
Theorem C3_relay_port_is_upstream_port (os : client_os) (fd : Z) (g : globals)
    (up : Z) (h seg1 : list byte) :
  addressable (ppp_get_remote_number os) ->
  addressable (ppp_peer_authname os) ->
  In (up, h, seg1) (sent (trace (dhcpv6relay_client_event os fd g))) ->
  exists sa sport,
    getsockname_result os = Some sa /\ sport_of sa = Some sport
    /\ take 6 (drop 34 h)
       = Wire.be16 DHCPv6_OPTION_RELAY_PORT ++ Wire.be16 2 ++ [fst sport; snd sport]
    /\ take 6 (drop 34 h)
       = Wire.tlv DHCPv6_OPTION_RELAY_PORT [fst sport; snd sport]
    /\ Wire.decode_be16 (fst sport) (snd sport) = ntohs sport.
Proof.
  intros Hrid Hsid Hin.
  destruct (forwarded_inv os fd g _ Hrid Hsid Hin)
    as (d & g1 & sport & Hrel & Hx & _ & _).
  destruct Hrel as [[_ _ (sa & Hn & Hs)] _].
  inversion Hx; subst up h seg1. clear Hx.
  exists sa, sport. split; [assumption |]. split; [assumption |].
  assert (Htake :
    take 6 (drop 34
              (Wire.head_segment (outer_hop_count os (dg_payload d))
                 (sin6_addr (dg_from d)) sport (ppp_get_remote_number os)
                 (ppp_peer_authname os) (dg_payload d)))
    = Wire.tlv DHCPv6_OPTION_RELAY_PORT [fst sport; snd sport]).
  { unfold Wire.head_segment.
    rewrite drop_app_length' by (symmetry; apply header_length).
    unfold Wire.leading_options. rewrite encode_options_app, <- app_assoc.
    unfold Wire.encode_options at 1. cbn [map concat fst snd].
    rewrite app_nil_r. now apply take_app_length'. }
  split; [exact Htake |]. split; [exact Htake |].
  unfold Wire.decode_be16. now rewrite ntohs_sum.
Qed.

End RelayPort.

(** The SOLICIT of scenario 1 comes from port 546 (bytes 02 22); the
    upstream socket sends from port 40000 (bytes 9c 40). *)
Lemma C3_relay_port_is_upstream_port_witness :
  exists sa sport,
    getsockname_result (os_ok Byte.xaa [Byte.x01] None None) = Some sa
    /\ sport_of sa = Some sport
    /\ take 6 (drop 34
                 (@Wire.head_segment rfc_header Byte.x00 (sin6_addr client_sa)
                    (Byte.x9c, Byte.x40) None None [Byte.x01]))
       = Wire.be16 135 ++ Wire.be16 2 ++ [fst sport; snd sport].
Proof.
  destruct (@C3_relay_port_is_upstream_port rfc_header
              (os_ok Byte.xaa [Byte.x01] None None) 5 (g_up false) 7
              (@Wire.head_segment rfc_header Byte.x00 (sin6_addr client_sa)
                 (Byte.x9c, Byte.x40) None None [Byte.x01])
              [Byte.x01])
    as (sa & sport & H1 & H2 & H3 & _).
  - exact I.
  - exact I.
  - vm_compute. left. reflexivity.
  - exists sa, sport. auto.
Defined.

(** C3 as the specification states it fails: the option holds 9c 40, the
    client's port is 02 22. *)
Lemma C3_counterexample :
  ~ @relay_port_is_client_port rfc_header
      (os_ok Byte.xaa [Byte.x01] None None) 5 (g_up false).
Proof.
  intros H.
  specialize (H {| dg_payload := [Byte.x01]; dg_from := client_sa |} 7
                (@Wire.head_segment rfc_header Byte.x00 (sin6_addr client_sa)
                   (Byte.x9c, Byte.x40) None None [Byte.x01])
                [Byte.x01] eq_refl).
  assert (Hin : In (7,
                    @Wire.head_segment rfc_header Byte.x00 (sin6_addr client_sa)
                      (Byte.x9c, Byte.x40) None None [Byte.x01],
                    [Byte.x01])
                  (sent (trace (@dhcpv6relay_client_event rfc_header
                                  (os_ok Byte.xaa [Byte.x01] None None) 5 (g_up false)))))
    by (vm_compute; left; reflexivity).
  specialize (H Hin). vm_compute in H. discriminate H.
Qed.

Section HopCount.
Context {hdr : dhcpv6relay_h}.

(** C5 (amended).  In every RELAY-FORW the handler sends, byte 1 of the
    header is 0 when the type byte of the inbound datagram is not
    RELAY_FORW; when the inbound datagram is a RELAY_FORW with hop-count
    N (its second byte), byte 1 is N+1 reduced modulo 256, hence N+1 for
    every N below 255. *)
Theorem C5_hop_count (os : client_os) (fd : Z) (g : globals) (d : datagram)
    (up : Z) (h seg1 : list byte) :
  addressable (ppp_get_remote_number os) ->
  addressable (ppp_peer_authname os) ->
  recvfrom_result os = Some d ->
  In (up, h, seg1) (sent (trace (dhcpv6relay_client_event os fd g))) ->
  exists hop,
    h !! 1%nat = Some hop
    /\ (byte.unsigned (type_byte os (dg_payload d)) <> DHCPv6_MSGTYPE_RELAY_FORW ->
        byte.unsigned hop = 0)
    /\ (forall t n rest,
          dg_payload d = t :: n :: rest ->
          byte.unsigned t = DHCPv6_MSGTYPE_RELAY_FORW ->
          byte.unsigned hop = (byte.unsigned n + 1) mod 256
          /\ (byte.unsigned n < 255 -> byte.unsigned hop = byte.unsigned n + 1)).
Proof.
  intros Hrid Hsid Hrecv Hin.
  destruct (forwarded_inv os fd g _ Hrid Hsid Hin)
    as (d' & g1 & sport & Hrel & Hx & _ & _).
  assert (d' = d) as -> by (destruct Hrel as [[[] _ _] _]; congruence).
  inversion Hx; subst up h seg1. clear Hx Hrel.
  exists (outer_hop_count os (dg_payload d)). split; [reflexivity |].
  unfold outer_hop_count, C.uchar. split.
  - intros Hne.
    destruct (Z.eqb_spec (byte.unsigned (type_byte os (dg_payload d)))
                DHCPv6_MSGTYPE_RELAY_FORW); [contradiction | reflexivity].
  - intros t n rest Hpay Ht. rewrite Hpay. cbn [type_byte hop_byte].
    rewrite (proj2 (Z.eqb_eq _ _) Ht), byte.unsigned_of_Z.
    unfold byte.wrap. change (2 ^ 8) with 256.
    split; [reflexivity |].
    intros Hn. pose proof (byte.unsigned_range n).
    apply Z.mod_small. lia.
Qed.

End HopCount.

(** Scenario 2 of the specification: a RELAY_FORW with hop-count 3 on a
    trusted link is relayed with hop-count 4. *)
Lemma C5_hop_count_witness :
  exists hop,
    @Wire.head_segment rfc_header Byte.x04 (sin6_addr client_sa)
      (Byte.x9c, Byte.x40) None None [Byte.x0c; Byte.x03] !! 1%nat = Some hop
    /\ byte.unsigned hop = 4.
Proof.
  destruct (@C5_hop_count rfc_header
              (os_ok Byte.xaa [Byte.x0c; Byte.x03] None None) 5 (g_up true)
              {| dg_payload := [Byte.x0c; Byte.x03]; dg_from := client_sa |} 7
              (@Wire.head_segment rfc_header Byte.x04 (sin6_addr client_sa)
                 (Byte.x9c, Byte.x40) None None [Byte.x0c; Byte.x03])
              [Byte.x0c; Byte.x03])
    as (hop & H1 & _ & H3).
  - exact I.
  - exact I.
  - reflexivity.
  - vm_compute. left. reflexivity.
  - exists hop. split; [exact H1 |].
    apply (H3 Byte.x0c Byte.x03 [] eq_refl eq_refl). vm_compute. reflexivity.
Defined.

(** C5 as the specification states it fails for hop-count 255: the outer
    hop-count is 0, not 256. *)
Lemma C5_counterexample :
  ~ @hop_count_is_successor rfc_header
      (os_ok Byte.xaa [Byte.x0c; Byte.xff] None None) 5 (g_up true).
Proof.
  intros H.
  destruct (H {| dg_payload := [Byte.x0c; Byte.xff]; dg_from := client_sa |}
              Byte.x0c Byte.xff [] 7
              (@Wire.head_segment rfc_header Byte.x00 (sin6_addr client_sa)
                 (Byte.x9c, Byte.x40) None None [Byte.x0c; Byte.xff])
              [Byte.x0c; Byte.xff] eq_refl eq_refl)
    as (hop & Hhop & Hval).
  - vm_compute. left. reflexivity.
  - vm_compute in Hhop. inversion Hhop; subst hop.
    vm_compute in Hval. discriminate Hval.
Qed.

(** ** Capacity of the scratch buffer *)

Lemma handled_final {hdr : dhcpv6relay_h} (os : client_os) (fd : Z) (g : globals)
    (o : outcome unit) :
  handled os fd g o -> exists g', final o = Some g'.
Proof.
  destruct 1 as [| | | | d o' _ _ _ _ _ Hrel]; cbn [final]; eauto.
  rewrite final_prepend. destruct Hrel; cbn [final]; eauto.
Qed.

Lemma exec_final (f : M unit) (g : globals) :
  exec f g = match final (f g) with
             | Some g' => Some (g', trace (f g))
             | None => None
             end.
Proof. unfold exec. now destruct (f g). Qed.

Section Capacity.
Context {hdr : dhcpv6relay_h}.

(** A datagram that gets as far as the option pushes, with options that
    do not fit, ends in the overflow log line. *)
Lemma overflow_aborts (os : client_os) (fd : Z) (g : globals) (d : datagram)
    (g1 : globals) (sport : in_port_t) :
  addressable (ppp_get_remote_number os) ->
  addressable (ppp_peer_authname os) ->
  reaches_options os g d g1 sport ->
  Wire.encoded_size (ppp_get_remote_number os) (ppp_peer_authname os) > 256 ->
  exists tc,
    connects os g g1 tc
    /\ dhcpv6relay_client_event os fd g
       = Returned g1
           ([ERecvfrom fd; log_received] ++ tc
            ++ [EGetsockname (dhcpv6relay_upstream g1); overflow_log]).
Proof.
  intros Hrid Hsid [[Hrecv Hlen Hnr Hnrr Htr] (tc & Hc) (sa & Hn & Hs)] Hover.
  exists tc. split; [assumption |].
  pose proof (client_event_handled os fd g Hrid Hsid) as Hh.
  destruct Hh as [Hrecv' | d' Hrecv' Hlen' | d' Hrecv' Hlen' Ht | d' Hrecv' Hlen' Ht Htr'
                 | d' o Hrecv' Hlen' Hnr' Hnrr' Htr' Hrel];
    try congruence; assert (d' = d) by congruence; subst d'; try lia.
  - rewrite (Htr Ht) in Htr'. discriminate.
  - destruct Hrel as [t Hf | g2 t Hc' Hn' | g2 t sa' Hc' Hn' Hs'
                     | g2 t sa' sport' Hc' Hn' Hs' Hb | g2 t sa' sport' Hc' Hn' Hs' Hb].
    + destruct (connects_not_fails _ _ _ _ _ Hc Hf).
    + congruence.
    + congruence.
    + destruct (connects_functional _ _ _ _ _ _ Hc Hc') as (<- & <-). reflexivity.
    + lia.
Qed.

(** C4.  With identifier strings that fit the address space:
    (1) the handler never writes or reads outside [fwd_head] or [buffer]:
    it always ends by returning;
    (2) when header and options (without the value of RELAY_MSG) need
    more than 256 bytes, nothing is handed to [sendmsg], and a datagram
    that gets as far as the option pushes ends the handler with the
    overflow log line;
    (3) when they fit, a datagram that gets as far as the option pushes
    is sent once, as the header and options of the wire format (at most
    256 bytes) followed by the datagram itself. *)
Theorem C4_capacity (os : client_os) (fd : Z) (g : globals) :
  addressable (ppp_get_remote_number os) ->
  addressable (ppp_peer_authname os) ->
  (exists g' t, exec (dhcpv6relay_client_event os fd) g = Some (g', t))
  /\ (Wire.encoded_size (ppp_get_remote_number os) (ppp_peer_authname os) > 256 ->
      sent (trace (dhcpv6relay_client_event os fd g)) = []
      /\ forall d g1 sport,
           reaches_options os g d g1 sport ->
           exists tc,
             connects os g g1 tc
             /\ dhcpv6relay_client_event os fd g
                = Returned g1
                    ([ERecvfrom fd; log_received] ++ tc
                     ++ [EGetsockname (dhcpv6relay_upstream g1); overflow_log]))
  /\ (Wire.encoded_size (ppp_get_remote_number os) (ppp_peer_authname os) <= 256 ->
      forall d g1 sport,
        reaches_options os g d g1 sport ->
        sent (trace (dhcpv6relay_client_event os fd g))
        = [(dhcpv6relay_upstream g1,
            Wire.head_segment (outer_hop_count os (dg_payload d))
              (sin6_addr (dg_from d)) sport
              (ppp_get_remote_number os) (ppp_peer_authname os) (dg_payload d),
            dg_payload d)]
        /\ Z.of_nat
             (List.length
                (Wire.head_segment (outer_hop_count os (dg_payload d))
                   (sin6_addr (dg_from d)) sport
                   (ppp_get_remote_number os) (ppp_peer_authname os)
                   (dg_payload d)))
           = Wire.encoded_size (ppp_get_remote_number os) (ppp_peer_authname os)).
Proof.
  intros Hrid Hsid. split; [| split].
  - destruct (handled_final os fd g _ (client_event_handled os fd g Hrid Hsid))
      as (g' & Hfin).
    exists g', (trace (dhcpv6relay_client_event os fd g)).
    now rewrite exec_final, Hfin.
  - intros Hover. split.
    + destruct (sent (trace (dhcpv6relay_client_event os fd g))) as [| x l] eqn:Hs;
        [reflexivity |].
      assert (Hin : In x (sent (trace (dhcpv6relay_client_event os fd g))))
        by (rewrite Hs; now left).
      destruct (forwarded_inv os fd g x Hrid Hsid Hin) as (d & g1 & sport & [_ Hfit] & _).
      lia.
    + intros d g1 sport Hreach. now apply (overflow_aborts os fd g d g1 sport).
  - intros Hfit d g1 sport Hreach.
    destruct (relays_forwarded os fd g d g1 sport (conj Hreach Hfit))
      as (tc & Hc & ->).
    cbn [trace]. rewrite !sent_app, (connects_sent _ _ _ _ Hc). split.
    + now destruct (sendmsg_ok os).
    + rewrite <- head_segment_pushed, length_app, header_length.
      rewrite <- (pushed_options_length os sport (Z.of_nat (List.length (dg_payload d)))).
      lia.
Qed.

End Capacity.

(** A remote number of 250 characters needs 34 + 6 + 254 + 4 = 298 bytes:
    the SOLICIT of scenario 1 is not sent. *)
Lemma C4_capacity_witness :
  sent (trace (@dhcpv6relay_client_event rfc_header
                 (os_ok Byte.xaa [Byte.x01] (Some long_id) None) 5 (g_up false)))
  = []
  /\ @dhcpv6relay_client_event rfc_header
       (os_ok Byte.xaa [Byte.x01] (Some long_id) None) 5 (g_up false)
     = Returned (set_upstream 7 (g_up false))
         [ERecvfrom 5; log_received; ESocket AF_INET6 7; EConnect 7;
          EGetsockname 7; overflow_log].
Proof.
  destruct (@C4_capacity rfc_header
              (os_ok Byte.xaa [Byte.x01] (Some long_id) None) 5 (g_up false))
    as (_ & Hover & _).
  - vm_compute. reflexivity.
  - exact I.
  - assert (Hbig : Wire.encoded_size (Some long_id) None > 256)
      by (vm_compute; reflexivity).
    destruct (Hover Hbig) as (Hsilent & Habort).
    split; [exact Hsilent |].
    destruct (Habort {| dg_payload := [Byte.x01]; dg_from := client_sa |}
                (set_upstream 7 (g_up false)) (Byte.x9c, Byte.x40))
      as (tc & Hc & ->).
    + constructor; [constructor; try (vm_compute; discriminate); try reflexivity | |].
      * simpl. lia.
      * eexists. apply (connects_fresh _ _ 7%N); [simpl; lia | reflexivity | reflexivity].
      * exists upstream_sa. split; reflexivity.
    + inversion Hc as [Hpos | fd' Hneg Hsock Hconn]. reflexivity.
Defined.

Section SizeLimit.
Context {hdr : dhcpv6relay_h}.

(** C6 (amended).  A datagram of up to 1023 bytes is taken to
    classification (the trace goes on after the read with the "received"
    log line).  A datagram of 1024 bytes or more ends the handler right
    after the read with the overrun log line: the globals are unchanged,
    nothing is sent, classification is not reached.  No datagram is sent
    on in part: the second segment of every [sendmsg] is the whole
    datagram. *)
Theorem C6_size_limit (os : client_os) (fd : Z) (g : globals) (d : datagram) :
  recvfrom_result os = Some d ->
  ((List.length (dg_payload d) <= 1023)%nat ->
   exists t',
     trace (dhcpv6relay_client_event os fd g)
     = ERecvfrom fd :: log_received :: t')
  /\ ((1024 <= List.length (dg_payload d))%nat ->
      dhcpv6relay_client_event os fd g = Returned g [ERecvfrom fd; log_overrun]
      /\ sent (trace (dhcpv6relay_client_event os fd g)) = [])
  /\ (addressable (ppp_get_remote_number os) ->
      addressable (ppp_peer_authname os) ->
      forall up h seg1,
        In (up, h, seg1) (sent (trace (dhcpv6relay_client_event os fd g))) ->
        seg1 = dg_payload d).
Proof.
  intros Hrecv. pose proof (client_event_stages os fd g) as Hst.
  rewrite Hrecv in Hst. split; [| split].
  - intros Hlen.
    destruct (Nat.leb_spec 1024 (List.length (dg_payload d))); [lia |].
    destruct (_ || _); [rewrite Hst; cbn [trace]; eauto |].
    destruct (_ && _); [rewrite Hst; cbn [trace]; eauto |].
    rewrite Hst, trace_prepend. cbn [app]. eauto.
  - intros Hlen.
    destruct (Nat.leb_spec 1024 (List.length (dg_payload d))); [| lia].
    rewrite Hst. split; reflexivity.
  - intros Hrid Hsid up h seg1 Hin.
    destruct (forwarded_inv os fd g _ Hrid Hsid Hin)
      as (d' & g1 & sport & [[[Hrecv' _ _ _ _] _ _] _] & Hx & _ & _).
    inversion Hx. congruence.
Qed.

End SizeLimit.

(** A datagram of 1023 bytes is classified (and, being a SOLICIT, sent);
    scenario 4 of the specification, 1025 bytes, is dropped. *)
Lemma C6_size_limit_witness :
  (exists t',
     trace (@dhcpv6relay_client_event rfc_header
              (os_ok Byte.xaa (repeat Byte.x01 1023) None None) 5 (g_up false))
     = ERecvfrom 5 :: log_received :: t')
  /\ @dhcpv6relay_client_event rfc_header
       (os_ok Byte.xaa (repeat Byte.x01 1025) None None) 5 (g_up false)
     = Returned (g_up false) [ERecvfrom 5; log_overrun].
Proof.
  split.
  - apply (@C6_size_limit rfc_header
             (os_ok Byte.xaa (repeat Byte.x01 1023) None None) 5 (g_up false)
             {| dg_payload := repeat Byte.x01 1023; dg_from := client_sa |} eq_refl).
    apply Nat.leb_le. vm_compute. reflexivity.
  - apply (@C6_size_limit rfc_header
             (os_ok Byte.xaa (repeat Byte.x01 1025) None None) 5 (g_up false)
             {| dg_payload := repeat Byte.x01 1025; dg_from := client_sa |} eq_refl).
    apply Nat.leb_le. vm_compute. reflexivity.
Defined.

(** C6 as the specification states it fails for a datagram of exactly 1024
    bytes: it is not classified but dropped with the overrun log line. *)
Lemma C6_counterexample :
  ~ @accepts_1024 rfc_header
      (os_ok Byte.xaa (repeat Byte.x01 1024) None None) 5 (g_up false).
Proof.
  intros H.
  destruct (H {| dg_payload := repeat Byte.x01 1024; dg_from := client_sa |} eq_refl)
    as (Hin & _).
  assert (Hlen : (List.length (repeat Byte.x01 1024) <= 1024)%nat)
    by (apply Nat.leb_le; vm_compute; reflexivity).
  specialize (Hin Hlen). vm_compute in Hin.
  destruct Hin as [Hin | [Hin | []]]; discriminate Hin.
Qed.

(** C7.  The handler classifies an empty datagram, on the byte that the
    stack held at [buffer[0]]: index 0 is not within the received datagram.
    With 07 (REPLY) there the empty datagram is dropped as a reply, with 01
    (SOLICIT) there it is relayed. *)
Theorem C7_empty_datagram_reads_stack :
  ~ @type_byte_was_received rfc_header (os_ok Byte.x07 [] None None) 5 (g_up true)
  /\ @dhcpv6relay_client_event rfc_header (os_ok Byte.x07 [] None None) 5 (g_up true)
     = Returned (g_up true) [ERecvfrom 5; log_received; log_discard_reply]
  /\ sent (trace (@dhcpv6relay_client_event rfc_header
                    (os_ok Byte.x01 [] None None) 5 (g_up true)))
     = [(7,
         @Wire.head_segment rfc_header Byte.x00 (sin6_addr client_sa)
           (Byte.x9c, Byte.x40) None None [],
         [])].
Proof.
  split; [| split].
  - intros H.
    specialize (H {| dg_payload := []; dg_from := client_sa |} eq_refl).
    assert (Hin : In log_received
                    (trace (@dhcpv6relay_client_event rfc_header
                              (os_ok Byte.x07 [] None None) 5 (g_up true))))
      by (vm_compute; right; left; reflexivity).
    specialize (H Hin). simpl in H. lia.
  - vm_compute. reflexivity.
  - vm_compute. reflexivity.
Qed.

(** ** The upstream socket *)

Lemma connect_fails_functional (os : client_os) (g : globals) (t1 t2 : list event) :
  connect_fails os g t1 -> connect_fails os g t2 -> t1 = t2.
Proof.
  destruct 1 as [Hneg Hsock | fd Hneg Hsock Hconn];
    destruct 1 as [Hneg' Hsock' | fd' Hneg' Hsock' Hconn']; congruence.
Qed.

Section Upstream.
Context {hdr : dhcpv6relay_h}.

Lemma accepted_relayed (os : client_os) (fd : Z) (g : globals) (d : datagram) :
  addressable (ppp_get_remote_number os) ->
  addressable (ppp_peer_authname os) ->
  accepted os g d ->
  exists o,
    relayed os (dg_payload d) (sin6_addr (dg_from d)) g o
    /\ dhcpv6relay_client_event os fd g = prepend [ERecvfrom fd; log_received] o.
Proof.
  intros Hrid Hsid [Hrecv Hlen Hnr Hnrr Htr].
  pose proof (client_event_handled os fd g Hrid Hsid) as Hh.
  destruct Hh as [Hrecv' | d' Hrecv' Hlen' | d' Hrecv' Hlen' Ht | d' Hrecv' Hlen' Ht Htr'
                 | d' o Hrecv' Hlen' Hnr' Hnrr' Htr' Hrel];
    try congruence; assert (d' = d) by congruence; subst d'; try lia.
  - rewrite (Htr Ht) in Htr'. discriminate.
  - eauto.
Qed.

Lemma not_accepted_untouched (os : client_os) (fd : Z) (g : globals) :
  addressable (ppp_get_remote_number os) ->
  addressable (ppp_peer_authname os) ->
  (forall d, ~ accepted os g d) ->
  final (dhcpv6relay_client_event os fd g) = Some g
  /\ existsb is_socket (trace (dhcpv6relay_client_event os fd g)) = false
  /\ sent (trace (dhcpv6relay_client_event os fd g)) = [].
Proof.
  intros Hrid Hsid Hno.
  pose proof (client_event_handled os fd g Hrid Hsid) as Hh.
  destruct Hh as [Hrecv | d Hrecv Hlen | d Hrecv Hlen Ht | d Hrecv Hlen Ht Htr
                 | d o Hrecv Hlen Hnr Hnrr Htr Hrel]; auto.
  destruct (Hno d). now constructor.
Qed.

(** The outcome of lines 235-302 when the upstream socket is in place. *)
Lemma relayed_connected (os : client_os) (D : list byte) (peer : in6_addr)
    (g g1 : globals) (tc : list event) (o : outcome unit) :
  relayed os D peer g o ->
  connects os g g1 tc ->
  final o = Some g1
  /\ exists t', trace o = tc ++ t' /\ existsb is_socket t' = false.
Proof.
  intros Hrel Hc.
  destruct Hrel as [t Hf | g2 t Hc' Hn | g2 t sa Hc' Hn Hs | g2 t sa sport Hc' Hn Hs Hb
                   | g2 t sa sport Hc' Hn Hs Hb];
    [destruct (connects_not_fails _ _ _ _ _ Hc Hf) | | | |];
    destruct (connects_functional _ _ _ _ _ _ Hc Hc') as (<- & <-);
    cbn [final trace]; (split; [reflexivity |]); eexists; (split; [reflexivity |]);
    try reflexivity.
  now destruct (sendmsg_ok os).
Qed.

(** With an upstream socket in place, a datagram that passes the checks
    is relayed through it. *)
Lemma upstream_reused (os : client_os) (fd : Z) (g : globals) (d : datagram) :
  addressable (ppp_get_remote_number os) ->
  addressable (ppp_peer_authname os) ->
  accepted os g d ->
  0 <= dhcpv6relay_upstream g ->
  final (dhcpv6relay_client_event os fd g) = Some g
  /\ existsb is_socket (trace (dhcpv6relay_client_event os fd g)) = false
  /\ forall up h seg1,
       In (up, h, seg1) (sent (trace (dhcpv6relay_client_event os fd g))) ->
       up = dhcpv6relay_upstream g.
Proof.
  intros Hrid Hsid Hacc Hpos.
  destruct (accepted_relayed os fd g d Hrid Hsid Hacc) as (o & Hrel & Ho).
  destruct (relayed_connected _ _ _ _ _ _ _ Hrel (connects_reuse os g Hpos))
    as (Hfin & t' & Ht' & Hsock).
  split; [now rewrite Ho, final_prepend |]. split.
  { rewrite Ho, trace_prepend, Ht'. exact Hsock. }
  intros up h seg1 Hin.
  destruct (forwarded_inv os fd g _ Hrid Hsid Hin)
    as (d' & g1 & sport & _ & Hx & _ & Hfin').
  rewrite Ho, final_prepend, Hfin in Hfin'. inversion Hfin'. inversion Hx. congruence.
Qed.

(** C8.  With identifier strings that fit the address space:
    (1) a datagram that does not pass the checks of lines 203-233 leaves
    the globals alone and causes no [socket] call and no [sendmsg];
    and for a datagram that passes them,
    (2) when an upstream socket is in place it is used as it is: no
    [socket] call, the globals stay as they were, any [sendmsg] goes to
    that descriptor;
    (3) when none is in place and [socket] and [connect] succeed, the new
    descriptor is stored in [dhcpv6relay_upstream] and kept whatever
    becomes of the datagram, no second [socket] call follows, any
    [sendmsg] goes to the new descriptor, and later datagrams that pass
    the checks are relayed through it without another [socket] call;
    (4) when none is in place and [socket] or [connect] fails, the
    handler returns at once: nothing is sent, [dhcpv6relay_upstream] is
    -1, the two listening descriptors are what they were, and the trace
    holds nothing but the failed attempt (with the [close] of the new
    descriptor after a failed [connect]);
    (5) in the state so left behind, the next datagram that passes the
    checks makes the handler call [socket] again. *)
Theorem C8_upstream_session (os : client_os) (fd : Z) (g : globals) :
  addressable (ppp_get_remote_number os) ->
  addressable (ppp_peer_authname os) ->
  ((forall d, ~ accepted os g d) ->
   final (dhcpv6relay_client_event os fd g) = Some g
   /\ existsb is_socket (trace (dhcpv6relay_client_event os fd g)) = false
   /\ sent (trace (dhcpv6relay_client_event os fd g)) = [])
  /\ forall d,
       accepted os g d ->
       (0 <= dhcpv6relay_upstream g ->
        final (dhcpv6relay_client_event os fd g) = Some g
        /\ existsb is_socket (trace (dhcpv6relay_client_event os fd g)) = false
        /\ forall up h seg1,
             In (up, h, seg1) (sent (trace (dhcpv6relay_client_event os fd g))) ->
             up = dhcpv6relay_upstream g)
       /\ (dhcpv6relay_upstream g < 0 ->
           forall new,
             socket_result os = Some new -> connect_ok os = true ->
             final (dhcpv6relay_client_event os fd g)
             = Some (set_upstream (Z.of_N new) g)
             /\ (exists t',
                   trace (dhcpv6relay_client_event os fd g)
                   = [ERecvfrom fd; log_received;
                      ESocket (dhcpv6relay_sa_family g) (Z.of_N new);
                      EConnect (Z.of_N new)] ++ t'
                   /\ existsb is_socket t' = false)
             /\ (forall up h seg1,
                   In (up, h, seg1)
                     (sent (trace (dhcpv6relay_client_event os fd g))) ->
                   up = Z.of_N new)
             /\ forall os2 fd2 d2,
                  addressable (ppp_get_remote_number os2) ->
                  addressable (ppp_peer_authname os2) ->
                  accepted os2 (set_upstream (Z.of_N new) g) d2 ->
                  final (dhcpv6relay_client_event os2 fd2
                           (set_upstream (Z.of_N new) g))
                  = Some (set_upstream (Z.of_N new) g)
                  /\ existsb is_socket
                       (trace (dhcpv6relay_client_event os2 fd2
                                 (set_upstream (Z.of_N new) g)))
                     = false
                  /\ forall up h seg1,
                       In (up, h, seg1)
                         (sent (trace (dhcpv6relay_client_event os2 fd2
                                         (set_upstream (Z.of_N new) g)))) ->
                       up = Z.of_N new)
       /\ (dhcpv6relay_upstream g < 0 ->
           socket_result os = None \/ connect_ok os = false ->
           exists t,
             connect_fails os g t
             /\ dhcpv6relay_client_event os fd g
                = Returned (set_upstream (-1) g) ([ERecvfrom fd; log_received] ++ t)
             /\ sent (trace (dhcpv6relay_client_event os fd g)) = []
             /\ dhcpv6relay_upstream (set_upstream (-1) g) = -1
             /\ dhcpv6relay_sock_ll (set_upstream (-1) g) = dhcpv6relay_sock_ll g
             /\ dhcpv6relay_sock_mc (set_upstream (-1) g) = dhcpv6relay_sock_mc g
             /\ forall os2 fd2 d2,
                  addressable (ppp_get_remote_number os2) ->
                  addressable (ppp_peer_authname os2) ->
                  accepted os2 (set_upstream (-1) g) d2 ->
                  existsb is_socket
                    (trace (dhcpv6relay_client_event os2 fd2 (set_upstream (-1) g)))
                  = true).
Proof.
  intros Hrid Hsid. split; [now apply not_accepted_untouched |].
  intros d Hacc.
  destruct (accepted_relayed os fd g d Hrid Hsid Hacc) as (o & Hrel & Ho).
  split; [| split].
  - intros Hpos. now apply (upstream_reused os fd g d).
  - intros Hneg new Hsock Hconn.
    destruct (relayed_connected _ _ _ _ _ _ _ Hrel
                (connects_fresh os g new Hneg Hsock Hconn))
      as (Hfin & t' & Ht' & Hsock').
    split; [now rewrite Ho, final_prepend |]. split.
    + exists t'. rewrite Ho, trace_prepend, Ht'. split; [reflexivity | assumption].
    + split.
      * intros up h seg1 Hin.
        destruct (forwarded_inv os fd g _ Hrid Hsid Hin)
          as (d' & g1 & sport & _ & Hx & _ & Hfin').
        rewrite Ho, final_prepend, Hfin in Hfin'. inversion Hfin'. inversion Hx.
        subst g1. reflexivity.
      * intros os2 fd2 d2 Hrid2 Hsid2 Hacc2.
        apply (upstream_reused os2 fd2 _ d2 Hrid2 Hsid2 Hacc2).
        cbn [dhcpv6relay_upstream set_upstream]. lia.
  - intros Hneg Hfail.
    assert (Hf : exists t, connect_fails os g t).
    { destruct (socket_result os) as [new |] eqn:Hsock.
      - destruct Hfail as [Hfail | Hfail]; [discriminate |].
        eexists. now apply (connect_fails_connect os g new).
      - eexists. now apply connect_fails_socket. }
    destruct Hf as (t & Hf). exists t. split; [assumption |].
    assert (Heq : o = Returned (set_upstream (-1) g) t).
    { destruct Hrel as [t0 Hf0 | g2 t0 Hc | g2 t0 sa Hc | g2 t0 sa sport Hc
                       | g2 t0 sa sport Hc];
        try destruct (connects_not_fails _ _ _ _ _ Hc Hf).
      now rewrite (connect_fails_functional _ _ _ _ Hf0 Hf). }
    rewrite Ho, Heq. cbn [prepend trace].
    split; [reflexivity |]. split.
    { rewrite sent_app, (connect_fails_sent _ _ _ Hf). reflexivity. }
    repeat (split; [reflexivity |]).
    intros os2 fd2 d2 Hrid2 Hsid2 Hacc2.
    destruct (accepted_relayed os2 fd2 _ d2 Hrid2 Hsid2 Hacc2) as (o2 & Hrel2 & ->).
    rewrite trace_prepend. cbn [app existsb is_socket orb].
    destruct Hrel2 as [t0 Hf0 | g2 t0 Hc | g2 t0 sa Hc | g2 t0 sa sport Hc
                      | g2 t0 sa sport Hc]; cbn [trace].
    + now destruct Hf0.
    + destruct Hc as [Hpos |]; [simpl in Hpos; lia | reflexivity].
    + destruct Hc as [Hpos |]; [simpl in Hpos; lia | reflexivity].
    + destruct Hc as [Hpos |]; [simpl in Hpos; lia | reflexivity].
    + destruct Hc as [Hpos |]; [simpl in Hpos; lia | reflexivity].
Qed.

End Upstream.

(** The SOLICIT of scenario 1 arrives while no upstream socket exists:
    descriptor 7 is created, connected and kept. *)
Lemma C8_upstream_session_witness :
  final (@dhcpv6relay_client_event rfc_header
           (os_ok Byte.xaa [Byte.x01] None None) 5 (g_up false))
  = Some (set_upstream 7 (g_up false)).
Proof.
  destruct (@C8_upstream_session rfc_header
              (os_ok Byte.xaa [Byte.x01] None None) 5 (g_up false) I I)
    as (_ & H).
  destruct (H {| dg_payload := [Byte.x01]; dg_from := client_sa |})
    as (_ & Hfresh & _).
  - constructor; try (vm_compute; discriminate); try reflexivity.
    simpl. lia.
  - destruct (Hfresh ltac:(simpl; lia) 7%N eq_refl eq_refl) as (Hfin & _).
    exact Hfin.
Defined.

(** ** Link down and link up *)

(** Run the monadic steps at the head of the goal. *)
Ltac run :=
  repeat (first [ rewrite bind_assoc | rewrite bind_ret_l | rewrite bind_emit
                | rewrite bind_get | rewrite bind_modify ];
          cbv beta).

Lemma down_when_down (g : globals) :
  dhcpv6relay_sock_ll g < 0 -> dhcpv6relay_sock_mc g < 0 ->
  dhcpv6relay_down g = Cont tt g [].
Proof.
  intros Hll Hmc. unfold dhcpv6relay_down. rewrite bind_get.
  destruct (Z.geb_spec (dhcpv6relay_sock_ll g) 0); [lia |].
  unfold when at 1. rewrite bind_ret_l, bind_get.
  destruct (Z.geb_spec (dhcpv6relay_sock_mc g) 0); [lia |].
  reflexivity.
Qed.

Lemma down_when_up (g : globals) :
  0 <= dhcpv6relay_sock_ll g -> 0 <= dhcpv6relay_sock_mc g ->
  dhcpv6relay_down g
  = Cont tt (set_sock_mc (-1) (set_sock_ll (-1) g))
      [ERemoveFd (dhcpv6relay_sock_ll g); EClose (dhcpv6relay_sock_ll g);
       ERemoveFd (dhcpv6relay_sock_mc g); EClose (dhcpv6relay_sock_mc g)].
Proof.
  intros Hll Hmc. unfold dhcpv6relay_down. rewrite bind_get.
  destruct (Z.geb_spec (dhcpv6relay_sock_ll g) 0); [| lia].
  unfold when at 1. run. cbn [dhcpv6relay_sock_mc set_sock_ll].
  destruct (Z.geb_spec (dhcpv6relay_sock_mc g) 0); [| lia].
  reflexivity.
Qed.

(** Whatever the state, [dhcpv6relay_down] ends with both listening
    descriptors absent and everything else as it was. *)
Lemma down_leaves_down (g : globals) :
  exists g1 t,
    dhcpv6relay_down g = Cont tt g1 t
    /\ dhcpv6relay_sock_ll g1 < 0 /\ dhcpv6relay_sock_mc g1 < 0
    /\ g1 = set_sock_mc (dhcpv6relay_sock_mc g1) (set_sock_ll (dhcpv6relay_sock_ll g1) g).
Proof.
  unfold dhcpv6relay_down. rewrite bind_get.
  destruct (Z.geb_spec (dhcpv6relay_sock_ll g) 0) as [Hll | Hll]; unfold when at 1.
  - run. cbn [dhcpv6relay_sock_mc set_sock_ll].
    destruct (Z.geb_spec (dhcpv6relay_sock_mc g) 0) as [Hmc | Hmc]; unfold when.
    + do 2 eexists. split; [reflexivity |]. cbn.
      repeat split; try lia; now destruct g.
    + do 2 eexists. split; [reflexivity |]. cbn.
      repeat split; try lia; now destruct g.
  - rewrite bind_ret_l, bind_get.
    destruct (Z.geb_spec (dhcpv6relay_sock_mc g) 0) as [Hmc | Hmc]; unfold when.
    + do 2 eexists. split; [reflexivity |]. cbn.
      repeat split; try lia; now destruct g.
    + do 2 eexists. split; [reflexivity |]. cbn.
      repeat split; try lia; now destruct g.
Qed.

(** C9.  When both listening descriptors are absent, [dhcpv6relay_down]
    does nothing: it returns with the globals as they were and an empty
    trace (no [remove_fd], no [close], no log line).  Hence running it twice
    from any state is the same as running it once. *)
Theorem C9_down_idempotent (g : globals) :
  dhcpv6relay_sock_ll g < 0 ->
  dhcpv6relay_sock_mc g < 0 ->
  dhcpv6relay_down g = Cont tt g []
  /\ exec dhcpv6relay_down g = Some (g, [])
  /\ forall g0,
       bind dhcpv6relay_down (fun _ => dhcpv6relay_down) g0 = dhcpv6relay_down g0.
Proof.
  intros Hll Hmc. rewrite exec_final, (down_when_down g Hll Hmc).
  split; [reflexivity |]. split; [reflexivity |].
  intros g0. destruct (down_leaves_down g0) as (g1 & t & E & Hll1 & Hmc1 & _).
  rewrite (bind_cont _ _ _ _ _ _ E), (down_when_down g1 Hll1 Hmc1), E.
  cbn [prepend]. now rewrite app_nil_r.
Qed.

(** The link is down (both descriptors are -1): tearing it down again
    changes nothing. *)
Lemma C9_down_idempotent_witness :
  dhcpv6relay_down (g_down false) = Cont tt (g_down false) [].
Proof.
  apply (C9_down_idempotent (g_down false)); simpl; lia.
Defined.

Lemma listeners_only_refl (g : globals) : listeners_only g g.
Proof. repeat split. Qed.

Lemma listeners_only_trans (g g1 g2 : globals) :
  listeners_only g g1 -> listeners_only g1 g2 -> listeners_only g g2.
Proof. unfold listeners_only. intuition congruence. Qed.

Lemma listeners_only_ll (fd : Z) (g : globals) : listeners_only g (set_sock_ll fd g).
Proof. repeat split. Qed.

Lemma listeners_only_mc (fd : Z) (g : globals) : listeners_only g (set_sock_mc fd g).
Proof. repeat split. Qed.

Lemma call_down (k : unit -> M unit) (g : globals) :
  exists g1 t,
    bind (call dhcpv6relay_down) k g = prepend t (k tt g1)
    /\ listeners_only g g1.
Proof.
  destruct (down_leaves_down g) as (g1 & t & E & _ & _ & Hg1).
  exists g1, t. split.
  - unfold bind, call. now rewrite E.
  - rewrite Hg1. eapply listeners_only_trans;
      [apply listeners_only_ll | apply listeners_only_mc].
Qed.

(** [dhcpv6relay_up] returns, and touches the listening descriptors only. *)
Lemma up_frame (uos : up_os) (g : globals) :
  exists g1 t,
    exec (dhcpv6relay_up uos) g = Some (g1, t) /\ listeners_only g g1.
Proof.
  assert (Hfail : forall (g' : globals) (t0 : list event) (msg : string)
                          (k : unit -> M unit),
            listeners_only g g' ->
            exists g1 t,
              match prepend t0
                      (bind (bind (error msg)
                               (fun _ => bind (call dhcpv6relay_down)
                                           (fun _ => @return_ unit))) k g')
              with
              | Cont _ g1' t' | Returned g1' t' => Some (g1', t')
              | Faulted _ => None
              end = Some (g1, t)
              /\ listeners_only g g1).
  { intros g' t0 msg k Hg'. unfold error. run.
    match goal with
    | |- context [bind (call dhcpv6relay_down) ?k' ?g0] =>
        destruct (call_down k' g0) as (g1 & t & -> & Hg1)
    end.
    do 2 eexists. split; [reflexivity |].
    eapply listeners_only_trans; eassumption. }
  unfold exec, dhcpv6relay_up. rewrite bind_get.
  destruct (dhcpv6relay_server g) as [server |]; cbn [is_null when].
  2: { do 2 eexists. split; [reflexivity | apply listeners_only_refl]. }
  rewrite bind_ret_l. unfold dhcpv6relay_populate_ll.
  destruct (getifaddrs_result uos) as [ifap |].
  2: { do 2 eexists. split; [reflexivity | apply listeners_only_refl]. }
  destruct (first_ll (ppp_ifname uos) ifap) as [sa |].
  2: { do 2 eexists. split; [reflexivity | apply listeners_only_refl]. }
  run.
  destruct (getservbyname_result uos) as [se |].
  2: { do 2 eexists. split; [reflexivity | apply listeners_only_refl]. }
  run.
  set (g_ll := set_sock_ll (socket_ret (socket_ll_result uos)) g).
  assert (Hll : listeners_only g g_ll) by apply listeners_only_ll.
  destruct (socket_ret (socket_ll_result uos) <? 0); unfold when at 1.
  { apply Hfail. exact Hll. }
  run. rewrite !prepend_prepend. cbn [app].
  destruct (bind_ll_ok uos); cbn [negb]; unfold when at 1.
  2: { apply Hfail. exact Hll. }
  run. rewrite !prepend_prepend. cbn [app].
  destruct (inet_pton_result uos <? 0); unfold when at 1.
  { apply Hfail. exact Hll. }
  run. rewrite !prepend_prepend. cbn [app].
  destruct (join_group_ok uos); cbn [negb]; unfold when at 1.
  2: { apply Hfail. exact Hll. }
  run. rewrite !prepend_prepend. cbn [app].
  set (g_mc := set_sock_mc (socket_ret (socket_mc_result uos)) g_ll).
  assert (Hmc : listeners_only g g_mc)
    by (eapply listeners_only_trans; [exact Hll | apply listeners_only_mc]).
  destruct (socket_ret (socket_mc_result uos) <? 0); unfold when at 1.
  { apply Hfail. exact Hmc. }
  run. rewrite !prepend_prepend. cbn [app].
  destruct (bind_mc_ok uos); cbn [negb]; unfold when at 1.
  2: { apply Hfail. exact Hmc. }
  run. unfold notice, emit. cbn [prepend app].
  do 2 eexists. split; [reflexivity | exact Hmc].
Qed.

(** The path of [dhcpv6relay_up] on which every call succeeds. *)
Lemma up_succeeds_exec (uos : up_os) (g : globals) (sa : sockaddr_in6)
    (port : in_port_t) (a b : N) :
  up_succeeds uos g sa port a b ->
  exec (dhcpv6relay_up uos) g
  = Some (set_sock_mc (Z.of_N b) (set_sock_ll (Z.of_N a) g),
          [ESocket AF_INET6 (Z.of_N a); EFcntl (Z.of_N a);
           EBind (Z.of_N a)
             {| sin6_port := port; sin6_addr := sin6_addr sa;
                sin6_scope_id := sin6_scope_id sa |};
           ESetsockopt (Z.of_N a) "IPV6_UNICAST_HOPS";
           ESetsockopt (Z.of_N a) "IPV6_JOIN_GROUP";
           ESocket AF_INET6 (Z.of_N b); EFcntl (Z.of_N b);
           EBind (Z.of_N b)
             {| sin6_port := port;
                sin6_addr := if inet_pton_result uos =? 1
                             then all_dhcp_relay_agents_and_servers
                             else in6addr_any;
                sin6_scope_id := sin6_scope_id sa |};
           EAddFdCallback (Z.of_N a); EAddFdCallback (Z.of_N b);
           ELog LNotice "DHCPv6 relay: ready."]).
Proof.
  intros [Hs (ifap & Hi & Hf) Hp Ha Hbl Hpt Hj Hb Hbm].
  unfold exec, dhcpv6relay_up. rewrite bind_get.
  destruct (dhcpv6relay_server g) as [server |]; [| congruence].
  cbn [is_null when]. rewrite bind_ret_l. unfold dhcpv6relay_populate_ll.
  rewrite Hi, Hf. run. rewrite Hp. run. rewrite Ha. cbn [socket_ret].
  destruct (Z.ltb_spec (Z.of_N a) 0); [lia |]. unfold when at 1.
  run. rewrite !prepend_prepend. cbn [app].
  rewrite Hbl. cbn [negb]. unfold when at 1.
  run. rewrite !prepend_prepend. cbn [app].
  destruct (Z.ltb_spec (inet_pton_result uos) 0); [lia |]. unfold when at 1.
  run. rewrite !prepend_prepend. cbn [app].
  rewrite Hj. cbn [negb]. unfold when at 1.
  run. rewrite !prepend_prepend. cbn [app].
  rewrite Hb. cbn [socket_ret].
  destruct (Z.ltb_spec (Z.of_N b) 0); [lia |]. unfold when at 1.
  run. rewrite !prepend_prepend. cbn [app].
  rewrite Hbm. cbn [negb]. unfold when at 1.
  run. unfold notice, emit. cbn [prepend app]. reflexivity.
Qed.

Section LinkDown.
Context {hdr : dhcpv6relay_h}.

(** C10.  From the Up state (both listening descriptors present)
    [dhcpv6relay_down] unregisters and closes exactly those two
    descriptors and sets them to -1; [dhcpv6relay_upstream] keeps its
    value, and no [close] of that descriptor occurs.  A following
    [dhcpv6relay_up], whatever it meets, leaves [dhcpv6relay_upstream]
    alone too, and when all its calls succeed the two new listening
    descriptors are stored and registered.  If an upstream socket was in
    place, the datagrams that pass the checks afterwards are relayed
    through that same descriptor without a [socket] call: one that finds
    the local port and fits the scratch buffer is handed to [sendmsg]
    exactly once, on that descriptor, as header, options and datagram. *)
Theorem C10_down_keeps_upstream (g : globals) (uos : up_os) :
  0 <= dhcpv6relay_sock_ll g ->
  0 <= dhcpv6relay_sock_mc g ->
  dhcpv6relay_down g
  = Cont tt (set_sock_mc (-1) (set_sock_ll (-1) g))
      [ERemoveFd (dhcpv6relay_sock_ll g); EClose (dhcpv6relay_sock_ll g);
       ERemoveFd (dhcpv6relay_sock_mc g); EClose (dhcpv6relay_sock_mc g)]
  /\ dhcpv6relay_upstream (set_sock_mc (-1) (set_sock_ll (-1) g))
     = dhcpv6relay_upstream g
  /\ (dhcpv6relay_upstream g <> dhcpv6relay_sock_ll g ->
      dhcpv6relay_upstream g <> dhcpv6relay_sock_mc g ->
      ~ In (EClose (dhcpv6relay_upstream g)) (trace (dhcpv6relay_down g)))
  /\ exists g2 t2,
       exec (dhcpv6relay_up uos) (set_sock_mc (-1) (set_sock_ll (-1) g))
       = Some (g2, t2)
       /\ dhcpv6relay_upstream g2 = dhcpv6relay_upstream g
       /\ (forall sa port a b,
             up_succeeds uos (set_sock_mc (-1) (set_sock_ll (-1) g)) sa port a b ->
             g2 = set_sock_mc (Z.of_N b) (set_sock_ll (Z.of_N a) g)
             /\ registered t2 = [Z.of_N a; Z.of_N b])
       /\ (0 <= dhcpv6relay_upstream g ->
           forall os fd d,
             addressable (ppp_get_remote_number os) ->
             addressable (ppp_peer_authname os) ->
             accepted os g2 d ->
             final (dhcpv6relay_client_event os fd g2) = Some g2
             /\ existsb is_socket (trace (dhcpv6relay_client_event os fd g2)) = false
             /\ (forall up h seg1,
                   In (up, h, seg1)
                     (sent (trace (dhcpv6relay_client_event os fd g2))) ->
                   up = dhcpv6relay_upstream g)
             /\ forall sport,
                  (exists sa, getsockname_result os = Some sa
                              /\ sport_of sa = Some sport) ->
                  Wire.encoded_size (ppp_get_remote_number os)
                    (ppp_peer_authname os) <= 256 ->
                  dhcpv6relay_client_event os fd g2
                  = Cont tt g2
                      ([ERecvfrom fd; log_received;
                        EGetsockname (dhcpv6relay_upstream g);
                        ESendmsg (dhcpv6relay_upstream g)
                          (Wire.head_segment (outer_hop_count os (dg_payload d))
                             (sin6_addr (dg_from d)) sport
                             (ppp_get_remote_number os) (ppp_peer_authname os)
                             (dg_payload d))
                          (dg_payload d)]
                       ++ (if sendmsg_ok os then [] else [log_send_failed]))
                  /\ sent (trace (dhcpv6relay_client_event os fd g2))
                     = [(dhcpv6relay_upstream g,
                         Wire.head_segment (outer_hop_count os (dg_payload d))
                           (sin6_addr (dg_from d)) sport
                           (ppp_get_remote_number os) (ppp_peer_authname os)
                           (dg_payload d),
                         dg_payload d)]).
Proof.
  intros Hll Hmc. rewrite (down_when_up g Hll Hmc).
  split; [reflexivity |]. split; [reflexivity |]. split.
  - intros Hne1 Hne2. cbn [trace In].
    intros [H | [H | [H | [H | []]]]]; inversion H; congruence.
  - destruct (up_frame uos (set_sock_mc (-1) (set_sock_ll (-1) g)))
      as (g2 & t2 & Hexec & (_ & _ & Hup & _)).
    exists g2, t2. split; [exact Hexec |].
    cbn [dhcpv6relay_upstream set_sock_mc set_sock_ll] in Hup.
    split; [exact Hup |]. split.
    + intros sa port a b Hok.
      rewrite (up_succeeds_exec _ _ _ _ _ _ Hok) in Hexec.
      inversion Hexec; subst g2 t2. split; reflexivity.
    + intros Hpos os fd d Hrid Hsid Hacc.
      rewrite <- Hup.
      destruct (upstream_reused os fd g2 d Hrid Hsid Hacc) as (Hfin & Hsock & Hsent);
        [lia |].
      split; [exact Hfin |]. split; [exact Hsock |]. split; [exact Hsent |].
      intros sport Hname Hfit.
      assert (Hconn : connects os g2 g2 []) by (apply connects_reuse; lia).
      assert (Hrel : relays os g2 d g2 sport).
      { split; [| exact Hfit]. constructor; [exact Hacc | eauto | exact Hname]. }
      destruct (relays_forwarded os fd g2 d g2 sport Hrel) as (tc & Hc & E).
      destruct (connects_functional _ _ _ _ _ _ Hconn Hc) as (_ & <-).
      rewrite E. cbn [app trace sent]. split; [reflexivity |].
      now destruct (sendmsg_ok os).
Qed.

End LinkDown.

(** The link is up with listening descriptors 5 and 6 and upstream
    descriptor 7; it goes down and comes up again with descriptors 8 and
    9, which are registered; the upstream descriptor is still 7, and the
    SOLICIT that arrives next is sent through it. *)
Lemma C10_down_keeps_upstream_witness :
  dhcpv6relay_down (set_upstream 7 (g_up false))
  = Cont tt (set_upstream 7 (g_down false))
      [ERemoveFd 5; EClose 5; ERemoveFd 6; EClose 6]
  /\ exists g2 t2,
       exec (dhcpv6relay_up uos_ok) (set_upstream 7 (g_down false)) = Some (g2, t2)
       /\ dhcpv6relay_upstream g2 = 7
       /\ registered t2 = [8; 9]
       /\ sent (trace (@dhcpv6relay_client_event rfc_header
                         (os_ok Byte.xaa [Byte.x01] None None) 8 g2))
          = [(7,
              @Wire.head_segment rfc_header Byte.x00 (sin6_addr client_sa)
                (Byte.x9c, Byte.x40) None None [Byte.x01],
              [Byte.x01])].
Proof.
  destruct (@C10_down_keeps_upstream rfc_header (set_upstream 7 (g_up false)) uos_ok)
    as (Hdown & _ & _ & (g2 & t2 & Hexec & Hup & Hreg & Huse)).
  - simpl. lia.
  - simpl. lia.
  - split; [exact Hdown |]. exists g2, t2.
    split; [exact Hexec |]. split; [exact Hup |]. split.
    + apply (Hreg {| sin6_port := (Byte.x00, Byte.x00);
                     sin6_addr :=
                       [# Byte.xfe; Byte.x80; Byte.x00; Byte.x00;
                          Byte.x00; Byte.x00; Byte.x00; Byte.x00;
                          Byte.x00; Byte.x00; Byte.x00; Byte.x00;
                          Byte.x00; Byte.x00; Byte.x00; Byte.x02 ];
                     sin6_scope_id := 3 |} (Byte.x02, Byte.x23) 8%N 9%N).
      constructor; simpl; try reflexivity; try lia; try discriminate.
      eexists. split; reflexivity.
    + apply (Huse ltac:(simpl; lia) (os_ok Byte.xaa [Byte.x01] None None) 8
               {| dg_payload := [Byte.x01]; dg_from := client_sa |}
               ltac:(simpl; exact I) ltac:(simpl; exact I)).
      * constructor; simpl; try reflexivity; try lia; try discriminate.
      * eexists. split; reflexivity.
      * vm_compute. discriminate.
Defined.

(** * The end-to-end scenarios of the specification, evaluated *)

(** Scenario 1: a one-byte SOLICIT, no identifiers: 34 + 6 + 4 bytes of
    header and options, then the datagram, 45 bytes in all, upstream. *)
Example scenario_1 :
  map (fun x => (fst (fst x), List.length (snd (fst x)), List.length (snd x)))
    (sent (trace (@dhcpv6relay_client_event rfc_header
                    (os_ok Byte.xaa [Byte.x01] None None) 5 (g_up false))))
  = [(7, 44%nat, 1%nat)].
Proof. vm_compute. reflexivity. Qed.

(** Scenario 2: a RELAY_FORW with hop-count 3 on a trusted link is relayed
    with hop-count 4. *)
Example scenario_2 :
  map (fun x => take 2 (snd (fst x)))
    (sent (trace (@dhcpv6relay_client_event rfc_header
                    (os_ok Byte.xaa [Byte.x0c; Byte.x03] None None) 5 (g_up true))))
  = [[Byte.x0c; Byte.x04]].
Proof. vm_compute. reflexivity. Qed.

(** Scenario 3: a RELAY_FORW on an untrusted link is dropped. *)
Example scenario_3 :
  @dhcpv6relay_client_event rfc_header
    (os_ok Byte.xaa [Byte.x0c; Byte.x03] None None) 5 (g_up false)
  = Returned (g_up false) [ERecvfrom 5; log_received; log_discard_untrusted].
Proof. vm_compute. reflexivity. Qed.

(** Scenario 4: a datagram of 1025 bytes is dropped before
    classification. *)
Example scenario_4 :
  @dhcpv6relay_client_event rfc_header
    (os_ok Byte.xaa (repeat Byte.x01 1025) None None) 5 (g_up false)
  = Returned (g_up false) [ERecvfrom 5; log_overrun].
Proof. vm_compute. reflexivity. Qed.

(** Scenario 5: remote-id "abc" and subscriber-id "xyz": the 14 bytes of
    options between RELAY_PORT and RELAY_MSG. *)
Example scenario_5 :
  map (fun x => take 14 (drop 40 (snd (fst x))))
    (sent (trace (@dhcpv6relay_client_event rfc_header
                    (os_ok Byte.xaa [Byte.x01] (Some "abc"%string)
                       (Some "xyz"%string)) 5 (g_up false))))
  = [[Byte.x00; Byte.x25; Byte.x00; Byte.x03; Byte.x61; Byte.x62; Byte.x63;
      Byte.x00; Byte.x26; Byte.x00; Byte.x03; Byte.x78; Byte.x79; Byte.x7a]].
Proof. vm_compute. reflexivity. Qed.

(** Link up from the Down state: both sockets are made, bound and
    registered. *)
Example link_up :
  exec (dhcpv6relay_up uos_ok) (g_down false)
  = Some (set_sock_mc 9 (set_sock_ll 8 (g_down false)),
          [ESocket AF_INET6 8; EFcntl 8;
           EBind 8 {| sin6_port := (Byte.x02, Byte.x23);
                      sin6_addr :=
                        [# Byte.xfe; Byte.x80; Byte.x00; Byte.x00;
                           Byte.x00; Byte.x00; Byte.x00; Byte.x00;
                           Byte.x00; Byte.x00; Byte.x00; Byte.x00;
                           Byte.x00; Byte.x00; Byte.x00; Byte.x02 ];
                      sin6_scope_id := 3 |};
           ESetsockopt 8 "IPV6_UNICAST_HOPS"; ESetsockopt 8 "IPV6_JOIN_GROUP";
           ESocket AF_INET6 9; EFcntl 9;
           EBind 9 {| sin6_port := (Byte.x02, Byte.x23);
                      sin6_addr := all_dhcp_relay_agents_and_servers;
                      sin6_scope_id := 3 |};
           EAddFdCallback 8; EAddFdCallback 9;
           ELog LNotice "DHCPv6 relay: ready."]).
Proof. vm_compute. reflexivity. Qed.

(** * Further properties of the code *)

(** ** [dhcpv6_type2string] *)

Section Type2String.
Context {hdr : dhcpv6relay_h} {mt : dhcpv6_msgtypes}.

(** The names in the order of the [switch]. *)
Lemma type2string_table (msg_type : Z) :
  dhcpv6_type2string msg_type
  = snd <$> List.find (fun e => msg_type =? fst e)
              (combine case_labels case_names).
Proof.
  unfold dhcpv6_type2string, case_labels, case_names. cbn [combine List.find fst].
  repeat (destruct (msg_type =? _); [reflexivity |]). reflexivity.
Qed.

Lemma find_combine_inj (ks : list Z) (vs : list string) (a b : Z) (s : string) :
  List.NoDup vs -> List.length ks = List.length vs ->
  snd <$> List.find (fun e => a =? fst e) (combine ks vs) = Some s ->
  snd <$> List.find (fun e => b =? fst e) (combine ks vs) = Some s ->
  a = b.
Proof.
  intros Hvs. revert ks. induction Hvs as [| v vs Hv Hvs IH]; intros ks Hlen Ha Hb.
  - destruct ks; discriminate.
  - destruct ks as [| k ks]; [discriminate |].
    cbn [combine List.find fst] in Ha, Hb.
    assert (Hin : forall c, snd <$> List.find (fun e => c =? fst e) (combine ks vs)
                            = Some v -> False).
    { intros c Hc. destruct (List.find (fun e => c =? fst e) _) as [[k' v'] |] eqn:Hf;
        simpl in Hc; [| discriminate].
      inversion Hc; subst v'. apply List.find_some in Hf as [Hf _].
      apply List.in_combine_r in Hf. contradiction. }
    destruct (Z.eqb_spec a k) as [Ha' | Ha'], (Z.eqb_spec b k) as [Hb' | Hb'].
    + congruence.
    + inversion Ha; subst s. destruct (Hin b Hb).
    + inversion Hb; subst s. destruct (Hin a Ha).
    + apply (IH ks); auto.
Qed.

Lemma find_combine_none (ks : list Z) (vs : list string) (a : Z) :
  List.length ks = List.length vs ->
  snd <$> List.find (fun e => a =? fst e) (combine ks vs) = None <-> ~ In a ks.
Proof.
  revert vs. induction ks as [| k ks IH]; intros [| v vs] Hlen; try discriminate.
  - simpl. tauto.
  - cbn [combine List.find fst In]. destruct (Z.eqb_spec a k) as [E | E].
    + simpl. split; [discriminate | intros H; exfalso; apply H; auto].
    + rewrite (IH vs) by (simpl in Hlen; lia). intuition congruence.
Qed.

Lemma find_combine_in (ks : list Z) (vs : list string) (k : Z) (s : string) :
  List.NoDup ks -> In (k, s) (combine ks vs) ->
  snd <$> List.find (fun e => k =? fst e) (combine ks vs) = Some s.
Proof.
  intros Hks. revert vs. induction Hks as [| k0 ks Hk0 Hks IH]; intros [| v vs] Hin;
    try destruct Hin.
  - cbn [combine List.find fst]. inversion H; subst. rewrite Z.eqb_refl. reflexivity.
  - cbn [combine List.find fst]. destruct (Z.eqb_spec k k0) as [E | E].
    + subst k0. apply List.in_combine_l in H. contradiction.
    + apply IH, H.
Qed.

(** X1.  [dhcpv6_type2string] gives each of the thirteen message types of
    its [switch] the name written beside its label, returns NULL for every
    other value, and gives no two message types the same name. *)
Theorem type2string_names (a : Z) :
  (forall s, In (a, s) (combine case_labels case_names) ->
             dhcpv6_type2string a = Some s)
  /\ (dhcpv6_type2string a = None <-> ~ In a case_labels)
  /\ forall b s,
       dhcpv6_type2string a = Some s -> dhcpv6_type2string b = Some s -> a = b.
Proof.
  split; [| split].
  - intros s Hin. rewrite type2string_table. apply find_combine_in; [| exact Hin].
    apply case_labels_distinct.
  - rewrite type2string_table. apply find_combine_none. reflexivity.
  - intros b s Ha Hb. rewrite type2string_table in Ha, Hb.
    eapply find_combine_inj; [| | exact Ha | exact Hb]; [| reflexivity].
    repeat (apply List.NoDup_cons; [simpl; intuition discriminate |]).
    apply List.NoDup_nil.
Qed.

End Type2String.

(** The names under the numbering of RFC 8415. *)
Example type2string_rfc :
  map (@dhcpv6_type2string rfc_header rfc_msgtypes) [1; 7; 12; 13; 0; 14]
  = [Some "solicit"; Some "reply"; Some "relay-forw"; Some "relay-repl"; None; None]%string.
Proof. vm_compute. reflexivity. Qed.

(** ** [dhcpv6relay_populate_ll] *)

Lemma streq_cstr (a b : string) : streq a b = true <-> cstr a = cstr b.
Proof.
  unfold streq. rewrite String.eqb_eq. split; [| congruence].
  intros H. apply (f_equal list_byte_of_string) in H.
  now rewrite !list_byte_of_string_of_list_byte in H.
Qed.

Lemma first_ll_some (ifname : string) (ifap : list ifaddrs) (sa : sockaddr_in6) :
  first_ll ifname ifap = Some sa
  <-> exists l1 ifa l2,
        ifap = l1 ++ ifa :: l2
        /\ is_ll_of ifname ifa sa
        /\ Forall (fun x => forall sa', ~ is_ll_of ifname x sa') l1.
Proof.
  unfold is_ll_of. induction ifap as [| ifa ifap IH]; cbn [first_ll].
  - split; [discriminate |]. intros (l1 & x & l2 & E & _). now destruct l1.
  - assert (Hskip :
      (forall sa', ~ (ifa_addr ifa = Some (SA_in6 sa') /\ sin6_scope_id sa' <> 0
                      /\ cstr (ifa_name ifa) = cstr ifname)) ->
      first_ll ifname ifap = Some sa
      <-> exists l1 x l2,
            ifa :: ifap = l1 ++ x :: l2
            /\ (ifa_addr x = Some (SA_in6 sa) /\ sin6_scope_id sa <> 0
                /\ cstr (ifa_name x) = cstr ifname)
            /\ Forall (fun x => forall sa', ~ (ifa_addr x = Some (SA_in6 sa')
                                                /\ sin6_scope_id sa' <> 0
                                                /\ cstr (ifa_name x) = cstr ifname)) l1).
    { intros Hno. rewrite IH. split.
      - intros (l1 & x & l2 & -> & Hx & Hl1). exists (ifa :: l1), x, l2.
        repeat split; try apply Hx. now constructor.
      - intros (l1 & x & l2 & E & Hx & Hl1). destruct l1 as [| y l1].
        + inversion E; subst x. destruct (Hno sa Hx).
        + inversion E; subst y ifap. inversion Hl1; subst. now exists l1, x, l2. }
    destruct (ifa_addr ifa) as [[p | sa6 |] |] eqn:Ha;
      try (apply Hskip; intros sa' (? & _); congruence).
    destruct (Z.eqb_spec (sin6_scope_id sa6) 0) as [Hz | Hz].
    { apply Hskip. intros sa' (E & ? & _). congruence. }
    destruct (streq (ifa_name ifa) ifname) eqn:Hn; cbn [negb].
    + apply streq_cstr in Hn. split.
      * intros E; inversion E; subst sa6. exists [], ifa, ifap. now repeat split.
      * intros (l1 & x & l2 & E & Hx & Hl1). destruct l1 as [| y l1].
        -- inversion E; subst x. destruct Hx as (Hx & _). congruence.
        -- inversion E; subst y. inversion Hl1 as [| ? ? Hy Hrest]; subst.
           exfalso. now apply (Hy sa6).
    + apply Hskip. intros sa' (_ & _ & E). apply streq_cstr in E. congruence.
Qed.

Lemma first_ll_none (ifname : string) (ifap : list ifaddrs) :
  first_ll ifname ifap = None
  <-> Forall (fun x => forall sa, ~ is_ll_of ifname x sa) ifap.
Proof.
  split.
  - intros Hnone. apply List.Forall_forall. intros x Hin sa Hx.
    apply List.in_split in Hin as (l1 & l2 & ->).
    revert Hnone. induction l1 as [| y l1 IH]; cbn [app first_ll].
    + destruct Hx as (-> & Hs & Hn). apply streq_cstr in Hn. rewrite Hn.
      destruct (Z.eqb_spec (sin6_scope_id sa) 0); [contradiction | discriminate].
    + destruct (ifa_addr y) as [[p | sa6 |] |]; try exact IH.
      destruct (sin6_scope_id sa6 =? 0); [exact IH |].
      destruct (streq (ifa_name y) ifname); [discriminate | exact IH].
  - intros Hall. destruct (first_ll ifname ifap) as [sa |] eqn:E; [| reflexivity].
    apply first_ll_some in E as (l1 & x & l2 & -> & Hx & _).
    apply Forall_app in Hall as (_ & Hall).
    inversion Hall as [| ? ? Hy Hrest]; subst.
    exfalso. eapply Hy, Hx.
Qed.

(** X2.  [dhcpv6relay_populate_ll] returns 1, logging nothing, with the
    address of the first entry of the [getifaddrs] list that is an IPv6
    address with a non-zero scope id on the interface named [ppp_ifname()]
    (names compared as C strings); when [getifaddrs] fails or no entry
    qualifies it returns 0 after one error line and writes no address. *)
Theorem populate_ll_first_match (os : up_os) (g : globals) :
  (forall sa,
     dhcpv6relay_populate_ll os g = Cont (1, Some sa) g []
     <-> exists l1 ifa l2,
           getifaddrs_result os = Some (l1 ++ ifa :: l2)
           /\ is_ll_of (ppp_ifname os) ifa sa
           /\ Forall (fun x => forall sa', ~ is_ll_of (ppp_ifname os) x sa') l1)
  /\ ((exists msg, dhcpv6relay_populate_ll os g = Cont (0, None) g [ELog LError msg])
      <-> getifaddrs_result os = None
          \/ exists ifap,
               getifaddrs_result os = Some ifap
               /\ Forall (fun x => forall sa, ~ is_ll_of (ppp_ifname os) x sa) ifap).
Proof.
  unfold dhcpv6relay_populate_ll. split.
  - intros sa. destruct (getifaddrs_result os) as [ifap |].
    + destruct (first_ll (ppp_ifname os) ifap) as [sa' |] eqn:E.
      * split.
        -- intros H; inversion H; subst sa'.
           apply first_ll_some in E as (l1 & x & l2 & -> & Hx & Hl1). eauto 10.
        -- intros (l1 & x & l2 & H & Hx & Hl1). inversion H; subst ifap.
           assert (E' : first_ll (ppp_ifname os) (l1 ++ x :: l2) = Some sa)
             by (apply first_ll_some; eauto 10).
           assert (sa' = sa) by congruence. subst sa'. reflexivity.
      * split; [discriminate |].
        intros (l1 & x & l2 & H & Hx & Hl1). inversion H; subst ifap.
        assert (E' : first_ll (ppp_ifname os) (l1 ++ x :: l2) = Some sa)
          by (apply first_ll_some; eauto 10).
        congruence.
    + split; [discriminate |]. intros (l1 & x & l2 & H & _). discriminate.
  - destruct (getifaddrs_result os) as [ifap |].
    + destruct (first_ll (ppp_ifname os) ifap) as [sa' |] eqn:E.
      * split; [intros (msg & H); discriminate |].
        intros [H | (ifap' & H & Hall)]; [discriminate |].
        inversion H; subst ifap'. apply first_ll_none in Hall. congruence.
      * split; [| intros _; eexists; reflexivity].
        intros _. right. exists ifap. split; [reflexivity |].
        now apply first_ll_none.
    + split; [now left | intros _; eexists; reflexivity].
Qed.

(** ** [dhcpv6relay_down], from any state *)

Lemma set_sock_ll_same (g : globals) : set_sock_ll (dhcpv6relay_sock_ll g) g = g.
Proof. now destruct g. Qed.

Lemma set_sock_mc_same (g : globals) : set_sock_mc (dhcpv6relay_sock_mc g) g = g.
Proof. now destruct g. Qed.

Lemma down_exact (g : globals) :
  dhcpv6relay_down g
  = Cont tt
      (set_sock_mc (closed_fd (dhcpv6relay_sock_mc g))
         (set_sock_ll (closed_fd (dhcpv6relay_sock_ll g)) g))
      (closing (dhcpv6relay_sock_ll g) ++ closing (dhcpv6relay_sock_mc g)).
Proof.
  unfold dhcpv6relay_down, closing, closed_fd. rewrite bind_get.
  destruct (dhcpv6relay_sock_ll g >=? 0) eqn:Hll; unfold when at 1.
  - run. cbn [dhcpv6relay_sock_mc set_sock_ll].
    destruct (dhcpv6relay_sock_mc g >=? 0) eqn:Hmc; unfold when.
    + run. reflexivity.
    + reflexivity.
  - rewrite bind_ret_l, bind_get. rewrite set_sock_ll_same.
    destruct (dhcpv6relay_sock_mc g >=? 0) eqn:Hmc; unfold when.
    + run. reflexivity.
    + cbn [ret]. now rewrite set_sock_mc_same.
Qed.

(** X3.  Whatever the state, [dhcpv6relay_down] ends with both listening
    descriptors absent; it closes exactly the descriptors that were present
    (the link-local one first), takes each out of the event loop before
    closing it, logs nothing, and leaves every other global alone. *)
Theorem down_closes_what_is_open (g : globals) :
  exists g1 t,
    dhcpv6relay_down g = Cont tt g1 t
    /\ dhcpv6relay_sock_ll g1 < 0 /\ dhcpv6relay_sock_mc g1 < 0
    /\ listeners_only g g1
    /\ closed t
       = List.filter (fun fd => 0 <=? fd) [dhcpv6relay_sock_ll g; dhcpv6relay_sock_mc g]
    /\ t = concat (map (fun fd => [ERemoveFd fd; EClose fd]) (closed t)).
Proof.
  do 2 eexists. split; [apply down_exact |].
  unfold listeners_only, closing, closed_fd. cbn [List.filter].
  destruct (Z.geb_spec (dhcpv6relay_sock_ll g) 0),
           (Z.geb_spec (dhcpv6relay_sock_mc g) 0),
           (Z.leb_spec 0 (dhcpv6relay_sock_ll g)),
           (Z.leb_spec 0 (dhcpv6relay_sock_mc g)); try lia;
    cbn; repeat split; lia.
Qed.

(** ** [dhcpv6relay_up] *)

Lemma of_N_ltb (a : N) : (Z.of_N a <? 0) = false.
Proof. apply Z.ltb_ge. lia. Qed.

Lemma of_N_geb (a : N) : (Z.of_N a >=? 0) = true.
Proof. rewrite Z.geb_leb. apply Z.leb_le. lia. Qed.

Lemma call_down_exact {B} (k : unit -> M B) (g : globals) :
  bind (call dhcpv6relay_down) k g
  = prepend (closing (dhcpv6relay_sock_ll g) ++ closing (dhcpv6relay_sock_mc g))
      (k tt (set_sock_mc (closed_fd (dhcpv6relay_sock_mc g))
               (set_sock_ll (closed_fd (dhcpv6relay_sock_ll g)) g))).
Proof. unfold bind, call. now rewrite down_exact. Qed.

Lemma bind_return_ {A B} (k : A -> M B) (g : globals) :
  bind return_ k g = Returned g [].
Proof. reflexivity. Qed.

(** Follow [dhcpv6relay_up] down each of its paths: one goal per way the
    function can end, with the answers of the environment that select it
    as equations in the context. *)
Ltac up_step :=
  run; rewrite ?prepend_prepend; cbn [app].

Ltac up_test := cbn [negb]; unfold when at 1; cbv iota.

Ltac up_abort :=
  unfold error; run; rewrite call_down_exact;
  cbn [dhcpv6relay_sock_ll dhcpv6relay_sock_mc set_sock_ll set_sock_mc];
  unfold closing, closed_fd; rewrite ?of_N_geb; change (-1 >=? 0) with false;
  cbv iota; rewrite bind_return_; cbn [prepend app]; rewrite ?app_nil_r.

Ltac up_idle :=
  unfold error; run; cbv beta iota; run; rewrite bind_return_; cbn [prepend app].

Ltac up_paths uos g :=
  unfold exec, dhcpv6relay_up; rewrite bind_get;
  destruct (dhcpv6relay_server g) as [server |] eqn:Hserver; cbn [is_null when];
  [ rewrite bind_ret_l; unfold dhcpv6relay_populate_ll;
    destruct (getifaddrs_result uos) as [ifap |] eqn:Hifap;
    [ destruct (first_ll (ppp_ifname uos) ifap) as [sa |] eqn:Hsa;
      [ run;
        destruct (getservbyname_result uos) as [port |] eqn:Hport;
        [ run;
          destruct (socket_ll_result uos) as [a |] eqn:Ha; cbn [socket_ret];
          rewrite ?of_N_ltb; change (-1 <? 0) with true; up_test;
          [ up_step;
            destruct (bind_ll_ok uos) eqn:Hbind_ll; up_test;
            [ up_step;
              destruct (inet_pton_result uos <? 0) eqn:Hpton; up_test;
              [ up_abort
              | up_step;
                destruct (join_group_ok uos) eqn:Hjoin; up_test;
                [ up_step;
                  destruct (socket_mc_result uos) as [b |] eqn:Hb; cbn [socket_ret];
                  rewrite ?of_N_ltb; change (-1 <? 0) with true; up_test;
                  [ up_step;
                    destruct (bind_mc_ok uos) eqn:Hbind_mc; up_test;
                    [ run; unfold notice, emit;
                      cbn [prepend app dhcpv6relay_sock_ll dhcpv6relay_sock_mc
                             set_sock_ll set_sock_mc]
                    | up_abort ]
                  | up_abort ]
                | up_abort ] ]
            | up_abort ]
          | up_abort ]
        | up_idle ]
      | up_idle ]
    | up_idle ]
  | up_idle ].

(** X4.  Bringing the link up from the Down state is all or nothing.
    Either both listening sockets are created, kept and registered with
    the event loop, in the order link-local, multicast, and nothing is
    closed; or both descriptors are absent afterwards, every socket the
    function created has been closed again and none is registered.  Only
    the two listening descriptors change. *)
Theorem up_all_or_nothing (uos : up_os) (g : globals) :
  dhcpv6relay_sock_ll g < 0 ->
  dhcpv6relay_sock_mc g < 0 ->
  exists g1 t,
    exec (dhcpv6relay_up uos) g = Some (g1, t)
    /\ listeners_only g g1
    /\ ((0 <= dhcpv6relay_sock_ll g1 /\ 0 <= dhcpv6relay_sock_mc g1
         /\ opened t = [dhcpv6relay_sock_ll g1; dhcpv6relay_sock_mc g1]
         /\ closed t = []
         /\ registered t = [dhcpv6relay_sock_ll g1; dhcpv6relay_sock_mc g1])
        \/ (dhcpv6relay_sock_ll g1 < 0 /\ dhcpv6relay_sock_mc g1 < 0
            /\ closed t = opened t
            /\ registered t = [])).
Proof.
  intros Hll Hmc.
  assert (Hmc' : (dhcpv6relay_sock_mc g >=? 0) = false).
  { destruct (Z.geb_spec (dhcpv6relay_sock_mc g) 0); [lia | reflexivity]. }
  up_paths uos g; rewrite ?Hmc'.
  all: do 2 eexists; split; [reflexivity |]; split; [repeat split |].
  all: cbn [opened closed registered dhcpv6relay_sock_ll dhcpv6relay_sock_mc
              set_sock_ll set_sock_mc];
    rewrite ?of_N_ltb; change (-1 <? 0) with true; cbv iota.
  all: first [ left; repeat split; lia | right; repeat split; lia ].
Qed.

(** From the Down state with every call succeeding, both descriptors are
    present afterwards. *)
Lemma up_all_or_nothing_witness :
  exists g1 t,
    exec (dhcpv6relay_up uos_ok) (g_down false) = Some (g1, t)
    /\ listeners_only (g_down false) g1.
Proof.
  destruct (up_all_or_nothing uos_ok (g_down false)) as (g1 & t & H & Hl & _).
  - simpl. lia.
  - simpl. lia.
  - exists g1, t. split; [exact H | exact Hl].
Defined.

(** X5.  [dhcpv6relay_up] registers a descriptor only on the path where a
    server is configured and every call succeeded.  On that path, and on
    no other, it binds the link-local socket to the interface's link-local
    address, the dhcpv6-server port and the interface's scope, joins the
    group through it, binds the multicast socket to the group address
    [inet_pton] produced with that same port and scope, and registers the
    link-local socket before the multicast one. *)
Theorem up_listens (uos : up_os) (g g1 : globals) (t : list event) :
  exec (dhcpv6relay_up uos) g = Some (g1, t) ->
  (registered t <> [] <-> exists sa port a b, up_succeeds uos g sa port a b)
  /\ forall sa port a b,
       up_succeeds uos g sa port a b ->
       g1 = set_sock_mc (Z.of_N b) (set_sock_ll (Z.of_N a) g)
       /\ t = [ESocket AF_INET6 (Z.of_N a); EFcntl (Z.of_N a);
               EBind (Z.of_N a)
                 {| sin6_port := port; sin6_addr := sin6_addr sa;
                    sin6_scope_id := sin6_scope_id sa |};
               ESetsockopt (Z.of_N a) "IPV6_UNICAST_HOPS";
               ESetsockopt (Z.of_N a) "IPV6_JOIN_GROUP";
               ESocket AF_INET6 (Z.of_N b); EFcntl (Z.of_N b);
               EBind (Z.of_N b)
                 {| sin6_port := port;
                    sin6_addr := if inet_pton_result uos =? 1
                                 then all_dhcp_relay_agents_and_servers
                                 else in6addr_any;
                    sin6_scope_id := sin6_scope_id sa |};
               EAddFdCallback (Z.of_N a); EAddFdCallback (Z.of_N b);
               ELog LNotice "DHCPv6 relay: ready."].
Proof.
  assert (Hmc' : forall z : Z, registered (if z >=? 0 then [ERemoveFd z; EClose z] else [])
                               = []).
  { intros z. now destruct (z >=? 0). }
  revert g1 t. up_paths uos g; intros g1 t Hexec; inversion Hexec; subst g1 t; clear Hexec.
  all: cbn [registered]; rewrite ?Hmc'.
  2: { split.
       - split; [intros _ | discriminate].
         exists sa, port, a, b. constructor; eauto; try congruence.
         apply Z.ltb_ge. exact Hpton.
       - intros sa' port' a' b' [Hs (ifap' & Hi & Hf) Hp Ha' _ _ _ Hb' _].
         assert (ifap' = ifap) by congruence. subst ifap'.
         assert (sa' = sa) by congruence.
         assert (port' = port) by congruence.
         assert (a' = a) by congruence.
         assert (b' = b) by congruence. subst. split; reflexivity. }
  all: split;
    [ split; [intros H; now destruct H |]
    | intros sa' port' a' b' ];
    intros [Hs (ifap' & Hi & Hf) Hp Ha' Hbl Hpt Hj Hb' Hbm] || intros (sa' & port' & a' & b' & [Hs (ifap' & Hi & Hf) Hp Ha' Hbl Hpt Hj Hb' Hbm]);
    try congruence.
  all: try (apply Z.ltb_lt in Hpton; lia).
Qed.

(** Every call succeeds for [uos_ok]: the two sockets are descriptors 8 and
    9, bound to port 547 in scope 3. *)
Lemma up_listens_witness :
  registered
    [ESocket AF_INET6 8; EFcntl 8;
     EBind 8 {| sin6_port := (Byte.x02, Byte.x23);
                sin6_addr :=
                  [# Byte.xfe; Byte.x80; Byte.x00; Byte.x00;
                     Byte.x00; Byte.x00; Byte.x00; Byte.x00;
                     Byte.x00; Byte.x00; Byte.x00; Byte.x00;
                     Byte.x00; Byte.x00; Byte.x00; Byte.x02 ];
                sin6_scope_id := 3 |};
     ESetsockopt 8 "IPV6_UNICAST_HOPS"; ESetsockopt 8 "IPV6_JOIN_GROUP";
     ESocket AF_INET6 9; EFcntl 9;
     EBind 9 {| sin6_port := (Byte.x02, Byte.x23);
                sin6_addr := all_dhcp_relay_agents_and_servers;
                sin6_scope_id := 3 |};
     EAddFdCallback 8; EAddFdCallback 9;
     ELog LNotice "DHCPv6 relay: ready."] <> []
  <-> exists sa port a b, up_succeeds uos_ok (g_down false) sa port a b.
Proof.
  apply (up_listens uos_ok (g_down false)
           (set_sock_mc 9 (set_sock_ll 8 (g_down false)))).
  vm_compute. reflexivity.
Defined.

(** ** [dhcpv6relay_setserver] *)

(** Once an IPv4 address is held, later IPv4 entries are skipped and the
    first IPv6 entry replaces it. *)
Lemma resolve_loop_held (ai : list addrinfo) (sa : sockaddr_storage) :
  Forall well_formed ai ->
  ss_family sa <> 0 -> ss_family sa <> AF_INET6 ->
  match List.find (fun x => ai_family x =? AF_INET6) ai with
  | Some x => resolve_loop ai sa = copy_addr (ai_addr x) sa
  | None => resolve_loop ai sa = sa
  end.
Proof.
  intros Hwf. revert sa. induction Hwf as [| x ai (Hx & Hx0) Hwf IH]; intros sa H0 H6.
  - reflexivity.
  - cbn [resolve_loop List.find].
    destruct (Z.eqb_spec (ss_family sa) AF_INET6); [contradiction |].
    destruct (Z.eqb_spec (ss_family sa) 0); [contradiction |]. cbn [orb].
    destruct (Z.eqb_spec (ai_family x) AF_INET6) as [E | E].
    + cbn [copy_addr ss_family]. rewrite Hx, E. reflexivity.
    + apply IH; assumption.
Qed.

(** X6.  The loop of [dhcpv6relay_setserver] prefers IPv6: from a list
    whose entries carry their own family, [dhcpv6relay_sa] ends up with
    the family of the first IPv6 entry when there is one and of the first
    entry otherwise, and starts with the bytes of that entry's address;
    from an empty list the family stays 0. *)
Theorem setserver_prefers_inet6 (ai : list addrinfo) (data : list byte) :
  Forall well_formed ai ->
  let sa := resolve_loop ai {| ss_family := 0; ss_data := data |} in
  match preferred ai with
  | Some x =>
      ss_family sa = ai_family x
      /\ take (List.length (ss_data (ai_addr x))) (ss_data sa) = ss_data (ai_addr x)
  | None => ai = [] /\ sa = {| ss_family := 0; ss_data := data |}
  end.
Proof.
  intros Hwf. cbv zeta. unfold preferred.
  destruct ai as [| x ai]; [now split |].
  inversion Hwf as [| ? ? (Hx & Hx0) Hwf']; subst.
  cbn [resolve_loop List.find head ss_family]. cbn [Z.eqb orb].
  change (0 =? AF_INET6) with false. cbv iota.
  assert (Hcopy : forall y sa0,
            take (List.length (ss_data (ai_addr y))) (ss_data (copy_addr (ai_addr y) sa0))
            = ss_data (ai_addr y)).
  { intros y sa0. cbn [copy_addr ss_data]. now rewrite take_app_length. }
  destruct (Z.eqb_spec (ai_family x) AF_INET6) as [E | E].
  - cbn [copy_addr ss_family]. rewrite Hx, E. cbn [Z.eqb]. 
    change (AF_INET6 =? AF_INET6) with true. cbv iota.
    split; [cbn; congruence | apply Hcopy].
  - cbn [copy_addr ss_family]. rewrite Hx.
    destruct (Z.eqb_spec (ai_family x) AF_INET6); [contradiction |].
    pose proof (resolve_loop_held ai (copy_addr (ai_addr x)
                  {| ss_family := 0; ss_data := data |}) Hwf') as Hheld.
    cbn [copy_addr ss_family] in Hheld. rewrite Hx in Hheld.
    specialize (Hheld Hx0 E). cbn [copy_addr ss_data ss_family].
    destruct (List.find (fun x0 => ai_family x0 =? AF_INET6) ai) as [y |] eqn:Hf.
    + rewrite Hheld. apply List.find_some in Hf as (Hin & Hy).
      apply Z.eqb_eq in Hy.
      assert (Hwy : well_formed y).
      { rewrite List.Forall_forall in Hwf'. now apply Hwf'. }
      split; [cbn; destruct Hwy; congruence |]. apply Hcopy.
    + rewrite Hheld. split; [cbn; congruence |].
      apply (Hcopy x {| ss_family := 0; ss_data := data |}).
Qed.

(** An IPv4 address (family 2) listed before an IPv6 one: the IPv6 address
    is the one kept. *)
Lemma setserver_prefers_inet6_witness :
  ss_family
    (resolve_loop
       [ {| ai_family := 2;
            ai_addr := {| ss_family := 2; ss_data := [Byte.x02; Byte.x23] |} |};
         {| ai_family := AF_INET6;
            ai_addr := {| ss_family := AF_INET6;
                          ss_data := [Byte.x02; Byte.x23; Byte.x00] |} |} ]
       {| ss_family := 0; ss_data := replicate 126 Byte.x00 |})
  = AF_INET6.
Proof.
  apply (setserver_prefers_inet6
           [ {| ai_family := 2;
                ai_addr := {| ss_family := 2; ss_data := [Byte.x02; Byte.x23] |} |};
             {| ai_family := AF_INET6;
                ai_addr := {| ss_family := AF_INET6;
                              ss_data := [Byte.x02; Byte.x23; Byte.x00] |} |} ]
           (replicate 126 Byte.x00)).
  repeat constructor; simpl; discriminate.
Defined.

Lemma strlen_zero (s : string) : strlen s = 0 <-> cstr s = [].
Proof.
  unfold strlen. destruct (cstr s); cbn [List.length]; split; try lia; try discriminate.
  reflexivity.
Qed.

(** X7.  [dhcpv6relay_setserver] does nothing when [doit] is 0.  Otherwise
    it forgets the server configured before and returns 0 only when the
    name is not empty and [getaddrinfo] fails; the server is set again only
    by a call that returns 1, to the name given, after an address with a
    non-zero family has been stored in [dhcpv6relay_sa] and announced.  A
    missing or empty name, or a name that resolves to no address, leaves
    the relay without a server although the call returns 1.  The
    descriptors and the trust flag are never touched. *)
Theorem setserver_outcome (os : setserver_os) (argv0 : option string) (doit : Z)
    (sa : sockaddr_storage) (g : globals) :
  (doit = 0 -> dhcpv6relay_setserver os argv0 doit sa g = Cont (1, sa) g [])
  /\ (doit <> 0 ->
      exists r sa1 g1 t,
        dhcpv6relay_setserver os argv0 doit sa g = Cont (r, sa1) g1 t
        /\ (r = 0 \/ r = 1)
        /\ (r = 0 <-> (exists name, argv0 = Some name /\ cstr name <> [])
                      /\ getaddrinfo_result os = None)
        /\ (forall s, dhcpv6relay_server g1 = Some s ->
              argv0 = Some s /\ r = 1 /\ dhcpv6relay_sa_family g1 <> 0
              /\ t = [ELog LNotice "DHCPv6 relay: Using server [%s]:%s"])
        /\ ((argv0 = None \/ (exists name, argv0 = Some name /\ cstr name = [])
             \/ (exists ai, getaddrinfo_result os = Some ai
                            /\ Forall (fun x => ss_family (ai_addr x) = 0) ai)) ->
            r = 1 /\ dhcpv6relay_server g1 = None)
        /\ (ss_family sa = dhcpv6relay_sa_family g ->
            ss_family sa1 = dhcpv6relay_sa_family g1)
        /\ dhcpv6relay_sock_ll g1 = dhcpv6relay_sock_ll g
        /\ dhcpv6relay_sock_mc g1 = dhcpv6relay_sock_mc g
        /\ dhcpv6relay_upstream g1 = dhcpv6relay_upstream g
        /\ dhcpv6relay_trusted g1 = dhcpv6relay_trusted g).
Proof.
  split; intros Hdoit; unfold dhcpv6relay_setserver;
    destruct (Z.eqb_spec doit 0) as [E | E]; try contradiction; [reflexivity |].
  rewrite bind_modify.
  assert (Hz' : forall ai sa0,
            Forall (fun x => ss_family (ai_addr x) = 0) ai ->
            ss_family sa0 = 0 -> ss_family (resolve_loop ai sa0) = 0).
  { intros ai. induction ai as [| x ai IH]; intros sa0 Hall H0; [exact H0 |].
    inversion Hall as [| ? ? Hx Hall']; subst.
    cbn [resolve_loop]. rewrite H0.
    change (0 =? AF_INET6) with false. change (0 =? 0) with true. cbv iota.
    cbn [orb copy_addr ss_family]. rewrite Hx.
    change (0 =? AF_INET6) with false. cbv iota.
    apply IH; [exact Hall' | exact Hx]. }
  assert (Hz : forall ai data,
            Forall (fun x => ss_family (ai_addr x) = 0) ai ->
            ss_family (resolve_loop ai {| ss_family := 0; ss_data := data |}) = 0).
  { intros ai data Hall. now apply Hz'. }
  destruct argv0 as [name |].
  2: { do 4 eexists. split; [reflexivity |]. cbn.
       repeat split; auto; try discriminate.
       intros ((name & Hx & _) & _). discriminate. }
  destruct (Z.eqb_spec (strlen name) 0) as [Hn | Hn].
  { apply strlen_zero in Hn. do 4 eexists. split; [reflexivity |]. cbn.
    repeat split; auto; try discriminate.
    intros ((name' & Hx & Hne) & _). congruence. }
  assert (Hne : cstr name <> []) by (intros Hx; now apply strlen_zero in Hx).
  destruct (getaddrinfo_result os) as [ai |] eqn:Hai.
  2: { unfold error. run. do 4 eexists. split; [reflexivity |]. cbn.
       repeat split; eauto; try discriminate.
       exfalso.
       match goal with
       | H : _ \/ _ |- _ =>
           destruct H as [Hx | [(name' & Hx & Hn') | (ai & Hx & _)]]; congruence
       end. }
  rewrite !bind_modify.
  destruct (Z.eqb_spec (ss_family (resolve_loop ai {| ss_family := 0;
                                                      ss_data := ss_data sa |})) 0)
    as [Hf | Hf]; cbn [negb].
  - unfold error. run. do 4 eexists. split; [reflexivity |]. cbn.
    repeat split; auto; try discriminate.
    intros (_ & Hx). discriminate.
  - unfold notice. run. do 4 eexists. split; [reflexivity |]. cbn.
    repeat split; auto; try discriminate.
    + intros (_ & Hx). discriminate.
    + destruct (strdup_ok os); congruence.
    + exfalso.
      match goal with
      | H : _ \/ _ |- _ =>
          destruct H as [Hx | [(name' & Hx & Hn') | (ai' & Hx & Hall)]];
            try congruence
      end.
      inversion Hx; subst ai'. destruct Hf. now apply Hz.
Qed.

(** A call with [doit] = 1 and a name that does not resolve. *)
Lemma setserver_outcome_witness :
  exists r sa1 g1 t,
    dhcpv6relay_setserver {| getaddrinfo_result := None; strdup_ok := true |}
      (Some "dhcp.example.net"%string) 1
      {| ss_family := AF_INET6; ss_data := [] |} (g_down false)
    = Cont (r, sa1) g1 t
    /\ (r = 0 \/ r = 1).
Proof.
  destruct (setserver_outcome {| getaddrinfo_result := None; strdup_ok := true |}
              (Some "dhcp.example.net"%string) 1
              {| ss_family := AF_INET6; ss_data := [] |} (g_down false))
    as (_ & H).
  destruct H as (r & sa1 & g1 & t & H & Hr & _); [lia |].
  exists r, sa1, g1, t. split; [exact H | exact Hr].
Defined.

(** ** The handler as a whole *)

Lemma set_upstream_same (g : globals) : set_upstream (dhcpv6relay_upstream g) g = g.
Proof. now destruct g. Qed.

Section Frame.
Context {hdr : dhcpv6relay_h}.

(** X8.  With identifier strings that fit the address space, one run of
    [dhcpv6relay_client_event] changes no global but
    [dhcpv6relay_upstream]; it calls [recvfrom] once, first, on the
    descriptor it was given; it creates at most one socket and calls
    [sendmsg] at most once; it never registers, unregisters, binds or
    configures a descriptor; and it closes nothing but a socket it has
    just created, in which case nothing is sent and
    [dhcpv6relay_upstream] is left at -1. *)
Theorem client_event_frame (os : client_os) (fd : Z) (g : globals) :
  addressable (ppp_get_remote_number os) ->
  addressable (ppp_peer_authname os) ->
  exists g1 t,
    exec (dhcpv6relay_client_event os fd) g = Some (g1, t)
    /\ g1 = set_upstream (dhcpv6relay_upstream g1) g
    /\ hd_error t = Some (ERecvfrom fd)
    /\ List.filter is_recvfrom t = [ERecvfrom fd]
    /\ (List.length (opened t) <= 1)%nat
    /\ (List.length (sent t) <= 1)%nat
    /\ existsb listener_call t = false
    /\ (closed t = []
        \/ (closed t = opened t /\ sent t = []
            /\ dhcpv6relay_upstream g1 = -1 /\ dhcpv6relay_upstream g < 0)).
Proof.
  intros Hrid Hsid.
  pose proof (client_event_handled os fd g Hrid Hsid) as Hh.
  rewrite exec_final.
  destruct Hh as [Hrecv | d Hrecv Hlen | d Hrecv Hlen Ht | d Hrecv Hlen Ht Htr
                 | d o Hrecv Hlen Hnr Hnrr Htr Hrel]; cbn [final trace].
  1-4: do 2 eexists; split; [reflexivity |]; rewrite set_upstream_same;
    cbn; repeat split; auto.
  rewrite final_prepend, trace_prepend.
  destruct Hrel as [t Hf | g1 t Hc Hn | g1 t sa Hc Hn Hs | g1 t sa sport Hc Hn Hs Hb
                   | g1 t sa sport Hc Hn Hs Hb]; cbn [final trace].
  - do 2 eexists. split; [reflexivity |].
    destruct Hf as [Hneg Hsock | new Hneg Hsock Hconn];
      cbn; rewrite ?of_N_ltb; cbn; repeat split; auto; right; auto.
  - do 2 eexists. split; [reflexivity |].
    destruct Hc as [Hpos | new Hneg Hsock Hconn];
      rewrite ?set_upstream_same;
      cbn; rewrite ?of_N_ltb; cbn; repeat split; auto.
  - do 2 eexists. split; [reflexivity |].
    destruct Hc as [Hpos | new Hneg Hsock Hconn];
      rewrite ?set_upstream_same;
      cbn; rewrite ?of_N_ltb; cbn; repeat split; auto.
  - do 2 eexists. split; [reflexivity |].
    destruct Hc as [Hpos | new Hneg Hsock Hconn];
      rewrite ?set_upstream_same;
      cbn; rewrite ?of_N_ltb; cbn; repeat split; auto.
  - do 2 eexists. split; [reflexivity |].
    destruct Hc as [Hpos | new Hneg Hsock Hconn], (sendmsg_ok os);
      rewrite ?set_upstream_same;
      cbn; rewrite ?of_N_ltb; cbn; repeat split; auto.
Qed.

End Frame.

(** A SOLICIT on a link that is up, with every call succeeding. *)
Lemma client_event_frame_witness :
  exists g1 t,
    exec (@dhcpv6relay_client_event rfc_header
            (os_ok Byte.xaa [Byte.x01] None None) 5) (g_up false) = Some (g1, t)
    /\ g1 = set_upstream (dhcpv6relay_upstream g1) (g_up false).
Proof.
  destruct (@client_event_frame rfc_header (os_ok Byte.xaa [Byte.x01] None None) 5
              (g_up false)) as (g1 & t & H & Hg & _).
  - simpl. exact I.
  - simpl. exact I.
  - exists g1, t. split; [exact H | exact Hg].
Defined.

(** ** What the handler reads of its stack *)

Lemma connects_same_answers (os1 os2 : client_os) (g g1 : globals) (t : list event) :
  same_answers os1 os2 -> connects os1 g g1 t -> connects os2 g g1 t.
Proof.
  intros (_ & Hs & Hc & _) [Hpos | new Hneg Hsock Hconn].
  - now constructor.
  - constructor; congruence.
Qed.

Lemma connect_fails_same_answers (os1 os2 : client_os) (g : globals) (t : list event) :
  same_answers os1 os2 -> connect_fails os1 g t -> connect_fails os2 g t.
Proof.
  intros (_ & Hs & Hc & _) [Hneg Hsock | new Hneg Hsock Hconn].
  - constructor; congruence.
  - apply (connect_fails_connect os2 g new); congruence.
Qed.

Section Stack.
Context {hdr : dhcpv6relay_h}.

Lemma relayed_functional (os : client_os) (D : list byte) (peer : in6_addr)
    (g : globals) (o1 o2 : outcome unit) :
  relayed os D peer g o1 -> relayed os D peer g o2 -> o1 = o2.
Proof.
  intros H1 H2.
  destruct H1 as [t Hf | g1 t Hc Hn | g1 t sa Hc Hn Hs | g1 t sa sport Hc Hn Hs Hb
                 | g1 t sa sport Hc Hn Hs Hb];
    destruct H2 as [t' Hf' | g2 t' Hc' Hn' | g2 t' sa' Hc' Hn' Hs'
                   | g2 t' sa' sport' Hc' Hn' Hs' Hb' | g2 t' sa' sport' Hc' Hn' Hs' Hb'];
    try (exfalso; eapply connects_not_fails; eassumption);
    try (rewrite (connect_fails_functional _ _ _ _ Hf Hf'); reflexivity);
    try (destruct (connects_functional _ _ _ _ _ _ Hc Hc') as (<- & <-));
    try congruence; try lia.
Qed.

Lemma relayed_same_answers (os1 os2 : client_os) (D : list byte) (peer : in6_addr)
    (g : globals) (o : outcome unit) :
  same_answers os1 os2 ->
  outer_hop_count os1 D = outer_hop_count os2 D ->
  relayed os1 D peer g o -> relayed os2 D peer g o.
Proof.
  intros Hsame Hhop Hrel.
  pose proof Hsame as (_ & _ & _ & Hgs & Hrid & Hsid & Hsend).
  assert (Hpush : forall sport len,
            pushed_options os1 sport len = pushed_options os2 sport len).
  { intros. unfold pushed_options. now rewrite Hrid, Hsid. }
  destruct Hrel as [t Hf | g1 t Hc Hn | g1 t sa Hc Hn Hs | g1 t sa sport Hc Hn Hs Hb
                   | g1 t sa sport Hc Hn Hs Hb].
  - apply relayed_unconnected. eapply connect_fails_same_answers; eassumption.
  - apply relayed_no_sockname; [eapply connects_same_answers; eassumption |].
    congruence.
  - apply (relayed_not_ip os2 D peer g g1 t sa);
      [eapply connects_same_answers; eassumption | congruence | assumption].
  - apply (relayed_overflow os2 D peer g g1 t sa sport);
      [eapply connects_same_answers; eassumption | congruence | assumption |].
    now rewrite <- Hrid, <- Hsid.
  - rewrite Hhop, Hpush, Hsend.
    apply (relayed_sent os2 D peer g g1 t sa sport);
      [eapply connects_same_answers; eassumption | congruence | assumption |].
    now rewrite <- Hrid, <- Hsid.
Qed.

(** X9.  When the datagram received covers the bytes of [buffer] the
    handler looks at (at least one byte, and at least two when the first
    is RELAY_FORW), nothing the stack held on entry has any influence:
    two runs that get the same answers from every call end with the same
    globals, the same calls and the same bytes sent. *)
Theorem client_event_ignores_stack (os1 os2 : client_os) (fd : Z) (g : globals) :
  addressable (ppp_get_remote_number os1) ->
  addressable (ppp_peer_authname os1) ->
  same_answers os1 os2 ->
  (forall d, recvfrom_result os1 = Some d -> covers_reads (dg_payload d)) ->
  dhcpv6relay_client_event os1 fd g = dhcpv6relay_client_event os2 fd g.
Proof.
  intros Hrid Hsid Hsame Hcov.
  pose proof Hsame as (Hrecv & _ & _ & _ & Hrid' & Hsid' & _).
  pose proof (client_event_stages os1 fd g) as H1.
  pose proof (client_event_stages os2 fd g) as H2.
  rewrite <- Hrecv in H2.
  destruct (recvfrom_result os1) as [d |] eqn:Hd; [| congruence].
  specialize (Hcov d eq_refl).
  destruct (Nat.leb_spec 1024 (List.length (dg_payload d))) as [Hbig | Hsmall];
    [congruence |].
  assert (Htype : type_byte os2 (dg_payload d) = type_byte os1 (dg_payload d)).
  { destruct (dg_payload d); [destruct Hcov | reflexivity]. }
  assert (Hhop : outer_hop_count os1 (dg_payload d)
                 = outer_hop_count os2 (dg_payload d)).
  { unfold outer_hop_count. rewrite Htype.
    destruct (dg_payload d) as [| b [| b' p]]; [destruct Hcov | | reflexivity].
    cbn [type_byte covers_reads] in *.
    destruct (Z.eqb_spec (byte.unsigned b) DHCPv6_MSGTYPE_RELAY_FORW);
      [contradiction | reflexivity]. }
  rewrite Htype in H2.
  destruct ((byte.unsigned (type_byte os1 (dg_payload d)) =? DHCPv6_MSGTYPE_REPLY)
            || (byte.unsigned (type_byte os1 (dg_payload d))
                =? DHCPv6_MSGTYPE_RELAY_REPL)); [congruence |].
  destruct (negb (dhcpv6relay_trusted g)
            && (byte.unsigned (type_byte os1 (dg_payload d))
                =? DHCPv6_MSGTYPE_RELAY_FORW)); [congruence |].
  rewrite H1, H2. f_equal.
  apply (relayed_functional os2 (dg_payload d) (sin6_addr (dg_from d)) g).
  - apply (relayed_same_answers os1 os2); [assumption | assumption |].
    apply relay_forward_relayed; assumption.
  - rewrite <- Htype. apply relay_forward_relayed; [congruence | congruence | assumption].
Qed.

End Stack.

(** The same SOLICIT met with two different stack contents. *)
Lemma client_event_ignores_stack_witness :
  @dhcpv6relay_client_event rfc_header (os_ok Byte.xaa [Byte.x01] None None) 5
    (g_up false)
  = @dhcpv6relay_client_event rfc_header (os_ok Byte.x55 [Byte.x01] None None) 5
      (g_up false).
Proof.
  apply (@client_event_ignores_stack rfc_header).
  - simpl. exact I.
  - simpl. exact I.
  - repeat split.
  - intros d Hd. inversion Hd. simpl. discriminate.
Defined.

(** ** Sequences of calls *)

Lemma balance_app (fd : Z) (t1 t2 : list event) (n : Z) :
  balance fd (t1 ++ t2) n
  = match balance fd t1 n with
    | Some n1 => balance fd t2 n1
    | None => None
    end.
Proof.
  revert n. induction t1 as [| e t1 IH]; intros n; [reflexivity |].
  destruct e as [l fmt | x | x | c | fam r | x | x | x sa | x o | x | x | x i0 i1];
    cbn [app balance]; try apply IH.
  destruct (c =? fd); [| apply IH]. destruct (0 <? n); [apply IH | reflexivity].
Qed.

(** Decide every comparison in sight, then finish by arithmetic. *)
Ltac settle :=
  repeat match goal with
         | |- context [?a >=? ?b] => destruct (Z.geb_spec a b)
         end;
  unfold held;
  cbn [balance app dhcpv6relay_sock_ll dhcpv6relay_sock_mc dhcpv6relay_upstream
         set_sock_ll set_sock_mc set_upstream];
  repeat match goal with
         | H : context [?a =? ?b] |- _ => destruct (Z.eqb_spec a b); cbn [Z.b2z] in H
         end;
  repeat match goal with
         | |- context [?a =? ?b] => destruct (Z.eqb_spec a b); cbn [Z.b2z]
         end;
  repeat match goal with
         | |- context [?a <? ?b] => destruct (Z.ltb_spec a b)
         end;
  try lia; try (eexists; split; [reflexivity | cbn [Z.b2z]; lia]).

Lemma down_keeps (g : globals) :
  exists g1 t,
    exec dhcpv6relay_down g = Some (g1, t)
    /\ both_or_none g1 /\ listeners_only g g1 /\ step_keeps g g1 t.
Proof.
  unfold exec. rewrite down_exact. do 2 eexists. split; [reflexivity |].
  split; [| split; [repeat split |]].
  - unfold both_or_none, closed_fd. cbn.
    destruct (Z.geb_spec (dhcpv6relay_sock_ll g) 0),
             (Z.geb_spec (dhcpv6relay_sock_mc g) 0); lia.
  - intros fd n Hfd Hn. unfold held in Hn. unfold closing, closed_fd. settle.
Qed.

Lemma up_keeps (uos : up_os) (g : globals) :
  both_or_none g ->
  exists g1 t,
    exec (dhcpv6relay_up uos) g = Some (g1, t)
    /\ both_or_none g1 /\ listeners_only g g1 /\ step_keeps g g1 t.
Proof.
  intros Hg.
  assert (Hnn : forall a : N, 0 <= Z.of_N a) by lia.
  up_paths uos g.
  all: do 2 eexists; split; [reflexivity |]; split; [| split; [repeat split |]].
  all: try exact Hg.
  all: try (unfold both_or_none;
            cbn [dhcpv6relay_sock_ll dhcpv6relay_sock_mc set_sock_ll set_sock_mc];
            try (destruct (Z.geb_spec (dhcpv6relay_sock_mc g) 0)); lia).
  all: intros fd n Hfd Hn; unfold held in Hn.
  all: try (pose proof (Hnn a)); try (pose proof (Hnn b)).
  all: settle.
Qed.

Lemma client_event_keeps {hdr : dhcpv6relay_h} (os : client_os) (fd : Z) (g : globals) :
  addressable (ppp_get_remote_number os) ->
  addressable (ppp_peer_authname os) ->
  exists g1 t,
    exec (dhcpv6relay_client_event os fd) g = Some (g1, t)
    /\ g1 = set_upstream (dhcpv6relay_upstream g1) g
    /\ step_keeps g g1 t.
Proof.
  intros Hrid Hsid.
  assert (Hnn : forall a : N, 0 <= Z.of_N a) by lia.
  pose proof (client_event_handled os fd g Hrid Hsid) as Hh.
  rewrite exec_final.
  destruct Hh as [Hrecv | d Hrecv Hlen | d Hrecv Hlen Ht | d Hrecv Hlen Ht Htr
                 | d o Hrecv Hlen Hnr Hnrr Htr Hrel]; cbn [final trace].
  1-4: do 2 eexists; split; [reflexivity |]; rewrite set_upstream_same;
    (split; [reflexivity |]); intros x n Hx Hle; cbn [balance]; eauto.
  rewrite final_prepend, trace_prepend.
  destruct Hrel as [t Hf | g1 t Hc Hn | g1 t sa Hc Hn Hs | g1 t sa sport Hc Hn Hs Hb
                   | g1 t sa sport Hc Hn Hs Hb]; cbn [final trace].
  1: destruct Hf as [Hneg Hsock | new Hneg Hsock Hconn].
  3-6: destruct Hc as [Hpos | new Hneg Hsock Hconn].
  all: try (pose proof (Hnn new)).
  all: do 2 eexists; (split; [reflexivity |]); rewrite ?set_upstream_same;
    (split; [reflexivity |]); intros x n Hx Hle; unfold held in Hle;
    try destruct (sendmsg_ok os);
    unfold log_received, log_socket_failed, log_connect_failed, log_no_sockname,
      log_not_ip, overflow_log, log_send_failed; cbn [balance app]; settle.
Qed.

Lemma setserver_keeps (os : setserver_os) (argv0 : option string) (doit : Z)
    (sa : sockaddr_storage) (g : globals) :
  exists r sa1 g1 t,
    dhcpv6relay_setserver os argv0 doit sa g = Cont (r, sa1) g1 t
    /\ dhcpv6relay_sock_ll g1 = dhcpv6relay_sock_ll g
    /\ dhcpv6relay_sock_mc g1 = dhcpv6relay_sock_mc g
    /\ dhcpv6relay_upstream g1 = dhcpv6relay_upstream g
    /\ ((dhcpv6relay_server g <> None -> dhcpv6relay_sa_family g <> 0) ->
        dhcpv6relay_server g1 <> None -> dhcpv6relay_sa_family g1 <> 0)
    /\ (ss_family sa = dhcpv6relay_sa_family g ->
        ss_family sa1 = dhcpv6relay_sa_family g1)
    /\ forall fd n, balance fd t n = Some n.
Proof.
  unfold dhcpv6relay_setserver.
  destruct (doit =? 0); [do 4 eexists; split; [reflexivity |]; auto 10 |].
  rewrite bind_modify.
  destruct argv0 as [name |];
    [| do 4 eexists; split; [reflexivity |]; cbn; auto 10].
  destruct (strlen name =? 0);
    [do 4 eexists; split; [reflexivity |]; cbn; auto 10 |].
  destruct (getaddrinfo_result os) as [ai |];
    [| unfold error; run; do 4 eexists; split; [reflexivity |]; cbn; auto 10].
  rewrite !bind_modify.
  destruct (Z.eqb_spec (ss_family (resolve_loop ai {| ss_family := 0;
                                                      ss_data := ss_data sa |})) 0);
    cbn [negb]; unfold error, notice; run;
    do 4 eexists; (split; [reflexivity |]); cbn; auto 10.
Qed.

(** The copy of line 112 stays inside the storage when the address is no
    longer than it. *)
Lemma resolve_loop_length (ai : list addrinfo) (sa : sockaddr_storage) :
  Forall (fun x => (List.length (ss_data (ai_addr x)) <= List.length (ss_data sa))%nat)
    ai ->
  List.length (ss_data (resolve_loop ai sa)) = List.length (ss_data sa).
Proof.
  revert sa. induction ai as [| x ai IH]; intros sa Hfit; [reflexivity |].
  inversion Hfit as [| ? ? Hx Hrest]; subst.
  assert (Hcopy : List.length (ss_data (copy_addr (ai_addr x) sa))
                  = List.length (ss_data sa)).
  { cbn [copy_addr ss_data]. rewrite length_app, length_drop. lia. }
  cbn [resolve_loop].
  destruct (ss_family sa =? AF_INET6); [reflexivity |].
  destruct ((ss_family sa =? 0) || (ai_family x =? AF_INET6)).
  - destruct (ss_family (copy_addr (ai_addr x) sa) =? AF_INET6); [exact Hcopy |].
    rewrite IH; [exact Hcopy |]. now rewrite Hcopy.
  - now apply IH.
Qed.

Lemma setserver_storage (os : setserver_os) (argv0 : option string) (doit : Z)
    (sa sa1 : sockaddr_storage) (g g1 : globals) (r : Z) (t : list event) :
  addresses_fit (Option_server os argv0 doit) ->
  List.length (ss_data sa) = 126%nat ->
  dhcpv6relay_setserver os argv0 doit sa g = Cont (r, sa1) g1 t ->
  List.length (ss_data sa1) = 126%nat.
Proof.
  cbn [addresses_fit]. intros Hfit Hlen. unfold dhcpv6relay_setserver.
  destruct (doit =? 0); [intros E; inversion E; now subst |].
  rewrite bind_modify.
  destruct argv0 as [name |]; [| intros E; inversion E; now subst].
  destruct (strlen name =? 0); [intros E; inversion E; now subst |].
  destruct (getaddrinfo_result os) as [ai |];
    [| unfold error; run; intros E; inversion E; now subst].
  rewrite !bind_modify.
  assert (Hres : List.length
                   (ss_data (resolve_loop ai {| ss_family := 0;
                                                ss_data := ss_data sa |}))
                 = 126%nat).
  { rewrite resolve_loop_length; cbn [ss_data]; [exact Hlen |]. now rewrite Hlen. }
  destruct (negb (ss_family (resolve_loop ai {| ss_family := 0;
                                                ss_data := ss_data sa |}) =? 0));
    unfold error, notice; run; intros E; inversion E; now subst.
Qed.

Section Lifecycle.
Context {hdr : dhcpv6relay_h}.

(** One call keeps the state consistent and the descriptor count right. *)
Lemma dispatch_keeps (n : notification) (s : state) :
  answers_fit n ->
  consistent s ->
  exists s1 t,
    dispatch n s = Some (s1, t)
    /\ consistent s1
    /\ step_keeps (st_globals s) (st_globals s1) t.
Proof.
  intros Hfit (Hb & Hsrv & Hfam).
  destruct n as [os argv0 doit | v | uos | | os fd]; cbn [dispatch].
  - destruct (setserver_keeps os argv0 doit (st_sa s) (st_globals s))
      as (r & sa1 & g1 & t & E & Hll & Hmc & Hup & Hs1 & Hf1 & Hbal).
    rewrite E. do 2 eexists. split; [reflexivity |]. split.
    + unfold consistent, both_or_none in *. cbn [st_globals st_sa].
      rewrite Hll, Hmc. auto.
    + intros fd n Hfd Hn. exists n. split; [apply Hbal |].
      cbn [st_globals]. unfold held in *. now rewrite Hll, Hmc, Hup.
  - do 2 eexists. split; [reflexivity |]. split.
    + unfold consistent. cbn. auto.
    + intros fd n Hfd Hn. exists n. split; [reflexivity | exact Hn].
  - destruct (up_keeps uos (st_globals s) Hb)
      as (g1 & t & E & Hb1 & (Ht & Hs1 & Hu & Hf1) & Hk).
    rewrite E. do 2 eexists. split; [reflexivity |]. split; [| exact Hk].
    unfold consistent. cbn [st_globals st_sa]. rewrite Hs1, Hf1. auto.
  - destruct (down_keeps (st_globals s))
      as (g1 & t & E & Hb1 & (Ht & Hs1 & Hu & Hf1) & Hk).
    rewrite E. do 2 eexists. split; [reflexivity |]. split; [| exact Hk].
    unfold consistent. cbn [st_globals st_sa]. rewrite Hs1, Hf1. auto.
  - destruct Hfit as (Hrid & Hsid).
    destruct (client_event_keeps os fd (st_globals s) Hrid Hsid)
      as (g1 & t & E & Hg1 & Hk).
    rewrite E. do 2 eexists. split; [reflexivity |]. split; [| exact Hk].
    unfold consistent, both_or_none in *. cbn [st_globals st_sa].
    rewrite Hg1. cbn. auto.
Qed.

Lemma run_all_keeps (ns : list notification) (s : state) :
  Forall answers_fit ns ->
  consistent s ->
  exists s1 t,
    run_all ns s = Some (s1, t)
    /\ consistent s1
    /\ step_keeps (st_globals s) (st_globals s1) t.
Proof.
  intros Hfit. revert s. induction Hfit as [| n ns Hn Hfit IH]; intros s Hs.
  - exists s, []. split; [reflexivity |]. split; [exact Hs |].
    intros fd k Hfd Hle. exists k. split; [reflexivity | exact Hle].
  - destruct (dispatch_keeps n s Hn Hs) as (s1 & t1 & E1 & Hs1 & Hk1).
    destruct (IH s1 Hs1) as (s2 & t2 & E2 & Hs2 & Hk2).
    exists s2, (t1 ++ t2). cbn [run_all]. rewrite E1, E2.
    split; [reflexivity |]. split; [exact Hs2 |].
    intros fd k Hfd Hle.
    destruct (Hk1 fd k Hfd Hle) as (n1 & Hb1 & Hle1).
    destruct (Hk2 fd n1 Hfd Hle1) as (n2 & Hb2 & Hle2).
    exists n2. rewrite balance_app, Hb1. auto.
Qed.

Lemma run_all_storage (ns : list notification) (s s1 : state) (t : list event) :
  Forall addresses_fit ns ->
  List.length (ss_data (st_sa s)) = 126%nat ->
  run_all ns s = Some (s1, t) ->
  List.length (ss_data (st_sa s1)) = 126%nat.
Proof.
  intros Hfit. revert s t. induction Hfit as [| n ns Hn Hfit IH]; intros s t Hlen.
  - intros E. inversion E. now subst.
  - cbn [run_all].
    destruct (dispatch n s) as [[s' t1] |] eqn:Ed; [| discriminate].
    destruct (run_all ns s') as [[s2 t2] |] eqn:Er; [| discriminate].
    intros E. inversion E; subst s2 t. apply (IH s' t2); [| exact Er].
    destruct n as [os argv0 doit | v | uos | | os fd]; cbn [dispatch] in Ed.
    + destruct (dhcpv6relay_setserver os argv0 doit (st_sa s) (st_globals s))
        as [[r sa1] g1 t' | |] eqn:Es; try discriminate.
      inversion Ed; subst s' t1. cbn [st_sa].
      exact (setserver_storage _ _ _ _ _ _ _ _ _ Hn Hlen Es).
    + inversion Ed; subst s' t1. exact Hlen.
    + destruct (exec (dhcpv6relay_up uos) (st_globals s)) as [[g1 t'] |];
        inversion Ed; subst s' t1; exact Hlen.
    + destruct (exec dhcpv6relay_down (st_globals s)) as [[g1 t'] |];
        inversion Ed; subst s' t1; exact Hlen.
    + destruct (exec (dhcpv6relay_client_event os fd) (st_globals s)) as [[g1 t'] |];
        inversion Ed; subst s' t1; exact Hlen.
Qed.

(** X10.  Whatever calls pppd makes, in whatever order and whatever the
    environment answers, every call returns: the handler never reads or
    writes outside [buffer] or [fwd_head].  After each call the two
    listening descriptors are both present or both absent, and a
    configured server has a resolved address (the family of
    [dhcpv6relay_sa] is not 0).  As long as the addresses [getaddrinfo]
    returns are no longer than [dhcpv6relay_sa], the copy of line 112
    stays inside it: the storage keeps its size. *)
Theorem lifecycle_consistent (ns : list notification) :
  Forall answers_fit ns ->
  exists s t,
    run_all ns initial = Some (s, t)
    /\ both_or_none (st_globals s)
    /\ (dhcpv6relay_server (st_globals s) <> None ->
        dhcpv6relay_sa_family (st_globals s) <> 0
        /\ ss_family (st_sa s) <> 0)
    /\ (Forall addresses_fit ns ->
        List.length (ss_data (st_sa s)) = List.length (ss_data (st_sa initial))).
Proof.
  intros Hfit.
  destruct (run_all_keeps ns initial Hfit) as (s & t & E & (Hb & Hs & Hf) & _).
  - unfold consistent, both_or_none. cbn. repeat split; try lia; congruence.
  - exists s, t. split; [exact E |]. split; [exact Hb |]. split.
    + intros Hsrv. rewrite Hf. auto.
    + intros Haddr. apply (run_all_storage ns initial s t Haddr); [| exact E].
      reflexivity.
Qed.

(** X11.  Over any sequence of calls from the initial state, the plugin
    closes only descriptors it obtained from [socket] and has not closed
    since, and every descriptor its variables hold at the end is still
    open: for each descriptor, the count of [socket] results minus
    [close] calls never drops below zero along the trace and ends no
    lower than the number of variables that hold it. *)
Theorem lifecycle_descriptors (ns : list notification) (fd : Z) :
  Forall answers_fit ns ->
  0 <= fd ->
  exists s t n,
    run_all ns initial = Some (s, t)
    /\ balance fd t 0 = Some n
    /\ held (st_globals s) fd <= n.
Proof.
  intros Hfit Hfd.
  destruct (run_all_keeps ns initial Hfit) as (s & t & E & _ & Hk).
  - unfold consistent, both_or_none. cbn. repeat split; try lia; congruence.
  - destruct (Hk fd 0 Hfd) as (n & Hb & Hle).
    + unfold held, initial.
      cbn [st_globals dhcpv6relay_sock_ll dhcpv6relay_sock_mc dhcpv6relay_upstream].
      destruct (Z.eqb_spec (-1) fd); [lia | cbn [Z.b2z]; lia].
    + exists s, t, n. auto.
Qed.

End Lifecycle.

(** The server is configured, the link comes up, a SOLICIT is relayed and
    the link goes down. *)
Lemma lifecycle_consistent_witness :
  exists s t,
    @run_all rfc_header
      [Option_server sos_ok (Some "dhcp.example.net"%string) 1;
       Notify_ipv6_up uos_ok;
       Fd_readable (os_ok Byte.xaa [Byte.x01] None None) 8;
       Notify_ipv6_down] initial = Some (s, t)
    /\ both_or_none (st_globals s)
    /\ List.length (ss_data (st_sa s)) = 126%nat.
Proof.
  destruct (@lifecycle_consistent rfc_header
              [Option_server sos_ok (Some "dhcp.example.net"%string) 1;
               Notify_ipv6_up uos_ok;
               Fd_readable (os_ok Byte.xaa [Byte.x01] None None) 8;
               Notify_ipv6_down]) as (s & t & H & Hb & _ & Hlen).
  - repeat constructor; simpl; exact I.
  - exists s, t. split; [exact H |]. split; [exact Hb |].
    apply Hlen. repeat constructor; simpl; lia.
Defined.

(** The same calls, followed for descriptor 8, the link-local socket. *)
Lemma lifecycle_descriptors_witness :
  exists s t n,
    @run_all rfc_header
      [Option_server sos_ok (Some "dhcp.example.net"%string) 1;
       Notify_ipv6_up uos_ok;
       Fd_readable (os_ok Byte.xaa [Byte.x01] None None) 8;
       Notify_ipv6_down] initial = Some (s, t)
    /\ balance 8 t 0 = Some n.
Proof.
  destruct (@lifecycle_descriptors rfc_header
              [Option_server sos_ok (Some "dhcp.example.net"%string) 1;
               Notify_ipv6_up uos_ok;
               Fd_readable (os_ok Byte.xaa [Byte.x01] None None) 8;
               Notify_ipv6_down] 8) as (s & t & n & H & Hb & _).
  - repeat constructor; simpl; exact I.
  - lia.
  - exists s, t, n. split; [exact H | exact Hb].
Defined.
